(** * Grading categorisation and statistics engine

    A shallow embedding of [assets/js/grading-logic.js]
    ([determineCategory], [calculateGradingStats]) and of the list builder
    of [assets/js/grading-view.js] ([renderStudentExamsList]).

    JavaScript numbers are modelled as exact rationals ([Q], compared with
    [==]); every division whose result the code consumes has a non-zero
    divisor (see the remarks at each definition), so the IEEE values
    [Infinity] and [NaN] never enter a result.

    The engine rounds every arithmetic result to a double.  The classifier
    is therefore also given over abstract operations ([NumberOps],
    [determineCategoryWith]), with the rounded operations as one instance,
    and its theorems are proved for all of them.  The sums of the
    aggregator are exact: theorems that depend on their value say so, the
    others state facts that rounding does not change (which category a
    pair falls in, which keys exist, how many pairs are counted). *)

From Stdlib Require Import QArith Qminmax Qround Qabs ZArith List String
  Sorting.Sorted Sorting.Permutation Lia Lqa.
From stdpp Require Import gmap strings.

Local Open Scope Q_scope.

(** ** Data model *)

(** The five category keys returned by [determineCategory]. *)
Inductive Category : Type :=
  | aiHigh
  | aiLow
  | lowScore
  | gradedOnce
  | graded2Plus.

Record Thresholds : Type := mkThresholds {
  aiConfidenceThreshold : Q;
  studentScoreThreshold : Q
}.

(** A grade entry; the numeric fields may be missing on an entry that was
    created lazily (the code reads them through [|| 0] and [?? 0]). *)
Record Grade : Type := mkGrade {
  questionId : string;
  confidence : option Q;
  aiSuggestedScore : option Q;
  manualStatus : option Q
}.

Record Student : Type := mkStudent {
  student_id : string;
  student_name : string;
  grades : option (list Grade)
}.

(** [{ id, points, subquestions? }]: subquestions are questions again; the
    code reads only two levels. *)
#[warnings="-register-all"]
Inductive Question : Type :=
  mkQuestion (id : string) (points : option Q)
             (subquestions : option (list Question)).

Definition question_id (q : Question) : string :=
  match q with mkQuestion i _ _ => i end.
Definition question_points (q : Question) : option Q :=
  match q with mkQuestion _ p _ => p end.
Definition question_subquestions (q : Question) : option (list Question) :=
  match q with mkQuestion _ _ s => s end.

Record Repository : Type := mkRepository {
  questions : option (list Question);
  studentSubmissions : option (list Student)
}.

(** ** JavaScript operators on optional numbers *)

(** [x || 0]: a missing field and the number 0 are both falsy. *)
Definition or_zero (x : option Q) : Q :=
  match x with
  | Some v => if Qeq_bool v 0 then 0 else v
  | None => 0
  end.

(** [x ?? 0]: only a missing field is replaced. *)
Definition nullish_zero (x : option Q) : Q :=
  match x with
  | Some v => v
  | None => 0
  end.

(** [a < b] and [a >= b] on numbers, as booleans. *)
Definition Qlt_bool (a b : Q) : bool := negb (Qle_bool b a).
Definition Qge_bool (a b : Q) : bool := Qle_bool b a.

(** ** The category classifier (grading-logic.js, lines 11-21) *)

Definition scorePercentage (score maxPoints : Q) : Q :=
  if Qlt_bool 0 maxPoints then (score / maxPoints) * 100 else 0.

Definition determineCategory (confidence score maxPoints manualStatus : Q)
    (thresholds : Thresholds) : Category :=
  if Qge_bool manualStatus 2 then graded2Plus
  else if Qeq_bool manualStatus 1 then gradedOnce
  else
    let sp := scorePercentage score maxPoints in
    if Qlt_bool confidence (aiConfidenceThreshold thresholds) then aiLow
    else if Qlt_bool sp (studentScoreThreshold thresholds) then lowScore
    else aiHigh.

(** ** The classifier over the arithmetic of the engine

    The only arithmetic of [determineCategory] is the quotient
    [score / maxPoints] and its product with 100.  A JavaScript engine
    evaluates both in IEEE 754 binary64 and rounds each result to the
    nearest double; the comparisons that follow are exact.  [NumberOps]
    abstracts the two operations, so that a statement over an arbitrary
    [ops] holds for the rounded arithmetic of the engine as well as for the
    exact one. *)
Record NumberOps : Type := mkNumberOps {
  num_div : Q -> Q -> Q;
  num_mul : Q -> Q -> Q
}.

(** Exact rational arithmetic. *)
Definition exactOps : NumberOps := mkNumberOps Qdiv Qmult.

(** Rounding to the nearest double, ties to even, for values in the normal
    range of binary64 (53 significant bits). *)
Definition pow2 (e : Z) : Q :=
  if (0 <=? e)%Z then inject_Z (2 ^ e) else / inject_Z (2 ^ (- e)).

Definition roundHalfEven (x : Q) : Z :=
  let f := Qfloor x in
  match Qcompare (x - inject_Z f) (1 # 2) with
  | Lt => f
  | Gt => (f + 1)%Z
  | Eq => if Z.even f then f else (f + 1)%Z
  end.

Definition binary64 (x : Q) : Q :=
  match Qnum x with
  | Z0 => 0
  | _ =>
      let a := Qabs x in
      let e0 := (Z.log2 (Qnum a) - Z.log2 (Zpos (Qden a)) - 52)%Z in
      let e := if Qlt_bool (a / pow2 e0) (pow2 52) then (e0 - 1)%Z else e0 in
      let m := inject_Z (roundHalfEven (a / pow2 e)) * pow2 e in
      Qred (if Qle_bool 0 x then m else - m)
  end.

(** The arithmetic of the engine: each operation is rounded once. *)
Definition binary64Ops : NumberOps :=
  mkNumberOps (fun a b => binary64 (a / b)) (fun a b => binary64 (a * b)).

(** [maxPoints > 0 ? (score / maxPoints) * 100 : 0] (line 18). *)
Definition scorePercentageWith (ops : NumberOps) (score maxPoints : Q) : Q :=
  if Qlt_bool 0 maxPoints
  then num_mul ops (num_div ops score maxPoints) 100
  else 0.

(** [determineCategory] (lines 11-21) over the operations [ops]. *)
Definition determineCategoryWith (ops : NumberOps)
    (confidence score maxPoints manualStatus : Q)
    (thresholds : Thresholds) : Category :=
  if Qge_bool manualStatus 2 then graded2Plus
  else if Qeq_bool manualStatus 1 then gradedOnce
  else
    let sp := scorePercentageWith ops score maxPoints in
    if Qlt_bool confidence (aiConfidenceThreshold thresholds) then aiLow
    else if Qlt_bool sp (studentScoreThreshold thresholds) then lowScore
    else aiHigh.

(** The classifier as the specification words it: six steps, the first
    matching one wins.  Step 3 computes the score percentage with the
    operations [ops]; the comparisons are those of the order of [Q]. *)
Inductive classify_spec (ops : NumberOps)
    (confidence score maxPoints manualStatus : Q)
    (thresholds : Thresholds) : Category -> Prop :=
  | step1 :
      2 <= manualStatus ->
      classify_spec ops confidence score maxPoints manualStatus thresholds
        graded2Plus
  | step2 :
      ~ 2 <= manualStatus -> manualStatus == 1 ->
      classify_spec ops confidence score maxPoints manualStatus thresholds
        gradedOnce
  | step4 :
      ~ 2 <= manualStatus -> ~ manualStatus == 1 ->
      confidence < aiConfidenceThreshold thresholds ->
      classify_spec ops confidence score maxPoints manualStatus thresholds
        aiLow
  | step5 sp :
      ~ 2 <= manualStatus -> ~ manualStatus == 1 ->
      (0 < maxPoints ->
       sp == num_mul ops (num_div ops score maxPoints) 100) ->
      (~ 0 < maxPoints -> sp == 0) ->
      ~ confidence < aiConfidenceThreshold thresholds ->
      sp < studentScoreThreshold thresholds ->
      classify_spec ops confidence score maxPoints manualStatus thresholds
        lowScore
  | step6 sp :
      ~ 2 <= manualStatus -> ~ manualStatus == 1 ->
      (0 < maxPoints ->
       sp == num_mul ops (num_div ops score maxPoints) 100) ->
      (~ 0 < maxPoints -> sp == 0) ->
      ~ confidence < aiConfidenceThreshold thresholds ->
      ~ sp < studentScoreThreshold thresholds ->
      classify_spec ops confidence score maxPoints manualStatus thresholds
        aiHigh.

(** ** The statistics aggregator (grading-logic.js, lines 30-115) *)

(** [globalStats]: weighted percentages of the whole exam. *)
Record GlobalStats : Type := mkGlobalStats {
  g_aiHigh : Q;
  g_aiLow : Q;
  g_lowScore : Q;
  g_gradedOnce : Q;
  g_graded2Plus : Q;
  totalWeight : Q
}.

(** An entry of [questionStats]: raw counts while a question is being
    processed, percentages of the question's own sample afterwards. *)
Record QuestionStats : Type := mkQuestionStats {
  q_aiHigh : Q;
  q_aiLow : Q;
  q_lowScore : Q;
  q_gradedOnce : Q;
  q_graded2Plus : Q;
  totalCount : Q
}.

Record GradingStats : Type := mkGradingStats {
  globalStats : GlobalStats;
  questionStats : gmap string QuestionStats
}.

Definition zeroGlobalStats : GlobalStats := mkGlobalStats 0 0 0 0 0 0.
Definition zeroQuestionStats : QuestionStats := mkQuestionStats 0 0 0 0 0 0.

(** [arr.length] as a number. *)
Definition len {A : Type} (l : list A) : Q := inject_Z (Z.of_nat (length l)).

(** [globalStats[category] += contribution; globalStats.totalWeight += contribution] *)
Definition addContribution (category : Category) (contribution : Q)
    (g : GlobalStats) : GlobalStats :=
  let g' :=
    match category with
    | aiHigh => mkGlobalStats (g_aiHigh g + contribution) (g_aiLow g) (g_lowScore g)
                  (g_gradedOnce g) (g_graded2Plus g) (totalWeight g)
    | aiLow => mkGlobalStats (g_aiHigh g) (g_aiLow g + contribution) (g_lowScore g)
                  (g_gradedOnce g) (g_graded2Plus g) (totalWeight g)
    | lowScore => mkGlobalStats (g_aiHigh g) (g_aiLow g) (g_lowScore g + contribution)
                  (g_gradedOnce g) (g_graded2Plus g) (totalWeight g)
    | gradedOnce => mkGlobalStats (g_aiHigh g) (g_aiLow g) (g_lowScore g)
                  (g_gradedOnce g + contribution) (g_graded2Plus g) (totalWeight g)
    | graded2Plus => mkGlobalStats (g_aiHigh g) (g_aiLow g) (g_lowScore g)
                  (g_gradedOnce g) (g_graded2Plus g + contribution) (totalWeight g)
    end in
  mkGlobalStats (g_aiHigh g') (g_aiLow g') (g_lowScore g') (g_gradedOnce g')
    (g_graded2Plus g') (totalWeight g' + contribution).

(** [entry[category]++; entry.totalCount++] *)
Definition countPair (category : Category) (e : QuestionStats) : QuestionStats :=
  let e' :=
    match category with
    | aiHigh => mkQuestionStats (q_aiHigh e + 1) (q_aiLow e) (q_lowScore e)
                  (q_gradedOnce e) (q_graded2Plus e) (totalCount e)
    | aiLow => mkQuestionStats (q_aiHigh e) (q_aiLow e + 1) (q_lowScore e)
                  (q_gradedOnce e) (q_graded2Plus e) (totalCount e)
    | lowScore => mkQuestionStats (q_aiHigh e) (q_aiLow e) (q_lowScore e + 1)
                  (q_gradedOnce e) (q_graded2Plus e) (totalCount e)
    | gradedOnce => mkQuestionStats (q_aiHigh e) (q_aiLow e) (q_lowScore e)
                  (q_gradedOnce e + 1) (q_graded2Plus e) (totalCount e)
    | graded2Plus => mkQuestionStats (q_aiHigh e) (q_aiLow e) (q_lowScore e)
                  (q_gradedOnce e) (q_graded2Plus e + 1) (totalCount e)
    end in
  mkQuestionStats (q_aiHigh e') (q_aiLow e') (q_lowScore e') (q_gradedOnce e')
    (q_graded2Plus e') (totalCount e' + 1).

(** The conversion of an entry to percentages, guarded by [total > 0]; the
    key [totalCount] keeps the raw count. *)
Definition toPercentages (e : QuestionStats) : QuestionStats :=
  let total := totalCount e in
  if Qlt_bool 0 total then
    mkQuestionStats ((q_aiHigh e / total) * 100) ((q_aiLow e / total) * 100)
      ((q_lowScore e / total) * 100) ((q_gradedOnce e / total) * 100)
      ((q_graded2Plus e / total) * 100) total
  else e.

(** The helper [findGrade]: the first submission with the given id, then the
    first grade with the given question id. *)
Definition findGrade (submissions : list Student) (studentId qid : string)
    : option Grade :=
  match List.find (fun s => String.eqb (student_id s) studentId) submissions with
  | None => None
  | Some student =>
      match grades student with
      | None => None
      | Some gs => List.find (fun g => String.eqb (questionId g) qid) gs
      end
  end.

(** [isParent ? question.subquestions : [question]]; never empty. *)
Definition subItems (question : Question) : list Question :=
  match question_subquestions question with
  | Some (sub :: rest) => sub :: rest
  | _ => [question]
  end.

(** The category the aggregator gives to one (item, student) pair
    (lines 80-90): ['aiLow'] unless a grade is found. *)
Definition aggregatorCategory (submissions : list Student) (parameters : Thresholds)
    (item : Question) (student : Student) : Category :=
  let maxPoints := or_zero (question_points item) in
  match findGrade submissions (student_id student) (question_id item) with
  | Some grade =>
      determineCategory (or_zero (confidence grade)) (or_zero (aiSuggestedScore grade))
        maxPoints (or_zero (manualStatus grade)) parameters
  | None => aiLow
  end.

(** The mutable state of one call: [globalStats] and [questionStats]. *)
Definition AggState : Type := GlobalStats * gmap string QuestionStats.

(** Body of the innermost [forEach] (lines 79-100).  The divisor
    [studentSubmissions.length] is positive whenever this body runs. *)
Definition processStudent (submissions : list Student) (parameters : Thresholds)
    (qid : string) (item : Question) (weightPerSubItem : Q)
    (st : AggState) (student : Student) : AggState :=
  let category := aggregatorCategory submissions parameters item student in
  let contribution := (1 / len submissions) * weightPerSubItem in
  (addContribution category contribution (fst st),
   alter (countPair category) qid (snd st)).

(** Body of [subItems.forEach] (lines 74-101). *)
Definition processItem (submissions : list Student) (parameters : Thresholds)
    (qid : string) (weightPerSubItem : Q) (st : AggState) (item : Question)
    : AggState :=
  fold_left (processStudent submissions parameters qid item weightPerSubItem)
    submissions st.

(** Body of [repository.questions.forEach] (lines 59-112).  [subItems] is
    never empty, so [weightPerSubItem] divides by a positive length. *)
Definition processQuestion (submissions : list Student) (parameters : Thresholds)
    (weightPerQuestion : Q) (st : AggState) (question : Question) : AggState :=
  let items := subItems question in
  let weightPerSubItem := weightPerQuestion / len items in
  let qid := question_id question in
  let st0 : AggState := (fst st, <[qid := zeroQuestionStats]> (snd st)) in
  let st1 := fold_left (processItem submissions parameters qid weightPerSubItem)
               items st0 in
  (fst st1, alter toPercentages qid (snd st1)).

(** [calculateGradingStats]; [None] is the [null] sentinel.  With no
    question the quotient [100 / numQuestions] is never read. *)
Definition calculateGradingStats (repository : option Repository)
    (parameters : Thresholds) : option GradingStats :=
  match repository with
  | None => None
  | Some r =>
      match questions r, studentSubmissions r with
      | Some qs, Some submissions =>
          let numQuestions := len qs in
          let weightPerQuestion := 100 / numQuestions in
          let st := fold_left (processQuestion submissions parameters weightPerQuestion)
                      qs (zeroGlobalStats, ∅) in
          Some (mkGradingStats (fst st) (snd st))
      | _, _ => None
      end
  end.

(** ** The triage list builder (grading-view.js, lines 765-931) *)

(** The two threshold keys of [localStorage], as the integers their stored
    strings parse to; [None] when the key is unset (or empty). *)
Record ThresholdStorage : Type := mkThresholdStorage {
  stored_aiConfidenceThreshold : option Z;
  stored_studentScoreThreshold : option Z
}.

(** [parseInt(localStorage.getItem(key) || '80', 10)], resp. ['50']. *)
Definition storedThresholds (ls : ThresholdStorage) : Thresholds :=
  mkThresholds
    (inject_Z (default 80%Z (stored_aiConfidenceThreshold ls)))
    (inject_Z (default 50%Z (stored_studentScoreThreshold ls))).

(** An entry of [allItems]. *)
Record Item : Type := mkItem {
  taskName : string;
  item_confidence : Q;
  category : Z;
  studentName : string;
  item_questionId : string
}.

Definition getCategoryCode (catString : Category) : Z :=
  match catString with
  | graded2Plus => 4
  | gradedOnce => 3
  | aiHigh => 2
  | lowScore => 1
  | aiLow => 0
  end%Z.

Definition getCategory (ls : ThresholdStorage)
    (confidence score maxPoints manualStatus : Q) : Z :=
  getCategoryCode
    (determineCategory confidence score maxPoints manualStatus (storedThresholds ls)).

(** [student.grades?.find(g => g.questionId === qid)] *)
Definition studentGrade (student : Student) (qid : string) : option Grade :=
  match grades student with
  | None => None
  | Some gs => List.find (fun g => String.eqb (questionId g) qid) gs
  end.

(** [grade?.confidence ?? 0] for the grade of one leaf item. *)
Definition leafConfidence (student : Student) (leaf : Question) : Q :=
  nullish_zero (studentGrade student (question_id leaf) ≫= confidence).

(** The category code computed for the grade of one leaf item
    (lines 840-846, 860-865 and 879-885). *)
Definition leafCategory (ls : ThresholdStorage) (student : Student)
    (leaf : Question) : Z :=
  let grade := studentGrade student (question_id leaf) in
  getCategory ls
    (nullish_zero (grade ≫= confidence))
    (nullish_zero (grade ≫= aiSuggestedScore))
    (or_zero (question_points leaf))
    (or_zero (grade ≫= manualStatus)).

(** A filter value is applied when it is a non-empty string. *)
Definition truthy (s : string) : bool := negb (String.eqb s "").

(** [`${student.name} - ${id}`] *)
Definition taskLabel (student : Student) (qid : string) : string :=
  String.append (student_name student) (String.append " - " qid).

(** [Math.min(...xs)] on a non-empty array [x :: xs]. *)
Definition Math_min_Z (x : Z) (xs : list Z) : Z := fold_left Z.min xs x.
Definition Math_min_Q (x : Q) (xs : list Q) : Q := fold_left Qmin xs x.

(** The entry pushed for one subquestion (lines 859-873). *)
Definition subItem (ls : ThresholdStorage) (student : Student) (sub : Question)
    : Item :=
  mkItem (taskLabel student (question_id sub)) (leafConfidence student sub)
    (leafCategory ls student sub) (student_name student) (question_id sub).

(** The entry pushed for the top-level question itself (lines 891-899). *)
Definition parentItem (student : Student) (qId : string)
    (parentCategory : Z) (parentConfidence : Q) : Item :=
  mkItem (taskLabel student qId) parentConfidence parentCategory
    (student_name student) qId.

(** The parent status of a question with subquestions [sub :: rest]
    (lines 836-852). *)
Definition parentCategoryOf (ls : ThresholdStorage) (student : Student)
    (sub : Question) (rest : list Question) : Z :=
  Math_min_Z (leafCategory ls student sub) (map (leafCategory ls student) rest).
Definition parentConfidenceOf (student : Student)
    (sub : Question) (rest : list Question) : Q :=
  Math_min_Q (leafConfidence student sub) (map (leafConfidence student) rest).

(** Body of [repository.questions.forEach] (lines 826-900): the entries
    pushed for one student and one top-level question, in push order. *)
Definition questionItems (ls : ThresholdStorage) (selectedQuestion : string)
    (student : Student) (question : Question) : list Item :=
  let qId := question_id question in
  let showParent := negb (truthy selectedQuestion) || String.eqb qId selectedQuestion in
  match question_subquestions question with
  | Some (sub :: rest) =>
      let parentCategory := parentCategoryOf ls student sub rest in
      let parentConfidence := parentConfidenceOf student sub rest in
      flat_map
        (fun s =>
           if truthy selectedQuestion && negb (String.eqb (question_id s) selectedQuestion)
           then []
           else [subItem ls student s])
        (sub :: rest)
      ++ (if showParent
          then [parentItem student qId parentCategory parentConfidence]
          else [])
  | _ =>
      if truthy selectedQuestion && negb (String.eqb qId selectedQuestion)
      then []
      else
        let parentCategory := leafCategory ls student question in
        let parentConfidence := leafConfidence student question in
        if showParent
        then [parentItem student qId parentCategory parentConfidence]
        else []
  end.

(** Body of [repository.studentSubmissions.forEach] (lines 822-901). *)
Definition studentItems (ls : ThresholdStorage)
    (selectedQuestion selectedStudent : string) (qs : list Question)
    (student : Student) : list Item :=
  if truthy selectedStudent && negb (String.eqb (student_name student) selectedStudent)
  then []
  else flat_map (questionItems ls selectedQuestion student) qs.

(** [allItems] before sorting. *)
Definition allItems (ls : ThresholdStorage)
    (selectedQuestion selectedStudent : string) (qs : list Question)
    (submissions : list Student) : list Item :=
  flat_map (studentItems ls selectedQuestion selectedStudent qs) submissions.

(** The comparator passed to [sort] (lines 904-909). *)
Definition compareItems (a b : Item) : Q :=
  if negb (Z.eqb (category a) (category b))
  then inject_Z (category a - category b)
  else item_confidence a - item_confidence b.

(** [Array.prototype.sort] with a comparator, as a stable insertion sort:
    [x] stays in front of the first element it does not compare greater
    than. *)
Fixpoint sort_insert {A : Type} (cmp : A -> A -> Q) (x : A) (l : list A) : list A :=
  match l with
  | [] => [x]
  | y :: l' => if Qle_bool (cmp x y) 0 then x :: y :: l' else y :: sort_insert cmp x l'
  end.

Fixpoint js_sort {A : Type} (cmp : A -> A -> Q) (l : list A) : list A :=
  match l with
  | [] => []
  | x :: l' => sort_insert cmp x (js_sort cmp l')
  end.

(** What a call of [renderStudentExamsList] does. *)
Inductive RenderOutcome : Type :=
  | NoExamData                      (* the guard: placeholder and count (0) *)
  | Rendered (items : list Item)    (* the rows created, in order *)
  | TypeErrorThrown.                (* [forEach] read on an absent array *)

(** The number written to [checklist-count]. *)
Definition examItemsCount (o : RenderOutcome) : option nat :=
  match o with
  | NoExamData => Some 0%nat
  | Rendered items => Some (length items)
  | TypeErrorThrown => None
  end.

(** [renderStudentExamsList], with the two filter values read from the
    page and the thresholds read from [localStorage]. *)
Definition renderStudentExamsList (repository : option Repository)
    (ls : ThresholdStorage) (selectedQuestion selectedStudent : string)
    : RenderOutcome :=
  match repository with
  | None => NoExamData
  | Some r =>
      match questions r with
      | None => NoExamData
      | Some qs =>
          match studentSubmissions r with
          | None => TypeErrorThrown
          | Some submissions =>
              Rendered (js_sort compareItems
                          (allItems ls selectedQuestion selectedStudent qs submissions))
          end
      end
  end.

(** The lexicographic order on (category, confidence). *)
Definition triage_le (a b : Item) : Prop :=
  (category a < category b)%Z \/
  (category a = category b /\ item_confidence a <= item_confidence b).

(** ** Derived quantities and invariants used in the statements *)

Definition categorySum (g : GlobalStats) : Q :=
  g_aiHigh g + g_aiLow g + g_lowScore g + g_gradedOnce g + g_graded2Plus g.

Definition percentageSum (e : QuestionStats) : Q :=
  q_aiHigh e + q_aiLow e + q_lowScore e + q_gradedOnce e + q_graded2Plus e.

(** An entry still holding raw counts: the five counters add up to
    [totalCount]. *)
Definition rawCounts (e : QuestionStats) : Prop :=
  percentageSum e == totalCount e.

(** An entry after its question has been processed. *)
Definition percentagesOk (e : QuestionStats) : Prop :=
  0 < totalCount e -> percentageSum e == 100.

Definition settled (m : gmap string QuestionStats) : Prop :=
  forall k e, m !! k = Some e -> percentagesOk e.

Definition inProgress (qid : string) (m : gmap string QuestionStats) : Prop :=
  (exists e, m !! qid = Some e /\ rawCounts e) /\
  (forall k e, k <> qid -> m !! k = Some e -> percentagesOk e).

(** The student has no grade entry under the given question id. *)
Definition noGradeEntry (student : Student) (qid : string) : Prop :=
  forall gs g, grades student = Some gs -> In g gs -> questionId g <> qid.

(** ** A sample exam, used to instantiate the theorems *)

Definition sampleQuestions : list Question :=
  [mkQuestion "Q1" None (Some [mkQuestion "Q1.A" (Some 5) None;
                               mkQuestion "Q1.B" (Some 5) None]);
   mkQuestion "Q2" (Some 10) None].

Definition sampleSubmissions : list Student :=
  [mkStudent "s1" "Ada"
     (Some [mkGrade "Q1.A" (Some 95) (Some 5) (Some 2);
            mkGrade "Q2" (Some 90) (Some 9) None]);
   mkStudent "s2" "Bob"
     (Some [mkGrade "Q1.B" (Some 85) (Some 1) None;
            mkGrade "Q2" (Some 70) (Some 4) (Some 1)])].

Definition sampleRepository : Repository :=
  mkRepository (Some sampleQuestions) (Some sampleSubmissions).

Definition defaultStorage : ThresholdStorage := mkThresholdStorage None None.

(** ** The aggregator that counts grading passes
       (grading-logic.js, lines 124-240) *)

(** The grade entry this variant reads: the passes are recorded in
    [gradingHistory], or hinted at by a [manualScore]. *)
Record HistoryGrade (Pass : Type) : Type := mkHistoryGrade {
  h_questionId : string;
  h_confidence : option Q;
  h_aiSuggestedScore : option Q;
  gradingHistory : option (list Pass);
  manualScore : option Q
}.
Arguments mkHistoryGrade {Pass}.
Arguments h_questionId {Pass}.
Arguments h_confidence {Pass}.
Arguments h_aiSuggestedScore {Pass}.
Arguments gradingHistory {Pass}.
Arguments manualScore {Pass}.

Record HistoryStudent (Pass : Type) : Type := mkHistoryStudent {
  h_student_id : string;
  h_student_name : string;
  h_grades : option (list (HistoryGrade Pass))
}.
Arguments mkHistoryStudent {Pass}.
Arguments h_student_id {Pass}.
Arguments h_student_name {Pass}.
Arguments h_grades {Pass}.

Record HistoryRepository (Pass : Type) : Type := mkHistoryRepository {
  h_questions : option (list Question);
  h_studentSubmissions : option (list (HistoryStudent Pass))
}.
Arguments mkHistoryRepository {Pass}.
Arguments h_questions {Pass}.
Arguments h_studentSubmissions {Pass}.

(** [grade.gradingHistory ? grade.gradingHistory.length
                          : (grade.manualScore !== undefined ? 1 : 0)] *)
Definition manualCount {Pass : Type} (grade : HistoryGrade Pass) : Q :=
  match gradingHistory grade with
  | Some passes => len passes
  | None => match manualScore grade with Some _ => 1 | None => 0 end
  end.

(** The classification written out in this variant (lines 191-215). *)
Definition historyCategory {Pass : Type} (parameters : Thresholds) (maxPoints : Q)
    (grade : HistoryGrade Pass) : Category :=
  if Qge_bool (manualCount grade) 2 then graded2Plus
  else if Qeq_bool (manualCount grade) 1 then gradedOnce
  else
    let confidence := or_zero (h_confidence grade) in
    let score := or_zero (h_aiSuggestedScore grade) in
    let sp := if Qlt_bool 0 maxPoints then (score / maxPoints) * 100 else 0 in
    if Qge_bool confidence (aiConfidenceThreshold parameters)
    then if Qlt_bool sp (studentScoreThreshold parameters) then lowScore else aiHigh
    else aiLow.

Definition findHistoryGrade {Pass : Type} (submissions : list (HistoryStudent Pass))
    (studentId qid : string) : option (HistoryGrade Pass) :=
  match List.find (fun s => String.eqb (h_student_id s) studentId) submissions with
  | None => None
  | Some student =>
      match h_grades student with
      | None => None
      | Some gs => List.find (fun g => String.eqb (h_questionId g) qid) gs
      end
  end.

Definition historyAggregatorCategory {Pass : Type}
    (submissions : list (HistoryStudent Pass)) (parameters : Thresholds)
    (item : Question) (student : HistoryStudent Pass) : Category :=
  let maxPoints := or_zero (question_points item) in
  match findHistoryGrade submissions (h_student_id student) (question_id item) with
  | Some grade => historyCategory parameters maxPoints grade
  | None => aiLow
  end.

Definition historyProcessStudent {Pass : Type}
    (submissions : list (HistoryStudent Pass)) (parameters : Thresholds)
    (qid : string) (item : Question) (weightPerSubItem : Q)
    (st : AggState) (student : HistoryStudent Pass) : AggState :=
  let category := historyAggregatorCategory submissions parameters item student in
  let contribution := (1 / len submissions) * weightPerSubItem in
  (addContribution category contribution (fst st),
   alter (countPair category) qid (snd st)).

Definition historyProcessItem {Pass : Type}
    (submissions : list (HistoryStudent Pass)) (parameters : Thresholds)
    (qid : string) (weightPerSubItem : Q) (st : AggState) (item : Question)
    : AggState :=
  fold_left (historyProcessStudent submissions parameters qid item weightPerSubItem)
    submissions st.

Definition historyProcessQuestion {Pass : Type}
    (submissions : list (HistoryStudent Pass)) (parameters : Thresholds)
    (weightPerQuestion : Q) (st : AggState) (question : Question) : AggState :=
  let items := subItems question in
  let weightPerSubItem := weightPerQuestion / len items in
  let qid := question_id question in
  let st0 : AggState := (fst st, <[qid := zeroQuestionStats]> (snd st)) in
  let st1 := fold_left (historyProcessItem submissions parameters qid weightPerSubItem)
               items st0 in
  (fst st1, alter toPercentages qid (snd st1)).

Definition historyCalculateGradingStats {Pass : Type}
    (repository : option (HistoryRepository Pass)) (parameters : Thresholds)
    : option GradingStats :=
  match repository with
  | None => None
  | Some r =>
      match h_questions r, h_studentSubmissions r with
      | Some qs, Some submissions =>
          let numQuestions := len qs in
          let weightPerQuestion := 100 / numQuestions in
          let st := fold_left
                      (historyProcessQuestion submissions parameters weightPerQuestion)
                      qs (zeroGlobalStats, ∅) in
          Some (mkGradingStats (fst st) (snd st))
      | _, _ => None
      end
  end.

(** The same repository with the pass count written to [manualStatus]. *)
Definition statusGrade {Pass : Type} (g : HistoryGrade Pass) : Grade :=
  mkGrade (h_questionId g) (h_confidence g) (h_aiSuggestedScore g)
    (Some (manualCount g)).

Definition statusStudent {Pass : Type} (s : HistoryStudent Pass) : Student :=
  mkStudent (h_student_id s) (h_student_name s)
    (option_map (map statusGrade) (h_grades s)).

Definition statusRepository {Pass : Type} (r : HistoryRepository Pass) : Repository :=
  mkRepository (h_questions r)
    (option_map (map statusStudent) (h_studentSubmissions r)).

(** ** The filter options (grading-view.js, lines 679-758) *)

(** The option values [populateFilters] adds to the question filter: each
    top-level question id followed by the ids of its subquestions. *)
Definition questionFilterValues (qs : list Question) : list string :=
  flat_map
    (fun question =>
       question_id question
       :: match question_subquestions question with
          | Some subs => map question_id subs
          | None => []
          end)
    qs.

(** The option values added to the student filter: the student names. *)
Definition studentFilterValues (submissions : option (list Student)) : list string :=
  match submissions with
  | Some l => map student_name l
  | None => []
  end.

(** The category a manual status of 1, or of 2 and more, stands for. *)
Definition manualCategory (status : Q) : Category :=
  if Qle_bool 2 status then graded2Plus else gradedOnce.

(** The two categories that stand for manual grading. *)
Definition isManual (k : Category) : bool :=
  match k with
  | gradedOnce | graded2Plus => true
  | _ => false
  end.

(** The manual category of a pair, if it has one. *)
Definition manualPart (k : Category) : option Category :=
  match k with
  | gradedOnce => Some gradedOnce
  | graded2Plus => Some graded2Plus
  | _ => None
  end.

(** ** The rows of the list (grading-view.js, lines 936-981) *)

(** The status label [createExamListItem] chooses from the category code. *)
Definition statusText (category : Z) : string :=
  if Z.eqb category 4 then "Graded (2nd Pass)"
  else if Z.eqb category 3 then "Graded (1st Pass)"
  else if Z.eqb category 2 then "High Confidence"
  else if Z.eqb category 1 then "Review Needed (Low Score)"
  else if Z.eqb category 0 then "Low Confidence"
  else "Unknown".

(** Whether an entry passes the two filter values. *)
Definition matchesFilters (selectedQuestion selectedStudent : string) (it : Item)
    : bool :=
  (negb (truthy selectedQuestion) || String.eqb (item_questionId it) selectedQuestion)
  && (negb (truthy selectedStudent) || String.eqb (studentName it) selectedStudent).

(** Entries one student receives for one top-level question when no
    question filter is applied. *)
Definition entriesPerStudent (question : Question) : nat :=
  match question_subquestions question with
  | Some (sub :: rest) => S (length (sub :: rest))
  | _ => 1%nat
  end.

(** ** Manual grading status (grading-view.js, lines 1066-1100) *)

(** The helper [setStatus] on the grades array of the student: the first
    entry with the question id gets the new status; when there is none, an
    entry with confidence 0 and suggested score 0 is pushed first. *)
Fixpoint setStatus (qId : string) (newStatus : Q) (gs : list Grade) : list Grade :=
  match gs with
  | [] => [mkGrade qId (Some 0) (Some 0) (Some newStatus)]
  | g :: rest =>
      if String.eqb (questionId g) qId
      then mkGrade (questionId g) (confidence g) (aiSuggestedScore g) (Some newStatus)
           :: rest
      else g :: setStatus qId newStatus rest
  end.

(** The question ids whose status is set: the subquestions of a top-level
    question that has a [subquestions] array (also an empty one), the given
    id itself otherwise. *)
Definition statusTargets (qs : list Question) (qid : string) : list string :=
  match List.find (fun q => String.eqb (question_id q) qid) qs with
  | Some question =>
      match question_subquestions question with
      | Some subs => map question_id subs
      | None => [qid]
      end
  | None => [qid]
  end.

(** The calls of [setStatus] on one student; [None] when [student.grades]
    is read while absent. *)
Definition setStatuses (targets : list string) (status : Q)
    (gs : option (list Grade)) : option (option (list Grade)) :=
  match targets, gs with
  | [], _ => Some gs
  | _ :: _, None => None
  | _ :: _, Some l =>
      Some (Some (fold_left (fun acc qId => setStatus qId status acc) targets l))
  end.

(** The student object is changed in place: the first submission with the
    name carries the new grades. *)
Fixpoint updateFirstNamed (name : string) (newGrades : option (list Grade))
    (submissions : list Student) : list Student :=
  match submissions with
  | [] => []
  | s :: rest =>
      if String.eqb (student_name s) name
      then mkStudent (student_id s) (student_name s) newGrades :: rest
      else s :: updateFirstNamed name newGrades rest
  end.

Inductive UpdateOutcome : Type :=
  | NotUpdated                 (* an early [return]: nothing written, no render *)
  | UpdateThrew                (* a property read on an absent array *)
  | Updated (repository : Repository) (rendered : RenderOutcome).

(** [updateManualGradingStatus]; the repository of [Updated] is the one
    written to session storage and passed to [renderStudentExamsList]. *)
Definition updateManualGradingStatus (repository : option Repository)
    (ls : ThresholdStorage) (selectedQuestion selectedStudent : string)
    (name qid : string) (status : Q) : UpdateOutcome :=
  match repository with
  | None => NotUpdated
  | Some r =>
      match studentSubmissions r with
      | None => UpdateThrew
      | Some submissions =>
          match List.find (fun s => String.eqb (student_name s) name) submissions with
          | None => NotUpdated
          | Some student =>
              match questions r with
              | None => UpdateThrew
              | Some qs =>
                  match setStatuses (statusTargets qs qid) status (grades student) with
                  | None => UpdateThrew
                  | Some newGrades =>
                      let r' := mkRepository (Some qs)
                                  (Some (updateFirstNamed name newGrades submissions)) in
                      Updated r'
                        (renderStudentExamsList (Some r') ls selectedQuestion
                           selectedStudent)
                  end
              end
          end
      end
  end.

(** [grades.find(g => g.questionId === qid)] *)
Definition gradeFor (qid : string) (gs : list Grade) : option Grade :=
  List.find (fun g => String.eqb (questionId g) qid) gs.

(** The statuses are set by folding [setStatus] over the targets. *)
Definition applyStatus (targets : list string) (status : Q) (gs : list Grade)
    : list Grade :=
  fold_left (fun acc qId => setStatus qId status acc) targets gs.

(** One grade entry per question id, for every student of the repository. *)
Definition uniqueGradeIds (r : Repository) : Prop :=
  forall submissions s gs,
    studentSubmissions r = Some submissions -> In s submissions ->
    grades s = Some gs -> List.NoDup (map questionId gs).

(** The code a manually graded entry receives. *)
Definition manualCode (status : Q) : Z := if Qle_bool 2 status then 4%Z else 3%Z.

(** ** The charts (grading-visualization.js) *)

(** [Math.round]: to the nearest integer, halves upwards. *)
Definition Math_round (x : Q) : Z := Qfloor (x + (1 # 2)).

(** What [renderGradingProgress] writes: the four dash lengths and the
    number of the centre text. *)
Record DonutView : Type := mkDonutView {
  segment_graded_once : Q;
  segment_low_score : Q;
  segment_ai_low : Q;
  segment_ai_high : Q;
  centerPercent : Z
}.

Inductive DonutOutcome : Type :=
  | DonutNoData                     (* centre text 'N/A', sub text 'No data' *)
  | DonutDrawn (view : DonutView).

(** [renderGradingProgress] (lines 7-92), the container and the chart
    being present. *)
Definition renderGradingProgress (progressData : option GlobalStats) : DonutOutcome :=
  match progressData with
  | None => DonutNoData
  | Some d =>
      let p1 := g_aiHigh d in
      let p2 := p1 + g_aiLow d in
      let p3 := p2 + g_lowScore d in
      let p4 := p3 + g_gradedOnce d in
      let setSegment := fun val : Q => Qmax 0 val in
      let manuallyGradedTotal := g_gradedOnce d + g_graded2Plus d in
      DonutDrawn (mkDonutView (setSegment p4) (setSegment p3) (setSegment p2)
                    (setSegment p1) (Math_round manuallyGradedTotal))
  end.

(** What [updateOrCreateBar] writes on the card of one question. *)
Record QuestionBar : Type := mkQuestionBar {
  bar_question : string;
  aiHighWidth : Q;
  aiLowWidth : Q;
  lowScoreWidth : Q;
  gradedOnceWidth : Q;
  graded2PlusWidth : Q;
  aiPercent : Z;
  manualPercent : Z
}.

(** The five values read from an entry of [questionStats]; a missing entry
    is replaced by five zeros. *)
Definition barStats (entry : option QuestionStats) : Q * Q * Q * Q * Q :=
  match entry with
  | Some e => (q_aiHigh e, q_aiLow e, q_lowScore e, q_gradedOnce e, q_graded2Plus e)
  | None => (0, 0, 0, 0, 0)
  end.

Definition updateOrCreateBar (qid : string) (stats : Q * Q * Q * Q * Q) : QuestionBar :=
  let '(sAiHigh, sAiLow, sLowScore, sGradedOnce, sGraded2Plus) := stats in
  mkQuestionBar qid sAiHigh sAiLow sLowScore sGradedOnce sGraded2Plus
    (Math_round (sAiHigh + sLowScore + sAiLow))
    (Math_round (sGradedOnce + sGraded2Plus)).

Inductive BreakdownOutcome : Type :=
  | BreakdownPlaceholder            (* 'Select a repository ...' *)
  | BreakdownBars (bars : list QuestionBar).

(** [renderQuestionBreakdown] (lines 101-167), the container being
    present: the cards written, in the order of the questions. *)
Definition renderQuestionBreakdown (qs : option (list Question))
    (stats : gmap string QuestionStats) : BreakdownOutcome :=
  match qs with
  | None => BreakdownPlaceholder
  | Some [] => BreakdownPlaceholder
  | Some (q :: rest) =>
      BreakdownBars
        (map (fun q => updateOrCreateBar (question_id q)
                         (barStats (stats !! question_id q)))
             (q :: rest))
  end.

(** Reading one category of the statistics. *)
Definition globalGet (k : Category) (g : GlobalStats) : Q :=
  match k with
  | aiHigh => g_aiHigh g
  | aiLow => g_aiLow g
  | lowScore => g_lowScore g
  | gradedOnce => g_gradedOnce g
  | graded2Plus => g_graded2Plus g
  end.

Definition questionGet (k : Category) (e : QuestionStats) : Q :=
  match k with
  | aiHigh => q_aiHigh e
  | aiLow => q_aiLow e
  | lowScore => q_lowScore e
  | gradedOnce => q_gradedOnce e
  | graded2Plus => q_graded2Plus e
  end.

(** All six numbers of an entry, resp. of the global statistics, are
    non-negative. *)
Definition nonnegEntry (e : QuestionStats) : Prop :=
  (forall k, 0 <= questionGet k e) /\ 0 <= totalCount e.

Definition nonnegGlobal (g : GlobalStats) : Prop :=
  (forall k, 0 <= globalGet k g) /\ 0 <= totalWeight g.

(** The state while one top-level question is being processed: its entry
    holds raw counts adding up to [n] pairs, the global statistics have
    grown by the entry's counts times the contribution of one pair, and the
    other entries are as before. *)
Definition duringQuestion (g0 : GlobalStats) (m0 : gmap string QuestionStats)
    (qid : string) (contribution : Q) (n : Q) (s : AggState) : Prop :=
  exists e,
    snd s !! qid = Some e /\ nonnegEntry e /\ rawCounts e /\ totalCount e == n /\
    (forall k, globalGet k (fst s) == globalGet k g0 + questionGet k e * contribution) /\
    (forall k, k <> qid -> snd s !! k = m0 !! k).

(** An entry converted to percentages of a non-empty sample. *)
Definition percentEntry (e : QuestionStats) : Prop :=
  nonnegEntry e /\ 0 < totalCount e /\ percentageSum e == 100.

(** The sum of a list of numbers. *)
Definition Qsum (l : list Q) : Q := fold_right Qplus 0 l.

(** The entry of a question in [questionStats], five zeros when missing. *)
Definition entryOf (m : gmap string QuestionStats) (q : Question) : QuestionStats :=
  default zeroQuestionStats (m !! question_id q).

(** ** Boolean comparisons reflect the order of [Q] *)

Lemma Qlt_bool_true (a b : Q) : Qlt_bool a b = true <-> a < b.
Proof.
  unfold Qlt_bool. rewrite negb_true_iff.
  split.
  - intros H. apply Qnot_le_lt. intros Hle.
    apply Qle_bool_iff in Hle. congruence.
  - intros H. destruct (Qle_bool b a) eqn:E; [|reflexivity].
    apply Qle_bool_iff in E. exfalso. apply (Qlt_not_le _ _ H E).
Qed.

Lemma Qlt_bool_false (a b : Q) : Qlt_bool a b = false <-> ~ a < b.
Proof.
  rewrite <- Qlt_bool_true. destruct (Qlt_bool a b); split; congruence.
Qed.

Lemma Qge_bool_true (a b : Q) : Qge_bool a b = true <-> b <= a.
Proof. unfold Qge_bool. apply Qle_bool_iff. Qed.

Lemma Qge_bool_false (a b : Q) : Qge_bool a b = false <-> ~ b <= a.
Proof.
  rewrite <- Qge_bool_true. destruct (Qge_bool a b); split; congruence.
Qed.

Lemma Qeq_bool_false (a b : Q) : Qeq_bool a b = false <-> ~ a == b.
Proof.
  rewrite <- Qeq_bool_iff. destruct (Qeq_bool a b); split; congruence.
Qed.

Lemma scorePercentageWith_pos (ops : NumberOps) (score maxPoints : Q) :
  0 < maxPoints ->
  scorePercentageWith ops score maxPoints
  == num_mul ops (num_div ops score maxPoints) 100.
Proof.
  intros H. unfold scorePercentageWith.
  apply Qlt_bool_true in H. rewrite H. reflexivity.
Qed.

Lemma scorePercentageWith_nonpos (ops : NumberOps) (score maxPoints : Q) :
  ~ 0 < maxPoints -> scorePercentageWith ops score maxPoints == 0.
Proof.
  intros H. unfold scorePercentageWith.
  apply Qlt_bool_false in H. rewrite H. reflexivity.
Qed.

(** ** Theorems about the classifier *)

(** Over exact operations the parametrised classifier is the classifier
    the aggregator calls. *)
Lemma scorePercentageWith_exact (score maxPoints : Q) :
  scorePercentageWith exactOps score maxPoints = scorePercentage score maxPoints.
Proof. reflexivity. Qed.

Lemma determineCategoryWith_exact (c s m ms : Q) (t : Thresholds) :
  determineCategoryWith exactOps c s m ms t = determineCategory c s m ms t.
Proof. reflexivity. Qed.

(** The classifier always lands in exactly the case the six-step order
    selects. *)
Lemma determineCategoryWith_sound (ops : NumberOps) (c s m ms : Q)
    (t : Thresholds) :
  classify_spec ops c s m ms t (determineCategoryWith ops c s m ms t).
Proof.
  unfold determineCategoryWith.
  destruct (Qge_bool ms 2) eqn:E2.
  { apply step1. now apply Qge_bool_true. }
  apply Qge_bool_false in E2.
  destruct (Qeq_bool ms 1) eqn:E1.
  { apply step2; [exact E2 | now apply Qeq_bool_iff]. }
  apply Qeq_bool_false in E1.
  cbv zeta.
  destruct (Qlt_bool c (aiConfidenceThreshold t)) eqn:Ec.
  { apply step4; [exact E2 | exact E1 | now apply Qlt_bool_true]. }
  apply Qlt_bool_false in Ec.
  destruct (Qlt_bool (scorePercentageWith ops s m) (studentScoreThreshold t))
    eqn:Es.
  - apply (step5 ops c s m ms t (scorePercentageWith ops s m)); try assumption.
    + apply scorePercentageWith_pos.
    + apply scorePercentageWith_nonpos.
    + now apply Qlt_bool_true.
  - apply (step6 ops c s m ms t (scorePercentageWith ops s m)); try assumption.
    + apply scorePercentageWith_pos.
    + apply scorePercentageWith_nonpos.
    + now apply Qlt_bool_false.
Qed.

(** The two defining clauses determine the score percentage. *)
Lemma scorePercentageWith_unique (ops : NumberOps) (s m sp : Q) :
  (0 < m -> sp == num_mul ops (num_div ops s m) 100) ->
  (~ 0 < m -> sp == 0) ->
  sp == scorePercentageWith ops s m.
Proof.
  intros Hp Hn. unfold scorePercentageWith.
  destruct (Qlt_bool 0 m) eqn:E.
  - apply Hp. now apply Qlt_bool_true.
  - apply Hn. now apply Qlt_bool_false.
Qed.

(** The six steps select at most one category. *)
Lemma classify_spec_functional (ops : NumberOps) (c s m ms : Q)
    (t : Thresholds) (k1 k2 : Category) :
  classify_spec ops c s m ms t k1 -> classify_spec ops c s m ms t k2 ->
  k1 = k2.
Proof.
  intros H1 H2.
  destruct H1 as [A|A B|A B C|sp A B Hp Hn C D|sp A B Hp Hn C D];
  destruct H2 as [A'|A' B'|A' B' C'|sp' A' B' Hp' Hn' C' D'|sp' A' B' Hp' Hn' C' D'];
    try reflexivity; try contradiction.
  - exfalso. apply D'.
    rewrite (scorePercentageWith_unique ops s m sp' Hp' Hn').
    rewrite <- (scorePercentageWith_unique ops s m sp Hp Hn). exact D.
  - exfalso. apply D.
    rewrite (scorePercentageWith_unique ops s m sp Hp Hn).
    rewrite <- (scorePercentageWith_unique ops s m sp' Hp' Hn'). exact D'.
Qed.

(** C1. [determineCategory] applies the six-step order, first match wins:
    manual status at least 2 gives [graded2Plus]; manual status 1 gives
    [gradedOnce]; otherwise a confidence below the AI threshold gives
    [aiLow]; otherwise a score percentage below the score threshold gives
    [lowScore]; otherwise [aiHigh].  The score percentage of step 3 is the
    quotient times 100 as the operations [ops] compute it, so the statement
    covers the rounded arithmetic of the engine ([binary64Ops]) and the
    exact one ([exactOps]) alike. *)
Theorem determineCategory_first_match (ops : NumberOps) (c s m ms : Q)
    (t : Thresholds) (k : Category) :
  classify_spec ops c s m ms t k <-> determineCategoryWith ops c s m ms t = k.
Proof.
  split.
  - intros H.
    apply (classify_spec_functional ops c s m ms t); [|exact H].
    apply determineCategoryWith_sound.
  - intros <-. apply determineCategoryWith_sound.
Qed.

(** The order is stated over the percentage as computed, not over the exact
    quotient: for a score of 57 out of 100 the engine computes
    [0.57 * 100 = 56.99999999999999], which is below a score threshold of
    57, where the exact percentage is not. *)
Example rounded_percentage_below_threshold :
  scorePercentageWith binary64Ops 57 100
    == 8022036836253695 # 140737488355328 /\
  determineCategoryWith binary64Ops 90 57 100 0 (mkThresholds 80 57)
    = lowScore /\
  determineCategoryWith exactOps 90 57 100 0 (mkThresholds 80 57) = aiHigh.
Proof. vm_compute. repeat split. Qed.

(** C8. Threshold ties resolve to the passing branch: a confidence equal to
    the AI threshold (manual status 0) is never [aiLow], and a score
    percentage that comes out equal to the score threshold, with the
    confidence not below its threshold, is never [lowScore].  The score
    percentage is the one the operations [ops] compute. *)
Theorem threshold_ties_pass (ops : NumberOps) (c s m T ms : Q)
    (t : Thresholds) :
  (aiConfidenceThreshold t == T ->
   determineCategoryWith ops T s m 0 t <> aiLow) /\
  (~ c < aiConfidenceThreshold t ->
   scorePercentageWith ops s m == studentScoreThreshold t ->
   determineCategoryWith ops c s m ms t <> lowScore).
Proof.
  split.
  - intros HT. unfold determineCategoryWith.
    replace (Qge_bool 0 2) with false by reflexivity.
    replace (Qeq_bool 0 1) with false by reflexivity.
    assert (E : Qlt_bool T (aiConfidenceThreshold t) = false).
    { apply Qlt_bool_false. rewrite HT. apply Qlt_irrefl. }
    cbv zeta. rewrite E.
    destruct (Qlt_bool (scorePercentageWith ops s m) (studentScoreThreshold t));
      discriminate.
  - intros Hc Hs. unfold determineCategoryWith.
    destruct (Qge_bool ms 2); [discriminate|].
    destruct (Qeq_bool ms 1); [discriminate|].
    cbv zeta.
    destruct (Qlt_bool c (aiConfidenceThreshold t)); [discriminate|].
    assert (E : Qlt_bool (scorePercentageWith ops s m) (studentScoreThreshold t)
                = false).
    { apply Qlt_bool_false. rewrite Hs. apply Qlt_irrefl. }
    rewrite E. discriminate.
Qed.

Lemma threshold_ties_pass_witness :
  determineCategoryWith binary64Ops 80 3 10 0 (mkThresholds 80 50) <> aiLow /\
  determineCategoryWith binary64Ops 90 5 10 0 (mkThresholds 80 50) <> lowScore.
Proof.
  split.
  - apply (proj1 (threshold_ties_pass binary64Ops 90 3 10 80 0
                    (mkThresholds 80 50))).
    reflexivity.
  - apply (proj2 (threshold_ties_pass binary64Ops 90 5 10 80 0
                    (mkThresholds 80 50))).
    + vm_compute. discriminate.
    + vm_compute. reflexivity.
Defined.

(** ** Lengths as numbers *)

Lemma len_nil {A : Type} : len (@nil A) == 0.
Proof. reflexivity. Qed.

Lemma len_cons {A : Type} (x : A) (l : list A) : len (x :: l) == len l + 1.
Proof.
  unfold len. cbn [length]. rewrite Nat2Z.inj_succ, <- Z.add_1_r, inject_Z_plus.
  reflexivity.
Qed.

Lemma len_nonneg {A : Type} (l : list A) : 0 <= len l.
Proof.
  unfold len. replace 0 with (inject_Z 0) by reflexivity.
  rewrite <- Zle_Qle. lia.
Qed.

Lemma len_pos {A : Type} (l : list A) : l <> [] -> 0 < len l.
Proof.
  destruct l as [|x l]; [congruence|]. intros _.
  rewrite len_cons. pose proof (len_nonneg l). lra.
Qed.

Lemma subItems_nonempty (question : Question) : subItems question <> [].
Proof.
  unfold subItems. destruct (question_subquestions question) as [[|s r]|]; discriminate.
Qed.

(** ** Folds: invariants and additive measures *)

Section Folds.
Context {S A : Type} (f : S -> A -> S).

Lemma fold_left_invariant (P : S -> Prop) :
  (forall s a, P s -> P (f s a)) ->
  forall l s, P s -> P (fold_left f l s).
Proof.
  intros Hstep l. induction l as [|a l IH]; intros s Hs; cbn [fold_left].
  - exact Hs.
  - apply IH, Hstep, Hs.
Qed.

Lemma fold_left_measure (mu : S -> Q) (c : Q) :
  (forall s a, mu (f s a) == mu s + c) ->
  forall l s, mu (fold_left f l s) == mu s + len l * c.
Proof.
  intros Hstep l. induction l as [|a l IH]; intros s; cbn [fold_left].
  - rewrite len_nil. ring.
  - rewrite IH, Hstep, len_cons. ring.
Qed.
End Folds.

(** ** The global statistics *)

Lemma totalWeight_addContribution (k : Category) (x : Q) (g : GlobalStats) :
  totalWeight (addContribution k x g) = totalWeight g + x.
Proof. destruct k; reflexivity. Qed.

Lemma categorySum_addContribution (k : Category) (x : Q) (g : GlobalStats) :
  categorySum (addContribution k x g) == categorySum g + x.
Proof. destruct k; unfold categorySum; cbn; ring. Qed.

Lemma processItem_totalWeight submissions parameters qid w (st : AggState) item :
  submissions <> [] ->
  totalWeight (fst (processItem submissions parameters qid w st item))
  == totalWeight (fst st) + w.
Proof.
  intros Hne. unfold processItem.
  rewrite (fold_left_measure _ (fun s => totalWeight (fst s))
             ((1 / len submissions) * w)).
  - pose proof (len_pos submissions Hne). field. lra.
  - intros s a. unfold processStudent. cbn [fst].
    rewrite totalWeight_addContribution. reflexivity.
Qed.

Lemma processQuestion_totalWeight submissions parameters wq (st : AggState) question :
  submissions <> [] ->
  totalWeight (fst (processQuestion submissions parameters wq st question))
  == totalWeight (fst st) + wq.
Proof.
  intros Hne. unfold processQuestion. cbn [fst].
  rewrite (fold_left_measure _ (fun s => totalWeight (fst s))
             (wq / len (subItems question))).
  - cbn [fst]. pose proof (len_pos _ (subItems_nonempty question)). field. lra.
  - intros s a. apply processItem_totalWeight, Hne.
Qed.

Lemma processStudent_balanced submissions parameters qid item w (st : AggState) student :
  totalWeight (fst st) == categorySum (fst st) ->
  totalWeight (fst (processStudent submissions parameters qid item w st student))
  == categorySum (fst (processStudent submissions parameters qid item w st student)).
Proof.
  intros H. unfold processStudent. cbn [fst].
  rewrite totalWeight_addContribution, categorySum_addContribution, H.
  reflexivity.
Qed.

Lemma processQuestion_balanced submissions parameters wq (st : AggState) question :
  totalWeight (fst st) == categorySum (fst st) ->
  totalWeight (fst (processQuestion submissions parameters wq st question))
  == categorySum (fst (processQuestion submissions parameters wq st question)).
Proof.
  intros H. unfold processQuestion. cbn [fst].
  apply (fold_left_invariant _
           (fun s : AggState => totalWeight (fst s) == categorySum (fst s))).
  - intros s item Hs. unfold processItem.
    apply (fold_left_invariant _
             (fun s : AggState => totalWeight (fst s) == categorySum (fst s)));
      [|exact Hs].
    intros s' student Hs'. apply processStudent_balanced, Hs'.
  - exact H.
Qed.

(** C10. Whenever [calculateGradingStats] returns a result, its
    [totalWeight] equals the sum of the five weighted category totals, for
    every repository (also with no student or no question). *)
Theorem totalWeight_is_category_sum (repository : option Repository)
    (parameters : Thresholds) (r : GradingStats) :
  calculateGradingStats repository parameters = Some r ->
  totalWeight (globalStats r)
  == g_aiHigh (globalStats r) + g_aiLow (globalStats r) + g_lowScore (globalStats r)
     + g_gradedOnce (globalStats r) + g_graded2Plus (globalStats r).
Proof.
  unfold calculateGradingStats.
  destruct repository as [[[qs|] [submissions|]]|]; try discriminate.
  cbn [questions studentSubmissions]. intros [= <-]. cbn [globalStats].
  change (totalWeight (fst (fold_left
            (processQuestion submissions parameters (100 / len qs)) qs
            (zeroGlobalStats, ∅)))
          == categorySum (fst (fold_left
            (processQuestion submissions parameters (100 / len qs)) qs
            (zeroGlobalStats, ∅)))).
  apply (fold_left_invariant _
           (fun s : AggState => totalWeight (fst s) == categorySum (fst s))).
  - intros s q Hs. apply processQuestion_balanced, Hs.
  - reflexivity.
Qed.

(** C2 fails as stated: a repository with a student and no question at
    all meets its premises, and the loop over questions adds nothing. *)
Lemma totalWeight_without_questions :
  let submissions := [mkStudent "s1" "Ada" (Some [])] in
  let repository := mkRepository (Some []) (Some submissions) in
  (forall q, In q [] -> subItems q <> []) /\
  submissions <> [] /\
  exists r,
    calculateGradingStats (Some repository) (mkThresholds 80 50) = Some r /\
    totalWeight (globalStats r) == 0 /\
    ~ totalWeight (globalStats r) == 100.
Proof.
  cbv zeta. split; [|split].
  - intros q [].
  - discriminate.
  - eexists. split; [reflexivity|]. split.
    + reflexivity.
    + vm_compute. discriminate.
Qed.

(** C2 (amended). With at least one top-level question and at least one
    student submission, [calculateGradingStats] returns a result whose
    [totalWeight] is exactly 100, for every threshold setting; every
    top-level question has at least one gradable leaf item by construction
    ([subItems_nonempty]). *)
Theorem totalWeight_conservation (qs : list Question) (submissions : list Student)
    (parameters : Thresholds) :
  qs <> [] -> submissions <> [] ->
  exists r,
    calculateGradingStats (Some (mkRepository (Some qs) (Some submissions))) parameters
      = Some r /\
    totalWeight (globalStats r) == 100.
Proof.
  intros Hq Hs. eexists. split; [reflexivity|].
  cbn [globalStats].
  rewrite (fold_left_measure _ (fun s : AggState => totalWeight (fst s))
             (100 / len qs)).
  - cbn. pose proof (len_pos qs Hq). field. lra.
  - intros s q. apply processQuestion_totalWeight, Hs.
Qed.

Lemma totalWeight_conservation_witness :
  let qs := [mkQuestion "Q1" (Some 10) None;
             mkQuestion "Q2" None (Some [mkQuestion "Q2.A" (Some 5) None;
                                         mkQuestion "Q2.B" (Some 5) None])] in
  let submissions := [mkStudent "s1" "Ada" (Some [mkGrade "Q1" (Some 90) (Some 8) None]);
                      mkStudent "s2" "Bob" None] in
  exists r,
    calculateGradingStats (Some (mkRepository (Some qs) (Some submissions)))
      (mkThresholds 80 50) = Some r /\
    totalWeight (globalStats r) == 100.
Proof.
  cbv zeta. apply totalWeight_conservation; discriminate.
Defined.

Lemma totalWeight_is_category_sum_witness :
  let repository :=
    mkRepository (Some [mkQuestion "Q1" (Some 10) None])
      (Some [mkStudent "s1" "Ada" (Some [mkGrade "Q1" (Some 90) (Some 8) None]);
             mkStudent "s2" "Bob" None]) in
  exists r,
    calculateGradingStats (Some repository) (mkThresholds 80 50) = Some r /\
    totalWeight (globalStats r)
    == g_aiHigh (globalStats r) + g_aiLow (globalStats r) + g_lowScore (globalStats r)
       + g_gradedOnce (globalStats r) + g_graded2Plus (globalStats r).
Proof.
  intros repository.
  destruct (calculateGradingStats (Some repository) (mkThresholds 80 50))
    as [r|] eqn:E.
  - exists r. split; [reflexivity|].
    exact (totalWeight_is_category_sum _ _ _ E).
  - discriminate E.
Defined.

(** ** The per-question statistics *)

Lemma rawCounts_zero : rawCounts zeroQuestionStats.
Proof. reflexivity. Qed.

Lemma rawCounts_countPair (k : Category) (e : QuestionStats) :
  rawCounts e -> rawCounts (countPair k e).
Proof.
  unfold rawCounts, percentageSum. intros H.
  destruct k; cbn; rewrite <- H; ring.
Qed.

Lemma percentagesOk_toPercentages (e : QuestionStats) :
  rawCounts e -> percentagesOk (toPercentages e).
Proof.
  unfold rawCounts, percentagesOk, toPercentages. intros Hraw.
  destruct (Qlt_bool 0 (totalCount e)) eqn:E.
  - intros _. apply Qlt_bool_true in E.
    unfold percentageSum in *. cbn.
    transitivity
      (((q_aiHigh e + q_aiLow e + q_lowScore e + q_gradedOnce e + q_graded2Plus e)
        / totalCount e) * 100).
    + field. lra.
    + rewrite Hraw. field. lra.
  - apply Qlt_bool_false in E. intros H. contradiction.
Qed.

Lemma inProgress_start (qid : string) (m : gmap string QuestionStats) :
  settled m -> inProgress qid (<[qid := zeroQuestionStats]> m).
Proof.
  intros Hm. split.
  - exists zeroQuestionStats. split; [apply lookup_insert_eq | apply rawCounts_zero].
  - intros k e Hk. rewrite lookup_insert_ne by congruence. apply Hm.
Qed.

Lemma inProgress_countPair (qid : string) (k : Category)
    (m : gmap string QuestionStats) :
  inProgress qid m -> inProgress qid (alter (countPair k) qid m).
Proof.
  intros [(e & He & Hraw) Hothers]. split.
  - exists (countPair k e). split.
    + rewrite lookup_alter_eq, He. reflexivity.
    + apply rawCounts_countPair, Hraw.
  - intros k' e' Hk'. rewrite lookup_alter_ne by congruence. apply Hothers, Hk'.
Qed.

Lemma inProgress_finish (qid : string) (m : gmap string QuestionStats) :
  inProgress qid m -> settled (alter toPercentages qid m).
Proof.
  intros [(e & He & Hraw) Hothers] k e'.
  destruct (decide (k = qid)) as [->|Hne].
  - rewrite lookup_alter_eq, He. cbn. intros [= <-].
    apply percentagesOk_toPercentages, Hraw.
  - rewrite lookup_alter_ne by congruence. apply Hothers, Hne.
Qed.

Lemma processQuestion_settled submissions parameters wq (st : AggState) question :
  settled (snd st) ->
  settled (snd (processQuestion submissions parameters wq st question)).
Proof.
  intros Hst. unfold processQuestion. cbn [snd].
  apply inProgress_finish.
  apply (fold_left_invariant _
           (fun s : AggState => inProgress (question_id question) (snd s))).
  - intros s item Hs. unfold processItem.
    apply (fold_left_invariant _
             (fun s : AggState => inProgress (question_id question) (snd s)));
      [|exact Hs].
    intros s' student Hs'. unfold processStudent. cbn [snd].
    apply inProgress_countPair, Hs'.
  - cbn [snd]. apply inProgress_start, Hst.
Qed.

(** Keys of [questionStats] are never removed. *)
Lemma processQuestion_keeps_key submissions parameters wq (st : AggState) question k :
  is_Some (snd st !! k) ->
  is_Some (snd (processQuestion submissions parameters wq st question) !! k).
Proof.
  intros Hk. unfold processQuestion. cbn [snd].
  apply lookup_alter_is_Some.
  apply (fold_left_invariant _ (fun s : AggState => is_Some (snd s !! k))).
  - intros s item Hs. unfold processItem.
    apply (fold_left_invariant _ (fun s : AggState => is_Some (snd s !! k)));
      [|exact Hs].
    intros s' student Hs'. unfold processStudent. cbn [snd].
    apply lookup_alter_is_Some, Hs'.
  - cbn [snd]. apply lookup_insert_is_Some'. right. exact Hk.
Qed.

Lemma processQuestion_adds_key submissions parameters wq (st : AggState) question :
  is_Some (snd (processQuestion submissions parameters wq st question)
             !! question_id question).
Proof.
  unfold processQuestion. cbn [snd].
  apply lookup_alter_is_Some.
  apply (fold_left_invariant _
           (fun s : AggState => is_Some (snd s !! question_id question))).
  - intros s item Hs. unfold processItem.
    apply (fold_left_invariant _
             (fun s : AggState => is_Some (snd s !! question_id question)));
      [|exact Hs].
    intros s' student Hs'. unfold processStudent. cbn [snd].
    apply lookup_alter_is_Some, Hs'.
  - cbn [snd]. apply lookup_insert_is_Some'. left. reflexivity.
Qed.

Lemma fold_left_established {S A : Type} (f : S -> A -> S) (R : A -> S -> Prop) :
  (forall s a, R a (f s a)) ->
  (forall s a b, R a s -> R a (f s b)) ->
  forall l s a, In a l -> R a (fold_left f l s).
Proof.
  intros Hnew Hkeep l. induction l as [|b l IH]; intros s a Hin; [destruct Hin|].
  cbn [fold_left]. destruct Hin as [->|Hin].
  - apply (fold_left_invariant f (R a)); [intros; now apply Hkeep | apply Hnew].
  - apply IH, Hin.
Qed.

(** ** Sorting with a comparator *)

Section JsSort.
Context {A : Type} (cmp : A -> A -> Q) (R : A -> A -> Prop).
Hypothesis cmp_R : forall a b, Qle_bool (cmp a b) 0 = true <-> R a b.
Hypothesis R_total : forall a b, R a b \/ R b a.

Lemma sort_insert_HdRel (y x : A) (l : list A) :
  R y x -> HdRel R y l -> HdRel R y (sort_insert cmp x l).
Proof.
  intros Hyx Hhd. destruct l as [|z l]; cbn [sort_insert].
  - constructor. exact Hyx.
  - destruct (Qle_bool (cmp x z) 0); constructor.
    + exact Hyx.
    + inversion Hhd; assumption.
Qed.

Lemma sort_insert_Sorted (x : A) (l : list A) :
  Sorted R l -> Sorted R (sort_insert cmp x l).
Proof.
  induction l as [|y l IH]; intros Hs; cbn [sort_insert].
  - repeat constructor.
  - destruct (Qle_bool (cmp x y) 0) eqn:E.
    + constructor; [exact Hs|]. constructor. now apply cmp_R.
    + inversion Hs as [|? ? Hl Hhd]; subst.
      constructor; [apply IH, Hl|].
      apply sort_insert_HdRel; [|exact Hhd].
      destruct (R_total x y) as [Hxy|Hyx]; [|exact Hyx].
      apply cmp_R in Hxy. congruence.
Qed.

Lemma js_sort_Sorted (l : list A) : Sorted R (js_sort cmp l).
Proof.
  induction l as [|x l IH]; cbn [js_sort]; [constructor|].
  apply sort_insert_Sorted, IH.
Qed.
End JsSort.

Lemma sort_insert_Permutation {A : Type} (cmp : A -> A -> Q) (x : A) (l : list A) :
  Permutation (sort_insert cmp x l) (x :: l).
Proof.
  induction l as [|y l IH]; cbn [sort_insert]; [reflexivity|].
  destruct (Qle_bool (cmp x y) 0); [reflexivity|].
  rewrite IH. apply perm_swap.
Qed.

Lemma js_sort_Permutation {A : Type} (cmp : A -> A -> Q) (l : list A) :
  Permutation (js_sort cmp l) l.
Proof.
  induction l as [|x l IH]; cbn [js_sort]; [reflexivity|].
  rewrite sort_insert_Permutation, IH. reflexivity.
Qed.

(** ** The comparator of the triage list *)

Lemma compareItems_triage_le (a b : Item) :
  Qle_bool (compareItems a b) 0 = true <-> triage_le a b.
Proof.
  rewrite Qle_bool_iff. unfold compareItems, triage_le.
  destruct (Z.eqb_spec (category a) (category b)) as [E|E]; cbn [negb].
  - split.
    + intros H. right. split; [exact E|]. lra.
    + intros [H|[_ H]]; [lia|lra].
  - replace 0 with (inject_Z 0) by reflexivity. rewrite <- Zle_Qle.
    split.
    + intros H. left. lia.
    + intros [H|[H _]]; [lia|contradiction].
Qed.

Lemma triage_le_total (a b : Item) : triage_le a b \/ triage_le b a.
Proof.
  unfold triage_le.
  destruct (Z.lt_trichotomy (category a) (category b)) as [H|[H|H]];
    [left; left; exact H| |right; left; exact H].
  destruct (Qlt_le_dec (item_confidence b) (item_confidence a)) as [Hlt|Hle].
  - right. right. split; [symmetry; exact H|]. apply Qlt_le_weak, Hlt.
  - left. right. split; assumption.
Qed.

Lemma triage_le_trans (a b c : Item) :
  triage_le a b -> triage_le b c -> triage_le a c.
Proof.
  unfold triage_le.
  intros [Hab|[Hab Cab]] [Hbc|[Hbc Cbc]].
  - left. lia.
  - left. lia.
  - left. lia.
  - right. split; [congruence|]. eapply Qle_trans; eassumption.
Qed.

Lemma StronglySorted_lookup {A : Type} (R : A -> A -> Prop) (l : list A) :
  StronglySorted R l ->
  forall (i j : nat) (a b : A),
    (i < j)%nat -> l !! i = Some a -> l !! j = Some b -> R a b.
Proof.
  induction 1 as [|x l Hl IH Hall]; intros i j a b Hij Hi Hj.
  - discriminate.
  - destruct j as [|j]; [lia|]. cbn in Hj.
    destruct i as [|i]; cbn in Hi.
    + injection Hi as <-.
      rewrite Forall_forall in Hall. apply Hall.
      eapply list_elem_of_lookup_2, Hj.
    + apply (IH i j); [lia|assumption..].
Qed.

Lemma renderStudentExamsList_rendered (ls : ThresholdStorage)
    (selectedQuestion selectedStudent : string) (qs : list Question)
    (submissions : list Student) :
  renderStudentExamsList (Some (mkRepository (Some qs) (Some submissions))) ls
    selectedQuestion selectedStudent
  = Rendered (js_sort compareItems
                (allItems ls selectedQuestion selectedStudent qs submissions)).
Proof. reflexivity. Qed.

(** C3. The rendered triage list is sorted ascending lexicographically by
    (category, confidence): category codes never decrease along the list,
    and between entries of equal category confidences never decrease. *)
Theorem triage_list_sorted (repository : option Repository) (ls : ThresholdStorage)
    (selectedQuestion selectedStudent : string) (items : list Item) :
  renderStudentExamsList repository ls selectedQuestion selectedStudent
    = Rendered items ->
  StronglySorted triage_le items /\
  forall (i j : nat) (a b : Item),
    (i < j)%nat -> items !! i = Some a -> items !! j = Some b ->
    (category a <= category b)%Z /\
    (category a = category b -> item_confidence a <= item_confidence b).
Proof.
  intros Hr.
  assert (Hs : StronglySorted triage_le items).
  { unfold renderStudentExamsList in Hr.
    destruct repository as [[[qs|] [submissions|]]|]; try discriminate.
    cbn [questions studentSubmissions] in Hr. injection Hr as <-.
    apply Sorted_StronglySorted.
    - intros a b c. apply triage_le_trans.
    - apply js_sort_Sorted.
      + apply compareItems_triage_le.
      + apply triage_le_total. }
  split; [exact Hs|].
  intros i j a b Hij Hi Hj.
  pose proof (StronglySorted_lookup _ _ Hs i j a b Hij Hi Hj) as [H|[H1 H2]].
  - split; lia.
  - split; [lia|]. intros _. exact H2.
Qed.

Lemma triage_list_sorted_witness :
  exists items,
    renderStudentExamsList (Some sampleRepository) defaultStorage "" ""
      = Rendered items /\
    StronglySorted triage_le items /\
    forall (i j : nat) (a b : Item),
      (i < j)%nat -> items !! i = Some a -> items !! j = Some b ->
      (category a <= category b)%Z /\
      (category a = category b -> item_confidence a <= item_confidence b).
Proof.
  eexists. split; [reflexivity|].
  apply (triage_list_sorted (Some sampleRepository) defaultStorage "" "").
  reflexivity.
Defined.

(** ** [Math.min] over a non-empty array *)

Lemma Math_min_Z_In (xs : list Z) (x : Z) : In (Math_min_Z x xs) (x :: xs).
Proof.
  unfold Math_min_Z. revert x.
  induction xs as [|y xs IH]; intros x; cbn [fold_left].
  - left. reflexivity.
  - destruct (IH (Z.min x y)) as [H|H].
    + rewrite <- H. destruct (Z.min_dec x y) as [E|E]; rewrite E.
      * left. reflexivity.
      * right. left. reflexivity.
    + right. right. exact H.
Qed.

Lemma Math_min_Z_le (xs : list Z) (x c : Z) :
  In c (x :: xs) -> (Math_min_Z x xs <= c)%Z.
Proof.
  unfold Math_min_Z. revert x c.
  induction xs as [|y xs IH]; intros x c Hc; cbn [fold_left].
  - destruct Hc as [->|[]]. lia.
  - assert (Hx : (fold_left Z.min xs (Z.min x y) <= Z.min x y)%Z)
      by (apply IH; left; reflexivity).
    destruct Hc as [<-|[<-|Hc]].
    + lia.
    + lia.
    + apply IH. right. exact Hc.
Qed.

Lemma Qmin_cases (x y : Q) : Qmin x y = x \/ Qmin x y = y.
Proof.
  unfold Qmin, GenericMinMax.gmin. destruct (x ?= y); auto.
Qed.

Lemma Math_min_Q_In (xs : list Q) (x : Q) : In (Math_min_Q x xs) (x :: xs).
Proof.
  unfold Math_min_Q. revert x.
  induction xs as [|y xs IH]; intros x; cbn [fold_left].
  - left. reflexivity.
  - destruct (IH (Qmin x y)) as [H|H].
    + rewrite <- H. destruct (Qmin_cases x y) as [E|E]; rewrite E.
      * left. reflexivity.
      * right. left. reflexivity.
    + right. right. exact H.
Qed.

Lemma Math_min_Q_le (xs : list Q) (x c : Q) :
  In c (x :: xs) -> Math_min_Q x xs <= c.
Proof.
  unfold Math_min_Q. revert x c.
  induction xs as [|y xs IH]; intros x c Hc; cbn [fold_left].
  - destruct Hc as [->|[]]. apply Qle_refl.
  - assert (Hx : fold_left Qmin xs (Qmin x y) <= Qmin x y)
      by (apply IH; left; reflexivity).
    destruct Hc as [<-|[<-|Hc]].
    + eapply Qle_trans; [exact Hx | apply Q.le_min_l].
    + eapply Qle_trans; [exact Hx | apply Q.le_min_r].
    + apply IH. right. exact Hc.
Qed.

(** ** What the list builder emits *)

Lemma filter_passes (selected x : string) :
  selected = "" \/ x = selected ->
  truthy selected && negb (String.eqb x selected) = false.
Proof.
  intros [->| ->].
  - reflexivity.
  - rewrite String.eqb_refl. apply andb_false_r.
Qed.

Lemma showParent_passes (selected x : string) :
  selected = "" \/ x = selected ->
  negb (truthy selected) || String.eqb x selected = true.
Proof.
  intros [->| ->].
  - reflexivity.
  - rewrite String.eqb_refl. apply orb_true_r.
Qed.

Lemma questionItems_in_allItems (ls : ThresholdStorage)
    (selectedQuestion selectedStudent : string) (qs : list Question)
    (submissions : list Student) (student : Student) (question : Question) (p : Item) :
  In student submissions -> In question qs ->
  selectedStudent = "" \/ student_name student = selectedStudent ->
  In p (questionItems ls selectedQuestion student question) ->
  In p (allItems ls selectedQuestion selectedStudent qs submissions).
Proof.
  intros Hs Hq Hf Hp. unfold allItems.
  apply in_flat_map. exists student. split; [exact Hs|].
  unfold studentItems. rewrite (filter_passes _ _ Hf).
  apply in_flat_map. exists question. split; assumption.
Qed.

Lemma questionItems_parent (ls : ThresholdStorage) (selectedQuestion : string)
    (student : Student) (question sub : Question) (rest : list Question) :
  question_subquestions question = Some (sub :: rest) ->
  selectedQuestion = "" \/ question_id question = selectedQuestion ->
  questionItems ls selectedQuestion student question
  = flat_map
      (fun s =>
         if truthy selectedQuestion
            && negb (String.eqb (question_id s) selectedQuestion)
         then []
         else [subItem ls student s])
      (sub :: rest)
    ++ [parentItem student (question_id question)
          (parentCategoryOf ls student sub rest)
          (parentConfidenceOf student sub rest)].
Proof.
  intros Hsub Hf. unfold questionItems.
  rewrite Hsub, (showParent_passes _ _ Hf). reflexivity.
Qed.

(** C4. For a student and a top-level question with subquestions that both
    pass the filters, the parent-level entry of the rendered list carries
    the minimum of the categories computed for the subquestions' grades and
    the minimum of the subquestions' confidences. *)
Theorem parent_is_worst_child (ls : ThresholdStorage)
    (selectedQuestion selectedStudent : string) (qs : list Question)
    (submissions : list Student) (student : Student)
    (question sub : Question) (rest : list Question) :
  In student submissions -> In question qs ->
  question_subquestions question = Some (sub :: rest) ->
  selectedStudent = "" \/ student_name student = selectedStudent ->
  selectedQuestion = "" \/ question_id question = selectedQuestion ->
  exists (items subEntries : list Item) (parent : Item),
    renderStudentExamsList (Some (mkRepository (Some qs) (Some submissions))) ls
      selectedQuestion selectedStudent = Rendered items /\
    questionItems ls selectedQuestion student question = subEntries ++ [parent] /\
    In parent items /\
    taskName parent = taskLabel student (question_id question) /\
    item_questionId parent = question_id question /\
    In (category parent) (map (leafCategory ls student) (sub :: rest)) /\
    (forall c, In c (map (leafCategory ls student) (sub :: rest)) ->
               (category parent <= c)%Z) /\
    In (item_confidence parent) (map (leafConfidence student) (sub :: rest)) /\
    (forall c, In c (map (leafConfidence student) (sub :: rest)) ->
               item_confidence parent <= c).
Proof.
  intros Hs Hq Hsub Hfs Hfq.
  pose proof (questionItems_parent ls selectedQuestion student question sub rest
                Hsub Hfq) as Hblock.
  eexists _, _, _. split; [apply renderStudentExamsList_rendered|].
  split; [exact Hblock|].
  split.
  { apply (Permutation_in _ (Permutation_sym (js_sort_Permutation _ _))).
    apply (questionItems_in_allItems _ _ _ _ _ student question); try assumption.
    rewrite Hblock. apply in_or_app. right. left. reflexivity. }
  cbn [parentItem taskName item_questionId category item_confidence].
  split; [reflexivity|]. split; [reflexivity|].
  unfold parentCategoryOf, parentConfidenceOf. cbn [map].
  split; [apply Math_min_Z_In|].
  split; [apply Math_min_Z_le|].
  split; [apply Math_min_Q_In|].
  apply Math_min_Q_le.
Qed.

Lemma parent_is_worst_child_witness :
  let student := mkStudent "s2" "Bob"
                   (Some [mkGrade "Q1.B" (Some 85) (Some 1) None;
                          mkGrade "Q2" (Some 70) (Some 4) (Some 1)]) in
  let subA := mkQuestion "Q1.A" (Some 5) None in
  let subB := mkQuestion "Q1.B" (Some 5) None in
  let question := mkQuestion "Q1" None (Some [subA; subB]) in
  exists (items subEntries : list Item) (parent : Item),
    renderStudentExamsList (Some (mkRepository (Some sampleQuestions)
                                    (Some sampleSubmissions)))
      defaultStorage "" "" = Rendered items /\
    questionItems defaultStorage "" student question = subEntries ++ [parent] /\
    In parent items /\
    taskName parent = taskLabel student (question_id question) /\
    item_questionId parent = question_id question /\
    In (category parent) (map (leafCategory defaultStorage student) [subA; subB]) /\
    (forall c, In c (map (leafCategory defaultStorage student) [subA; subB]) ->
               (category parent <= c)%Z) /\
    In (item_confidence parent) (map (leafConfidence student) [subA; subB]) /\
    (forall c, In c (map (leafConfidence student) [subA; subB]) ->
               item_confidence parent <= c).
Proof.
  cbv zeta.
  apply (parent_is_worst_child defaultStorage "" "" sampleQuestions sampleSubmissions).
  - right. left. reflexivity.
  - left. reflexivity.
  - reflexivity.
  - left. reflexivity.
  - left. reflexivity.
Defined.

Lemma subquestion_entries_unfiltered (ls : ThresholdStorage) (student : Student)
    (subs : list Question) :
  flat_map
    (fun s =>
       if truthy "" && negb (String.eqb (question_id s) "")
       then []
       else [subItem ls student s])
    subs
  = map (subItem ls student) subs.
Proof.
  induction subs as [|s subs IH]; [reflexivity|].
  cbn [flat_map map]. rewrite IH. reflexivity.
Qed.

(** C9. With no question filter and no student filter, a top-level
    question with subquestions contributes, for each student, one entry per
    subquestion (each with its own category and confidence) followed by one
    parent-level entry, that is 1 + |subquestions| entries; the rendered
    list is a rearrangement of all these contributions. *)
Theorem dual_emission (ls : ThresholdStorage) (qs : list Question)
    (submissions : list Student) (student : Student) (question : Question)
    (subs : list Question) :
  In student submissions -> In question qs ->
  question_subquestions question = Some subs -> subs <> [] ->
  exists (items : list Item) (parent : Item),
    renderStudentExamsList (Some (mkRepository (Some qs) (Some submissions))) ls "" ""
      = Rendered items /\
    Permutation items
      (flat_map (fun st => flat_map (questionItems ls "" st) qs) submissions) /\
    questionItems ls "" student question
      = map (subItem ls student) subs ++ [parent] /\
    length (questionItems ls "" student question) = (1 + length subs)%nat /\
    item_questionId parent = question_id question /\
    (forall sub, In sub subs ->
       exists e, In e (questionItems ls "" student question) /\
                 item_questionId e = question_id sub /\
                 category e = leafCategory ls student sub /\
                 item_confidence e = leafConfidence student sub).
Proof.
  intros Hs Hq Hsub Hne.
  destruct subs as [|sub rest]; [congruence|].
  assert (Hblock :
    questionItems ls "" student question
    = map (subItem ls student) (sub :: rest)
      ++ [parentItem student (question_id question)
            (parentCategoryOf ls student sub rest)
            (parentConfidenceOf student sub rest)]).
  { rewrite (questionItems_parent ls "" student question sub rest Hsub)
      by (left; reflexivity).
    rewrite subquestion_entries_unfiltered. reflexivity. }
  eexists _, _. split; [apply renderStudentExamsList_rendered|].
  split.
  { rewrite js_sort_Permutation. unfold allItems.
    rewrite (flat_map_ext (studentItems ls "" "" qs)
               (fun st => flat_map (questionItems ls "" st) qs)) by reflexivity.
    reflexivity. }
  split; [exact Hblock|].
  split.
  { rewrite Hblock, length_app, length_map. cbn [length]. lia. }
  split; [reflexivity|].
  intros s Hin. exists (subItem ls student s). split.
  - rewrite Hblock. apply in_or_app. left. apply in_map, Hin.
  - repeat split.
Qed.

Lemma dual_emission_witness :
  let student := mkStudent "s1" "Ada"
                   (Some [mkGrade "Q1.A" (Some 95) (Some 5) (Some 2);
                          mkGrade "Q2" (Some 90) (Some 9) None]) in
  let subs := [mkQuestion "Q1.A" (Some 5) None; mkQuestion "Q1.B" (Some 5) None] in
  let question := mkQuestion "Q1" None (Some subs) in
  exists (items : list Item) (parent : Item),
    renderStudentExamsList (Some (mkRepository (Some sampleQuestions)
                                    (Some sampleSubmissions))) defaultStorage "" ""
      = Rendered items /\
    Permutation items
      (flat_map (fun st => flat_map (questionItems defaultStorage "" st) sampleQuestions)
         sampleSubmissions) /\
    questionItems defaultStorage "" student question
      = map (subItem defaultStorage student) subs ++ [parent] /\
    length (questionItems defaultStorage "" student question) = (1 + length subs)%nat /\
    item_questionId parent = question_id question /\
    (forall sub, In sub subs ->
       exists e, In e (questionItems defaultStorage "" student question) /\
                 item_questionId e = question_id sub /\
                 category e = leafCategory defaultStorage student sub /\
                 item_confidence e = leafConfidence student sub).
Proof.
  cbv zeta.
  apply (dual_emission defaultStorage sampleQuestions sampleSubmissions).
  - left. reflexivity.
  - left. reflexivity.
  - reflexivity.
  - discriminate.
Defined.

(** ** Missing grades *)

Lemma find_none_iff {A : Type} (p : A -> bool) (l : list A) :
  (forall x, In x l -> p x = false) -> List.find p l = None.
Proof.
  induction l as [|x l IH]; intros H; [reflexivity|].
  cbn [List.find]. rewrite (H x) by (left; reflexivity).
  apply IH. intros y Hy. apply H. right. exact Hy.
Qed.

Lemma studentGrade_missing (student : Student) (qid : string) :
  noGradeEntry student qid -> studentGrade student qid = None.
Proof.
  intros H. unfold studentGrade.
  destruct (grades student) as [gs|] eqn:E; [|reflexivity].
  apply find_none_iff. intros g Hg.
  apply String.eqb_neq. exact (H gs g E Hg).
Qed.

Lemma find_student_by_id (submissions : list Student) (student : Student) :
  In student submissions -> List.NoDup (map student_id submissions) ->
  List.find (fun s => String.eqb (student_id s) (student_id student)) submissions
  = Some student.
Proof.
  induction submissions as [|s l IH]; intros Hin Hnd; [destruct Hin|].
  cbn [List.find]. cbn [map] in Hnd.
  apply NoDup_cons_iff in Hnd as [Hnotin Hnd].
  destruct Hin as [->|Hin].
  - rewrite String.eqb_refl. reflexivity.
  - destruct (String.eqb_spec (student_id s) (student_id student)) as [E|E].
    + exfalso. apply Hnotin. rewrite E. apply in_map, Hin.
    + apply IH; assumption.
Qed.

Lemma findGrade_studentGrade (submissions : list Student) (student : Student)
    (qid : string) :
  In student submissions -> List.NoDup (map student_id submissions) ->
  findGrade submissions (student_id student) qid = studentGrade student qid.
Proof.
  intros Hin Hnd. unfold findGrade, studentGrade.
  rewrite (find_student_by_id _ _ Hin Hnd). reflexivity.
Qed.

Lemma getCategoryCode_aiLow (k : Category) :
  getCategoryCode k = getCategoryCode aiLow <-> k = aiLow.
Proof. destruct k; cbn; split; intros H; try reflexivity; discriminate. Qed.

Lemma implicit_grade_category (maxPoints : Q) (t : Thresholds) :
  determineCategory 0 0 maxPoints 0 t = aiLow <-> 0 < aiConfidenceThreshold t.
Proof.
  unfold determineCategory.
  replace (Qge_bool 0 2) with false by reflexivity.
  replace (Qeq_bool 0 1) with false by reflexivity.
  destruct (Qlt_bool 0 (aiConfidenceThreshold t)) eqn:E.
  - apply Qlt_bool_true in E. split; [intros _; exact E | reflexivity].
  - apply Qlt_bool_false in E.
    destruct (Qlt_bool (scorePercentage 0 maxPoints) (studentScoreThreshold t));
      split; intros H; try discriminate; contradiction.
Qed.

(** C5 fails as stated: with the AI confidence threshold set to 0 the list
    builder classifies a pair without grade entry as [lowScore], while the
    aggregator still counts it as [aiLow]. *)
Lemma missing_grade_threshold_zero :
  let student := mkStudent "s1" "Ada" (Some []) in
  let item := mkQuestion "Q1" (Some 10) None in
  let ls := mkThresholdStorage (Some 0%Z) None in
  noGradeEntry student (question_id item) /\
  aggregatorCategory [student] (storedThresholds ls) item student = aiLow /\
  determineCategory 0 0 10 0 (storedThresholds ls) = lowScore /\
  leafCategory ls student item = getCategoryCode lowScore /\
  leafCategory ls student item <> getCategoryCode aiLow.
Proof.
  cbv zeta. split.
  - intros gs g [= <-] [].
  - repeat split. vm_compute. discriminate.
Qed.

(** C5 (amended). For a pair whose student has no grade entry for the
    item, in a repository with distinct student ids: the aggregator
    classifies it as [aiLow] for every threshold setting; the list builder
    classifies it as the implicit grade (confidence 0, score 0, manual
    status 0), which is [aiLow] exactly when the AI confidence threshold is
    positive. *)
Theorem missing_grade_classification (submissions : list Student)
    (parameters : Thresholds) (ls : ThresholdStorage) (student : Student)
    (item : Question) :
  In student submissions -> List.NoDup (map student_id submissions) ->
  noGradeEntry student (question_id item) ->
  aggregatorCategory submissions parameters item student = aiLow /\
  leafCategory ls student item
    = getCategoryCode
        (determineCategory 0 0 (or_zero (question_points item)) 0 (storedThresholds ls)) /\
  leafConfidence student item = 0 /\
  (leafCategory ls student item = getCategoryCode aiLow
   <-> 0 < aiConfidenceThreshold (storedThresholds ls)).
Proof.
  intros Hin Hnd Hmiss.
  pose proof (studentGrade_missing _ _ Hmiss) as Hg.
  assert (Hleaf : leafCategory ls student item
                  = getCategoryCode
                      (determineCategory 0 0 (or_zero (question_points item)) 0
                         (storedThresholds ls))).
  { unfold leafCategory, getCategory. rewrite Hg. reflexivity. }
  split.
  { unfold aggregatorCategory.
    rewrite (findGrade_studentGrade _ _ _ Hin Hnd), Hg. reflexivity. }
  split; [exact Hleaf|].
  split.
  { unfold leafConfidence. rewrite Hg. reflexivity. }
  rewrite Hleaf, getCategoryCode_aiLow. apply implicit_grade_category.
Qed.

Lemma missing_grade_classification_witness :
  let student := mkStudent "s2" "Bob"
                   (Some [mkGrade "Q1.B" (Some 85) (Some 1) None;
                          mkGrade "Q2" (Some 70) (Some 4) (Some 1)]) in
  let item := mkQuestion "Q1.A" (Some 5) None in
  aggregatorCategory sampleSubmissions (mkThresholds 80 50) item student = aiLow /\
  leafCategory defaultStorage student item
    = getCategoryCode
        (determineCategory 0 0 (or_zero (question_points item)) 0
           (storedThresholds defaultStorage)) /\
  leafConfidence student item = 0 /\
  (leafCategory defaultStorage student item = getCategoryCode aiLow
   <-> 0 < aiConfidenceThreshold (storedThresholds defaultStorage)).
Proof.
  cbv zeta. apply missing_grade_classification.
  - right. left. reflexivity.
  - repeat constructor; cbn; intros H; intuition discriminate.
  - intros gs g [= <-] Hg. cbn in Hg. intuition (subst; discriminate).
Defined.

(** ** Missing data *)

(** C6. [calculateGradingStats] returns the [null] sentinel exactly when
    the repository is absent or lacks [questions] or [studentSubmissions]
    (the function has no throwing path); [renderStudentExamsList] shows the
    placeholder, and does not throw, when the repository or its questions
    are absent. *)
Theorem missing_data_sentinel (repository : option Repository)
    (parameters : Thresholds) (ls : ThresholdStorage)
    (selectedQuestion selectedStudent : string) :
  (calculateGradingStats repository parameters = None
   <-> repository = None \/
       exists r, repository = Some r /\
                 (questions r = None \/ studentSubmissions r = None)) /\
  (repository = None \/ (exists r, repository = Some r /\ questions r = None) ->
   renderStudentExamsList repository ls selectedQuestion selectedStudent = NoExamData /\
   renderStudentExamsList repository ls selectedQuestion selectedStudent
     <> TypeErrorThrown).
Proof.
  split.
  - unfold calculateGradingStats.
    destruct repository as [[[qs|] [submissions|]]|]; cbn [questions studentSubmissions];
      split; intros H; try reflexivity; try discriminate.
    + destruct H as [H|(r & [= <-] & [H|H])]; discriminate.
    + right. eexists. split; [reflexivity|]. right. reflexivity.
    + right. eexists. split; [reflexivity|]. left. reflexivity.
    + right. eexists. split; [reflexivity|]. left. reflexivity.
    + left. reflexivity.
  - intros [->|(r & -> & H)]; unfold renderStudentExamsList.
    + split; [reflexivity|discriminate].
    + rewrite H. split; [reflexivity|discriminate].
Qed.

Lemma missing_data_sentinel_witness :
  let repository := Some (mkRepository None (Some sampleSubmissions)) in
  calculateGradingStats repository (mkThresholds 80 50) = None /\
  renderStudentExamsList repository defaultStorage "" "" = NoExamData /\
  renderStudentExamsList repository defaultStorage "" "" <> TypeErrorThrown.
Proof.
  cbv zeta.
  pose proof (missing_data_sentinel
                (Some (mkRepository None (Some sampleSubmissions)))
                (mkThresholds 80 50) defaultStorage "" "") as [Hstats Hlist].
  split.
  - apply Hstats. right. eexists. split; [reflexivity|]. left. reflexivity.
  - apply Hlist. right. eexists. split; reflexivity.
Defined.

(** ** The scenarios of the specification, evaluated *)

(** One question of 10 points, two students: one trusted AI grade, one
    student without grade entry. *)
Example scenario_single_question :
  let repository :=
    mkRepository (Some [mkQuestion "Q1" (Some 10) None])
      (Some [mkStudent "a" "A" (Some [mkGrade "Q1" (Some 90) (Some 8) (Some 0)]);
             mkStudent "b" "B" (Some [])]) in
  exists r e,
    calculateGradingStats (Some repository) (mkThresholds 80 50) = Some r /\
    questionStats r !! "Q1"%string = Some e /\
    q_aiHigh e == 50 /\ q_aiLow e == 50 /\ q_lowScore e == 0 /\
    q_gradedOnce e == 0 /\ q_graded2Plus e == 0 /\ totalCount e == 2 /\
    g_aiHigh (globalStats r) == 50 /\ g_aiLow (globalStats r) == 50 /\
    totalWeight (globalStats r) == 100.
Proof.
  cbv zeta. eexists _, _. split; [reflexivity|].
  split; [vm_compute; reflexivity|].
  repeat split.
Qed.

(** One parent question with two subquestions, one student who has
    [Q1.A] graded twice and no grade entry for [Q1.B]. *)
Example scenario_subquestions :
  let repository :=
    mkRepository
      (Some [mkQuestion "Q1" None (Some [mkQuestion "Q1.A" (Some 5) None;
                                         mkQuestion "Q1.B" (Some 5) None])])
      (Some [mkStudent "c" "C" (Some [mkGrade "Q1.A" None None (Some 2)])]) in
  renderStudentExamsList (Some repository) defaultStorage "" ""
  = Rendered [mkItem "C - Q1.B" 0 0 "C" "Q1.B";
              mkItem "C - Q1" 0 0 "C" "Q1";
              mkItem "C - Q1.A" 0 4 "C" "Q1.A"].
Proof. vm_compute. reflexivity. Qed.

(** With questions present and [studentSubmissions] absent the list
    builder reads [forEach] on an absent array. *)
Example scenario_submissions_absent :
  renderStudentExamsList (Some (mkRepository (Some sampleQuestions) None))
    defaultStorage "" ""
  = TypeErrorThrown.
Proof. reflexivity. Qed.

(** ** The classifier is monotone and respects equality of numbers *)

Lemma Qlt_bool_compat (a a' b b' : Q) :
  a == a' -> b == b' -> Qlt_bool a b = Qlt_bool a' b'.
Proof. intros Ha Hb. unfold Qlt_bool. now rewrite Ha, Hb. Qed.

Lemma scorePercentage_compat (s s' m : Q) :
  s == s' -> scorePercentage s m == scorePercentage s' m.
Proof.
  intros Hs. unfold scorePercentage. destruct (Qlt_bool 0 m); [|reflexivity].
  now rewrite Hs.
Qed.

Lemma determineCategory_compat (c c' s s' m ms ms' : Q) (t : Thresholds) :
  c == c' -> s == s' -> ms == ms' ->
  determineCategory c s m ms t = determineCategory c' s' m ms' t.
Proof.
  intros Hc Hs Hms. unfold determineCategory, Qge_bool.
  rewrite (Qleb_comp 2 2 (Qeq_refl 2) ms ms' Hms).
  rewrite (Qeqb_comp ms ms' Hms 1 1 (Qeq_refl 1)).
  rewrite (Qlt_bool_compat c c' _ _ Hc (Qeq_refl _)).
  rewrite (Qlt_bool_compat _ _ _ _ (scorePercentage_compat s s' m Hs) (Qeq_refl _)).
  reflexivity.
Qed.

Lemma scorePercentage_monotone (s s' m : Q) :
  s <= s' -> scorePercentage s m <= scorePercentage s' m.
Proof.
  intros Hs. unfold scorePercentage.
  destruct (Qlt_bool 0 m) eqn:E; [|apply Qle_refl].
  apply Qlt_bool_true in E.
  apply Qmult_le_compat_r; [|discriminate].
  unfold Qdiv. apply Qmult_le_compat_r; [exact Hs|].
  apply Qinv_le_0_compat, Qlt_le_weak, E.
Qed.

(** Better AI figures never make a grade more urgent: with the manual
    status fixed, the category code is monotone in the confidence and in
    the suggested score. *)
Theorem category_monotone_in_ai_figures (c c' s s' m ms : Q) (t : Thresholds) :
  c <= c' -> s <= s' ->
  (getCategoryCode (determineCategory c s m ms t)
   <= getCategoryCode (determineCategory c' s' m ms t))%Z.
Proof.
  intros Hc Hs. unfold determineCategory.
  destruct (Qge_bool ms 2); [reflexivity|].
  destruct (Qeq_bool ms 1); [reflexivity|].
  pose proof (scorePercentage_monotone s s' m Hs) as Hsp.
  destruct (Qlt_bool c (aiConfidenceThreshold t)) eqn:E1;
    destruct (Qlt_bool c' (aiConfidenceThreshold t)) eqn:E1';
    destruct (Qlt_bool (scorePercentage s m) (studentScoreThreshold t)) eqn:E2;
    destruct (Qlt_bool (scorePercentage s' m) (studentScoreThreshold t)) eqn:E2';
    cbn; try lia; exfalso;
    repeat match goal with
    | H : Qlt_bool _ _ = true |- _ => apply Qlt_bool_true in H
    | H : Qlt_bool _ _ = false |- _ => apply Qlt_bool_false in H
    end.
  all: match goal with
       | N : ~ ?a < ?b |- _ => apply N; lra
       end.
Qed.

Lemma category_monotone_in_ai_figures_witness :
  (getCategoryCode (determineCategory 70 4 10 0 (mkThresholds 80 50))
   <= getCategoryCode (determineCategory 90 8 10 0 (mkThresholds 80 50)))%Z.
Proof.
  apply category_monotone_in_ai_figures; vm_compute; discriminate.
Defined.

(** ** Rows of the rendered list *)

Lemma getCategoryCode_range (k : Category) : (0 <= getCategoryCode k <= 4)%Z.
Proof. destruct k; cbn; lia. Qed.

Lemma leafCategory_range (ls : ThresholdStorage) (student : Student) (leaf : Question) :
  (0 <= leafCategory ls student leaf <= 4)%Z.
Proof. unfold leafCategory, getCategory. apply getCategoryCode_range. Qed.

Lemma parentCategoryOf_range (ls : ThresholdStorage) (student : Student)
    (sub : Question) (rest : list Question) :
  (0 <= parentCategoryOf ls student sub rest <= 4)%Z.
Proof.
  unfold parentCategoryOf.
  pose proof (Math_min_Z_In (map (leafCategory ls student) rest)
                (leafCategory ls student sub)) as Hin.
  change (In (Math_min_Z (leafCategory ls student sub)
                (map (leafCategory ls student) rest))
             (map (leafCategory ls student) (sub :: rest))) in Hin.
  apply in_map_iff in Hin as (leaf & <- & _). apply leafCategory_range.
Qed.

Lemma questionItems_category_range (ls : ThresholdStorage) (selectedQuestion : string)
    (student : Student) (question : Question) (it : Item) :
  In it (questionItems ls selectedQuestion student question) ->
  (0 <= category it <= 4)%Z.
Proof.
  unfold questionItems.
  destruct (question_subquestions question) as [[|sub rest]|].
  - destruct (_ && _); [intros []|].
    destruct (_ || _); [|intros []].
    intros [<-|[]]. apply leafCategory_range.
  - intros Hin. apply in_app_or in Hin as [Hin|Hin].
    + apply in_flat_map in Hin as (s & _ & Hs).
      destruct (_ && _); [destruct Hs|].
      destruct Hs as [<-|[]]. apply leafCategory_range.
    + destruct (_ || _); [|destruct Hin].
      destruct Hin as [<-|[]]. apply parentCategoryOf_range.
  - destruct (_ && _); [intros []|].
    destruct (_ || _); [|intros []].
    intros [<-|[]]. apply leafCategory_range.
Qed.

Lemma allItems_inv (ls : ThresholdStorage) (selectedQuestion selectedStudent : string)
    (qs : list Question) (submissions : list Student) (it : Item) :
  In it (allItems ls selectedQuestion selectedStudent qs submissions) ->
  exists student question,
    In student submissions /\ In question qs /\
    In it (questionItems ls selectedQuestion student question).
Proof.
  unfold allItems. intros Hin.
  apply in_flat_map in Hin as (student & Hs & Hin).
  unfold studentItems in Hin. destruct (_ && _); [destruct Hin|].
  apply in_flat_map in Hin as (question & Hq & Hin).
  exists student, question. auto.
Qed.

Lemma statusText_known (c : Z) : (0 <= c <= 4)%Z -> statusText c <> "Unknown".
Proof.
  intros H.
  assert (Hc : c = 0%Z \/ c = 1%Z \/ c = 2%Z \/ c = 3%Z \/ c = 4%Z) by lia.
  destruct Hc as [->|[->|[->|[->| ->]]]]; cbn; discriminate.
Qed.

(** Every row of the rendered list carries a category code between 0 and
    4, so [createExamListItem] never falls to its 'Unknown' label. *)
Theorem rendered_rows_have_known_status (repository : option Repository)
    (ls : ThresholdStorage) (selectedQuestion selectedStudent : string)
    (items : list Item) (it : Item) :
  renderStudentExamsList repository ls selectedQuestion selectedStudent
    = Rendered items ->
  In it items ->
  (0 <= category it <= 4)%Z /\ statusText (category it) <> "Unknown".
Proof.
  intros Hr Hin. unfold renderStudentExamsList in Hr.
  destruct repository as [[[qs|] [submissions|]]|]; try discriminate.
  cbn [questions studentSubmissions] in Hr. injection Hr as <-.
  apply (Permutation_in _ (js_sort_Permutation _ _)) in Hin.
  apply allItems_inv in Hin as (student & question & _ & _ & Hin).
  pose proof (questionItems_category_range _ _ _ _ _ Hin) as Hrange.
  split; [exact Hrange | apply statusText_known, Hrange].
Qed.

Lemma rendered_rows_have_known_status_witness :
  let it := mkItem "Ada - Q1.A" 95 4 "Ada" "Q1.A" in
  (0 <= category it <= 4)%Z /\ statusText (category it) <> "Unknown".
Proof.
  cbv zeta.
  eapply (rendered_rows_have_known_status (Some sampleRepository) defaultStorage
            "Q1.A" "Ada").
  - reflexivity.
  - vm_compute. left. reflexivity.
Defined.

(** ** Filtering commutes with the row order *)

Section SortFilter.
Context {A : Type} (cmp : A -> A -> Q) (R : A -> A -> Prop).
Hypothesis cmp_R : forall a b, Qle_bool (cmp a b) 0 = true <-> R a b.
Hypothesis R_trans : forall a b c, R a b -> R b c -> R a c.

Lemma sort_insert_front (x : A) (l : list A) :
  Forall (R x) l -> sort_insert cmp x l = x :: l.
Proof.
  intros H. destruct l as [|y l]; [reflexivity|]. cbn [sort_insert].
  apply Forall_cons_1 in H as [Hxy _].
  apply cmp_R in Hxy. rewrite Hxy. reflexivity.
Qed.

Lemma Forall_filter_keep (P : A -> Prop) (p : A -> bool) (l : list A) :
  Forall P l -> Forall P (List.filter p l).
Proof.
  induction 1 as [|y l Hy Hl IH]; cbn [List.filter]; [constructor|].
  destruct (p y); [constructor|]; assumption.
Qed.

Lemma filter_sort_insert (p : A -> bool) (x : A) (l : list A) :
  StronglySorted R l ->
  List.filter p (sort_insert cmp x l)
  = if p x then sort_insert cmp x (List.filter p l) else List.filter p l.
Proof.
  induction 1 as [|y l Hl IH Hall]; cbn [sort_insert List.filter].
  - destruct (p x); reflexivity.
  - destruct (Qle_bool (cmp x y) 0) eqn:E; cbn [List.filter].
    + destruct (p x) eqn:Ex; [|reflexivity].
      destruct (p y) eqn:Ey.
      * cbn [sort_insert]. rewrite E. reflexivity.
      * symmetry. apply sort_insert_front.
        apply Forall_filter_keep.
        apply cmp_R in E.
        eapply Forall_impl; [exact Hall|].
        intros z Hz. cbn. eapply R_trans; eassumption.
    + rewrite IH. destruct (p x) eqn:Ex; destruct (p y) eqn:Ey; try reflexivity.
      cbn [sort_insert]. rewrite E. reflexivity.
Qed.
End SortFilter.

Lemma js_sort_filter {A : Type} (cmp : A -> A -> Q) (R : A -> A -> Prop)
    (p : A -> bool) (l : list A) :
  (forall a b, Qle_bool (cmp a b) 0 = true <-> R a b) ->
  (forall a b, R a b \/ R b a) ->
  (forall a b c, R a b -> R b c -> R a c) ->
  List.filter p (js_sort cmp l) = js_sort cmp (List.filter p l).
Proof.
  intros HcR Htot Htrans.
  induction l as [|x l IH]; [reflexivity|]. cbn [js_sort List.filter].
  rewrite (filter_sort_insert cmp R HcR Htrans).
  - rewrite IH. destruct (p x); reflexivity.
  - apply Sorted_StronglySorted.
    + intros a b c. apply Htrans.
    + apply (js_sort_Sorted cmp R HcR Htot).
Qed.

Lemma filter_flat_map {A B : Type} (p : B -> bool) (f : A -> list B) (l : list A) :
  List.filter p (flat_map f l) = flat_map (fun x => List.filter p (f x)) l.
Proof.
  induction l as [|x l IH]; [reflexivity|].
  cbn [flat_map]. rewrite List.filter_app, IH. reflexivity.
Qed.

Lemma filter_all {A : Type} (p : A -> bool) (l : list A) :
  (forall x, In x l -> p x = true) -> List.filter p l = l.
Proof.
  induction l as [|x l IH]; intros H; [reflexivity|]. cbn [List.filter].
  rewrite (H x) by (left; reflexivity). f_equal.
  apply IH. intros y Hy. apply H. right. exact Hy.
Qed.

Lemma filter_none {A : Type} (p : A -> bool) (l : list A) :
  (forall x, In x l -> p x = false) -> List.filter p l = [].
Proof.
  induction l as [|x l IH]; intros H; [reflexivity|]. cbn [List.filter].
  rewrite (H x) by (left; reflexivity).
  apply IH. intros y Hy. apply H. right. exact Hy.
Qed.

Lemma filter_andb {A : Type} (p q : A -> bool) (l : list A) :
  List.filter (fun x => p x && q x) l = List.filter p (List.filter q l).
Proof.
  induction l as [|x l IH]; [reflexivity|]. cbn [List.filter].
  destruct (q x); cbn [List.filter].
  - rewrite andb_true_r. destruct (p x); rewrite IH; reflexivity.
  - rewrite andb_false_r. exact IH.
Qed.

Lemma truthy_false (s : string) : truthy s = false -> s = "".
Proof.
  unfold truthy. intros H. apply negb_false_iff in H.
  now apply String.eqb_eq in H.
Qed.

Lemma questionItems_studentName (ls : ThresholdStorage) (selectedQuestion : string)
    (student : Student) (question : Question) (it : Item) :
  In it (questionItems ls selectedQuestion student question) ->
  studentName it = student_name student.
Proof.
  unfold questionItems.
  destruct (question_subquestions question) as [[|sub rest]|].
  - destruct (_ && _); [intros []|].
    destruct (_ || _); [|intros []]. now intros [<-|[]].
  - intros Hin. apply in_app_or in Hin as [Hin|Hin].
    + apply in_flat_map in Hin as (s & _ & Hs).
      destruct (_ && _); [destruct Hs|]. now destruct Hs as [<-|[]].
    + destruct (_ || _); [|destruct Hin]. now destruct Hin as [<-|[]].
  - destruct (_ && _); [intros []|].
    destruct (_ || _); [|intros []]. now intros [<-|[]].
Qed.

(** The entries pushed under a question filter are the unfiltered ones
    with that question id, in the same order. *)
Lemma questionItems_filter (ls : ThresholdStorage) (selectedQuestion : string)
    (student : Student) (question : Question) :
  questionItems ls selectedQuestion student question
  = List.filter
      (fun it => negb (truthy selectedQuestion)
                 || String.eqb (item_questionId it) selectedQuestion)
      (questionItems ls "" student question).
Proof.
  destruct (truthy selectedQuestion) eqn:Et; cbn [negb orb].
  2:{ apply truthy_false in Et. subst.
      symmetry. apply filter_all. reflexivity. }
  unfold questionItems. rewrite Et. cbn [truthy String.eqb negb andb orb].
  destruct (question_subquestions question) as [[|sub rest]|].
  - cbn [List.filter parentItem item_questionId].
    destruct (String.eqb (question_id question) selectedQuestion); reflexivity.
  - rewrite List.filter_app. f_equal.
    rewrite filter_flat_map. apply flat_map_ext. intros s.
    cbn [List.filter subItem item_questionId].
    destruct (String.eqb (question_id s) selectedQuestion); reflexivity.
  - cbn [List.filter parentItem item_questionId].
    destruct (String.eqb (question_id question) selectedQuestion); reflexivity.
Qed.

Lemma allItems_filter (ls : ThresholdStorage) (selectedQuestion selectedStudent : string)
    (qs : list Question) (submissions : list Student) :
  allItems ls selectedQuestion selectedStudent qs submissions
  = List.filter (matchesFilters selectedQuestion selectedStudent)
      (allItems ls "" "" qs submissions).
Proof.
  unfold matchesFilters.
  rewrite (List.filter_ext _
             (fun it => (negb (truthy selectedStudent)
                         || String.eqb (studentName it) selectedStudent)
                        && (negb (truthy selectedQuestion)
                            || String.eqb (item_questionId it) selectedQuestion)))
    by (intros; apply andb_comm).
  rewrite filter_andb.
  unfold allItems. rewrite !filter_flat_map.
  apply flat_map_ext. intros student.
  unfold studentItems. cbn [truthy String.eqb negb andb].
  rewrite filter_flat_map.
  rewrite (flat_map_ext _ _ (fun q => eq_sym (questionItems_filter ls selectedQuestion
                                                student q))).
  destruct (truthy selectedStudent) eqn:Et; cbn [negb andb orb].
  - destruct (String.eqb (student_name student) selectedStudent) eqn:En; cbn [negb].
    + symmetry. apply filter_all. intros it Hin.
      apply in_flat_map in Hin as (q & _ & Hin).
      rewrite (questionItems_studentName _ _ _ _ _ Hin). exact En.
    + symmetry. apply filter_none. intros it Hin.
      apply in_flat_map in Hin as (q & _ & Hin).
      rewrite (questionItems_studentName _ _ _ _ _ Hin). exact En.
  - symmetry. apply filter_all. reflexivity.
Qed.

(** Filters only hide rows: the list rendered under any filter values is
    the unfiltered rendered list restricted to the rows with the selected
    question id and student name, in the same order. *)
Theorem filters_select_rows (ls : ThresholdStorage)
    (selectedQuestion selectedStudent : string) (qs : list Question)
    (submissions : list Student) :
  exists full shown,
    renderStudentExamsList (Some (mkRepository (Some qs) (Some submissions))) ls "" ""
      = Rendered full /\
    renderStudentExamsList (Some (mkRepository (Some qs) (Some submissions))) ls
      selectedQuestion selectedStudent = Rendered shown /\
    shown = List.filter (matchesFilters selectedQuestion selectedStudent) full /\
    forall it, In it shown ->
      (selectedQuestion = "" \/ item_questionId it = selectedQuestion) /\
      (selectedStudent = "" \/ studentName it = selectedStudent).
Proof.
  eexists _, _. split; [reflexivity|]. split; [reflexivity|].
  assert (Heq :
    js_sort compareItems (allItems ls selectedQuestion selectedStudent qs submissions)
    = List.filter (matchesFilters selectedQuestion selectedStudent)
        (js_sort compareItems (allItems ls "" "" qs submissions))).
  { rewrite allItems_filter. symmetry.
    apply (js_sort_filter compareItems triage_le).
    - apply compareItems_triage_le.
    - apply triage_le_total.
    - apply triage_le_trans. }
  split; [exact Heq|].
  intros it Hin. rewrite Heq in Hin.
  apply List.filter_In in Hin as [_ Hm]. unfold matchesFilters in Hm.
  apply andb_true_iff in Hm as [Hq Hs]. split.
  - destruct (truthy selectedQuestion) eqn:Et.
    + right. now apply String.eqb_eq.
    + left. now apply truthy_false.
  - destruct (truthy selectedStudent) eqn:Et.
    + right. now apply String.eqb_eq.
    + left. now apply truthy_false.
Qed.

Lemma filters_select_rows_witness :
  exists full shown,
    renderStudentExamsList (Some (mkRepository (Some sampleQuestions)
                                    (Some sampleSubmissions))) defaultStorage "" ""
      = Rendered full /\
    renderStudentExamsList (Some (mkRepository (Some sampleQuestions)
                                    (Some sampleSubmissions))) defaultStorage
      "Q2" "Bob" = Rendered shown /\
    shown = List.filter (matchesFilters "Q2" "Bob") full /\
    forall it, In it shown ->
      ("Q2"%string = ""%string \/ item_questionId it = "Q2"%string) /\
      ("Bob"%string = ""%string \/ studentName it = "Bob"%string).
Proof.
  apply (filters_select_rows defaultStorage "Q2" "Bob" sampleQuestions
           sampleSubmissions).
Defined.

Lemma entriesPerStudent_length (ls : ThresholdStorage) (student : Student)
    (question : Question) :
  length (questionItems ls "" student question) = entriesPerStudent question.
Proof.
  unfold questionItems, entriesPerStudent.
  destruct (question_subquestions question) as [[|sub rest]|]; try reflexivity.
  rewrite subquestion_entries_unfiltered, length_app, length_map.
  cbn. lia.
Qed.

Lemma studentItems_length (ls : ThresholdStorage) (qs : list Question)
    (student : Student) :
  length (studentItems ls "" "" qs student) = list_sum (map entriesPerStudent qs).
Proof.
  unfold studentItems. cbn [truthy String.eqb negb andb].
  rewrite length_flat_map. f_equal.
  apply map_ext. intros q. apply entriesPerStudent_length.
Qed.

Lemma list_sum_constant {A : Type} (c : nat) (l : list A) :
  list_sum (map (fun _ => c) l) = (length l * c)%nat.
Proof.
  induction l as [|x l IH]; [reflexivity|].
  cbn [map length]. change (list_sum (c :: map (fun _ => c) l))
    with (c + list_sum (map (fun _ => c) l))%nat.
  rewrite IH. lia.
Qed.

(** With no filter, the number of rows is the number of students times the
    number of entries per student: one for a standalone question, one plus
    the number of subquestions for a parent. *)
Theorem unfiltered_row_count (ls : ThresholdStorage) (qs : list Question)
    (submissions : list Student) :
  examItemsCount
    (renderStudentExamsList (Some (mkRepository (Some qs) (Some submissions))) ls "" "")
  = Some (length submissions * list_sum (map entriesPerStudent qs))%nat.
Proof.
  cbn [renderStudentExamsList questions studentSubmissions examItemsCount].
  f_equal. rewrite (Permutation_length (js_sort_Permutation _ _)).
  unfold allItems. rewrite length_flat_map.
  rewrite (map_ext _ (fun _ => list_sum (map entriesPerStudent qs))
             (studentItems_length ls qs)).
  apply list_sum_constant.
Qed.

(** ** The two classification paths agree *)

Lemma or_zero_nullish (x : option Q) : or_zero x == nullish_zero x.
Proof.
  destruct x as [v|]; cbn; [|reflexivity].
  destruct (Qeq_bool v 0) eqn:E; [|reflexivity].
  apply Qeq_bool_iff in E. now rewrite E.
Qed.

(** For a pair with a grade entry, and for every pair when the AI
    confidence threshold is positive, the aggregator and the list builder
    give the same category (student ids being distinct). *)
Theorem classification_paths_agree (submissions : list Student)
    (ls : ThresholdStorage) (student : Student) (item : Question) :
  In student submissions -> List.NoDup (map student_id submissions) ->
  is_Some (studentGrade student (question_id item))
  \/ 0 < aiConfidenceThreshold (storedThresholds ls) ->
  getCategoryCode (aggregatorCategory submissions (storedThresholds ls) item student)
  = leafCategory ls student item.
Proof.
  intros Hin Hnd Hcase.
  unfold aggregatorCategory, leafCategory, getCategory.
  rewrite (findGrade_studentGrade _ _ _ Hin Hnd).
  destruct (studentGrade student (question_id item)) as [g|] eqn:Hg.
  - cbn. f_equal. apply determineCategory_compat.
    + apply or_zero_nullish.
    + apply or_zero_nullish.
    + reflexivity.
  - destruct Hcase as [[g Hsome]|Hpos]; [discriminate|].
    cbn.
    rewrite (proj2 (implicit_grade_category (or_zero (question_points item))
                      (storedThresholds ls)) Hpos).
    reflexivity.
Qed.

Lemma classification_paths_agree_witness :
  let student := mkStudent "s2" "Bob"
                   (Some [mkGrade "Q1.B" (Some 85) (Some 1) None;
                          mkGrade "Q2" (Some 70) (Some 4) (Some 1)]) in
  let item := mkQuestion "Q1.B" (Some 5) None in
  getCategoryCode
    (aggregatorCategory sampleSubmissions (storedThresholds defaultStorage) item student)
  = leafCategory defaultStorage student item.
Proof.
  cbv zeta. apply classification_paths_agree.
  - right. left. reflexivity.
  - repeat constructor; cbn; intros H; intuition discriminate.
  - left. eexists. reflexivity.
Defined.

(** ** Setting a manual status *)


(** ** Setting a manual status: the grades array *)

Lemma gradeFor_questionId (qid : string) (gs : list Grade) (g : Grade) :
  gradeFor qid gs = Some g -> questionId g = qid.
Proof.
  intros H. apply find_some in H as [_ H]. now apply String.eqb_eq.
Qed.

Lemma gradeFor_setStatus_same (q : string) (s : Q) (gs : list Grade) :
  exists g,
    gradeFor q (setStatus q s gs) = Some g /\
    manualStatus g = Some s /\
    (forall g0, gradeFor q gs = Some g0 ->
                confidence g = confidence g0 /\
                aiSuggestedScore g = aiSuggestedScore g0).
Proof.
  unfold gradeFor.
  induction gs as [|g gs IH]; cbn [setStatus List.find].
  - rewrite String.eqb_refl. eexists. split; [reflexivity|].
    split; [reflexivity|]. discriminate.
  - destruct (String.eqb (questionId g) q) eqn:E; cbn [List.find questionId].
    + rewrite E. eexists. split; [reflexivity|]. split; [reflexivity|].
      intros g0 [= <-]. split; reflexivity.
    + rewrite E. exact IH.
Qed.

Lemma gradeFor_setStatus_other (q q' : string) (s : Q) (gs : list Grade) :
  q' <> q -> gradeFor q' (setStatus q s gs) = gradeFor q' gs.
Proof.
  intros Hne. unfold gradeFor.
  induction gs as [|g gs IH]; cbn [setStatus List.find questionId].
  - apply String.eqb_neq in Hne. rewrite String.eqb_sym, Hne. reflexivity.
  - destruct (String.eqb (questionId g) q) eqn:E; cbn [List.find questionId].
    + apply String.eqb_eq in E.
      assert (E' : String.eqb (questionId g) q' = false)
        by (apply String.eqb_neq; congruence).
      rewrite E'. reflexivity.
    + destruct (String.eqb (questionId g) q'); [reflexivity|exact IH].
Qed.

Lemma gradeFor_setStatus_fields (q q' : string) (s : Q) (gs : list Grade) (g : Grade) :
  gradeFor q' gs = Some g ->
  exists g',
    gradeFor q' (setStatus q s gs) = Some g' /\
    confidence g' = confidence g /\ aiSuggestedScore g' = aiSuggestedScore g.
Proof.
  intros Hg. destruct (String.eqb_spec q' q) as [->|Hne].
  - destruct (gradeFor_setStatus_same q s gs) as (g' & Hg' & _ & Hf).
    exists g'. split; [exact Hg'|]. apply Hf, Hg.
  - exists g. rewrite (gradeFor_setStatus_other _ _ _ _ Hne). auto.
Qed.

Lemma gradeFor_setStatus_kept (q t : string) (s : Q) (gs : list Grade) :
  (exists g, gradeFor t gs = Some g /\ manualStatus g = Some s) ->
  exists g, gradeFor t (setStatus q s gs) = Some g /\ manualStatus g = Some s.
Proof.
  intros (g & Hg & Hs). destruct (String.eqb_spec t q) as [->|Hne].
  - destruct (gradeFor_setStatus_same q s gs) as (g' & Hg' & Hs' & _). eauto.
  - exists g. rewrite (gradeFor_setStatus_other _ _ _ _ Hne). auto.
Qed.

Lemma applyStatus_other (targets : list string) (s : Q) (gs : list Grade) (q' : string) :
  ~ In q' targets -> gradeFor q' (applyStatus targets s gs) = gradeFor q' gs.
Proof.
  unfold applyStatus. revert gs.
  induction targets as [|t targets IH]; intros gs Hnot; [reflexivity|].
  cbn [fold_left]. rewrite IH by (intros H; apply Hnot; right; exact H).
  apply gradeFor_setStatus_other. intros ->. apply Hnot. left. reflexivity.
Qed.

Lemma applyStatus_kept (targets : list string) (s : Q) (gs : list Grade) (t : string) :
  (exists g, gradeFor t gs = Some g /\ manualStatus g = Some s) ->
  exists g, gradeFor t (applyStatus targets s gs) = Some g /\ manualStatus g = Some s.
Proof.
  unfold applyStatus. revert gs.
  induction targets as [|q targets IH]; intros gs H; [exact H|].
  cbn [fold_left]. apply IH, gradeFor_setStatus_kept, H.
Qed.

Lemma applyStatus_target (targets : list string) (s : Q) (gs : list Grade) (t : string) :
  In t targets ->
  exists g, gradeFor t (applyStatus targets s gs) = Some g /\ manualStatus g = Some s.
Proof.
  revert gs.
  induction targets as [|q targets IH]; intros gs Hin; [destruct Hin|].
  change (applyStatus (q :: targets) s gs) with (applyStatus targets s (setStatus q s gs)).
  destruct Hin as [->|Hin].
  - apply applyStatus_kept.
    destruct (gradeFor_setStatus_same t s gs) as (g & Hg & Hs & _). eauto.
  - apply IH, Hin.
Qed.

Lemma applyStatus_fields (targets : list string) (s : Q) (gs : list Grade)
    (q : string) (g : Grade) :
  gradeFor q gs = Some g ->
  exists g',
    gradeFor q (applyStatus targets s gs) = Some g' /\
    confidence g' = confidence g /\ aiSuggestedScore g' = aiSuggestedScore g.
Proof.
  revert gs g.
  induction targets as [|t targets IH]; intros gs g Hg; [eauto|].
  change (applyStatus (t :: targets) s gs) with (applyStatus targets s (setStatus t s gs)).
  destruct (gradeFor_setStatus_fields t q s gs g Hg) as (g1 & Hg1 & Hc1 & Ha1).
  destruct (IH _ _ Hg1) as (g2 & Hg2 & Hc2 & Ha2).
  exists g2. split; [exact Hg2|]. split; congruence.
Qed.

(** ** Setting a manual status: the submissions array *)

Lemma find_updateFirstNamed (name : string) (newGrades : option (list Grade))
    (submissions : list Student) (student : Student) :
  List.find (fun s => String.eqb (student_name s) name) submissions = Some student ->
  List.find (fun s => String.eqb (student_name s) name)
    (updateFirstNamed name newGrades submissions)
  = Some (mkStudent (student_id student) (student_name student) newGrades).
Proof.
  induction submissions as [|s l IH]; cbn [List.find updateFirstNamed]; [discriminate|].
  destruct (String.eqb (student_name s) name) eqn:E; cbn [List.find student_name].
  - intros [= <-]. rewrite E. reflexivity.
  - rewrite E. exact IH.
Qed.

Lemma updateFirstNamed_insert (name : string) (newGrades : option (list Grade))
    (submissions : list Student) (student : Student) :
  List.find (fun s => String.eqb (student_name s) name) submissions = Some student ->
  exists i : nat,
    submissions !! i = Some student /\
    updateFirstNamed name newGrades submissions
    = <[i := mkStudent (student_id student) (student_name student) newGrades]>
        submissions /\
    forall (j : nat) (s : Student),
      (j < i)%nat -> submissions !! j = Some s -> student_name s <> name.
Proof.
  induction submissions as [|s l IH]; cbn [List.find updateFirstNamed]; [discriminate|].
  destruct (String.eqb (student_name s) name) eqn:E.
  - intros [= <-]. exists 0%nat. split; [reflexivity|]. split; [reflexivity|].
    intros j s' Hj. lia.
  - intros Hf. destruct (IH Hf) as (i & Hi & Heq & Hfirst).
    exists (S i). split; [exact Hi|]. split.
    + cbn. rewrite Heq. reflexivity.
    + intros [|j] s' Hj Hs'.
      * cbn in Hs'. injection Hs' as <-. now apply String.eqb_neq.
      * apply (Hfirst j); [lia|exact Hs'].
Qed.

Lemma update_outcome (ls : ThresholdStorage) (selectedQuestion selectedStudent : string)
    (qs : list Question) (submissions : list Student) (student : Student)
    (gs : list Grade) (name qid : string) (status : Q) :
  List.find (fun s => String.eqb (student_name s) name) submissions = Some student ->
  grades student = Some gs ->
  exists gs',
    (gs' = applyStatus (statusTargets qs qid) status gs) /\
    updateManualGradingStatus (Some (mkRepository (Some qs) (Some submissions))) ls
      selectedQuestion selectedStudent name qid status
    = let r' := mkRepository (Some qs)
                  (Some (updateFirstNamed name (Some gs') submissions)) in
      Updated r' (renderStudentExamsList (Some r') ls selectedQuestion selectedStudent).
Proof.
  intros Hf Hg. eexists. split; [reflexivity|].
  unfold updateManualGradingStatus. cbn [studentSubmissions questions].
  rewrite Hf, Hg. unfold setStatuses.
  destruct (statusTargets qs qid) as [|t targets]; reflexivity.
Qed.

(** After [updateManualGradingStatus] every targeted question id (the
    subquestions of a parent, the question itself otherwise) has a grade
    entry of the student carrying the new status. *)
Theorem manual_status_is_recorded (ls : ThresholdStorage)
    (selectedQuestion selectedStudent : string) (qs : list Question)
    (submissions : list Student) (student : Student) (gs : list Grade)
    (name qid : string) (status : Q) :
  List.find (fun s => String.eqb (student_name s) name) submissions = Some student ->
  grades student = Some gs ->
  exists submissions' student' rendered,
    updateManualGradingStatus (Some (mkRepository (Some qs) (Some submissions))) ls
      selectedQuestion selectedStudent name qid status
    = Updated (mkRepository (Some qs) (Some submissions')) rendered /\
    List.find (fun s => String.eqb (student_name s) name) submissions' = Some student' /\
    student_id student' = student_id student /\
    forall t, In t (statusTargets qs qid) ->
      exists g, studentGrade student' t = Some g /\ manualStatus g = Some status.
Proof.
  intros Hf Hg.
  destruct (update_outcome ls selectedQuestion selectedStudent qs submissions student
              gs name qid status Hf Hg) as (gs' & Hgs' & Hout).
  eexists _, _, _. split; [exact Hout|].
  split; [apply find_updateFirstNamed, Hf|].
  split; [reflexivity|].
  intros t Ht. unfold studentGrade. cbn [grades]. subst gs'.
  apply (applyStatus_target _ _ _ _ Ht).
Qed.

Lemma manual_status_is_recorded_witness :
  exists submissions' student' rendered,
    updateManualGradingStatus (Some sampleRepository) defaultStorage "" "" "Bob" "Q1" 1
    = Updated (mkRepository (Some sampleQuestions) (Some submissions')) rendered /\
    List.find (fun s => String.eqb (student_name s) "Bob") submissions' = Some student' /\
    student_id student' = "s2"%string /\
    forall t, In t (statusTargets sampleQuestions "Q1") ->
      exists g, studentGrade student' t = Some g /\ manualStatus g = Some 1.
Proof.
  apply (manual_status_is_recorded defaultStorage "" "" sampleQuestions
           sampleSubmissions
           (mkStudent "s2" "Bob"
              (Some [mkGrade "Q1.B" (Some 85) (Some 1) None;
                     mkGrade "Q2" (Some 70) (Some 4) (Some 1)]))
           [mkGrade "Q1.B" (Some 85) (Some 1) None;
            mkGrade "Q2" (Some 70) (Some 4) (Some 1)]
           "Bob" "Q1" 1); reflexivity.
Defined.

(** ** Setting a manual status: what the list shows afterwards *)

Lemma manual_status_category (c sc m status : Q) (t : Thresholds) :
  2 <= status \/ status == 1 ->
  getCategoryCode (determineCategory c sc m (or_zero (Some status)) t)
  = manualCode status.
Proof.
  intros H. unfold or_zero, manualCode.
  assert (E0 : Qeq_bool status 0 = false).
  { apply Qeq_bool_false. intros E. destruct H as [H|H]; rewrite E in H.
    - apply Qle_not_lt in H. apply H. reflexivity.
    - discriminate. }
  rewrite E0. unfold determineCategory, Qge_bool.
  destruct (Qle_bool 2 status) eqn:E2; [reflexivity|].
  destruct H as [H|H].
  - apply Qle_bool_iff in H. congruence.
  - apply Qeq_bool_iff in H. rewrite H. reflexivity.
Qed.

Lemma leafCategory_manual (ls : ThresholdStorage) (student : Student) (leaf : Question)
    (g : Grade) (status : Q) :
  studentGrade student (question_id leaf) = Some g ->
  manualStatus g = Some status ->
  2 <= status \/ status == 1 ->
  leafCategory ls student leaf = manualCode status.
Proof.
  intros Hg Hs H. unfold leafCategory, getCategory. rewrite Hg. cbn.
  rewrite Hs. apply manual_status_category, H.
Qed.

(** After a status of 1, or of 2 and more, has been set, every targeted
    leaf is classified as graded once (3), resp. graded twice (4), and so
    is the parent entry of a question whose subquestions were targeted. *)
Theorem updated_question_is_shown_graded (ls : ThresholdStorage)
    (selectedQuestion selectedStudent : string) (qs : list Question)
    (submissions : list Student) (student : Student) (gs : list Grade)
    (name qid : string) (status : Q) :
  List.find (fun s => String.eqb (student_name s) name) submissions = Some student ->
  grades student = Some gs ->
  2 <= status \/ status == 1 ->
  exists submissions' student' rendered,
    updateManualGradingStatus (Some (mkRepository (Some qs) (Some submissions))) ls
      selectedQuestion selectedStudent name qid status
    = Updated (mkRepository (Some qs) (Some submissions')) rendered /\
    rendered = renderStudentExamsList
                 (Some (mkRepository (Some qs) (Some submissions'))) ls
                 selectedQuestion selectedStudent /\
    List.find (fun s => String.eqb (student_name s) name) submissions' = Some student' /\
    (forall leaf, In (question_id leaf) (statusTargets qs qid) ->
                  leafCategory ls student' leaf = manualCode status) /\
    (forall question sub rest,
       List.find (fun q => String.eqb (question_id q) qid) qs = Some question ->
       question_subquestions question = Some (sub :: rest) ->
       parentCategoryOf ls student' sub rest = manualCode status).
Proof.
  intros Hf Hg Hst.
  destruct (update_outcome ls selectedQuestion selectedStudent qs submissions student
              gs name qid status Hf Hg) as (gs' & Hgs' & Hout).
  eexists _, _, _. split; [exact Hout|]. split; [reflexivity|].
  split; [apply find_updateFirstNamed, Hf|].
  assert (Hleaf : forall leaf, In (question_id leaf) (statusTargets qs qid) ->
            leafCategory ls (mkStudent (student_id student) (student_name student)
                               (Some gs')) leaf = manualCode status).
  { intros leaf Hin. subst gs'.
    destruct (applyStatus_target _ status gs _ Hin) as (g & Hgr & Hs).
    apply (leafCategory_manual _ _ _ g); assumption. }
  split; [exact Hleaf|].
  intros question sub rest Hq Hsub.
  assert (Ht : statusTargets qs qid = map question_id (sub :: rest)).
  { unfold statusTargets. rewrite Hq, Hsub. reflexivity. }
  pose proof (Math_min_Z_In
                (map (leafCategory ls (mkStudent (student_id student)
                                         (student_name student) (Some gs'))) rest)
                (leafCategory ls (mkStudent (student_id student)
                                    (student_name student) (Some gs')) sub)) as Hin.
  change (In (parentCategoryOf ls (mkStudent (student_id student)
                                     (student_name student) (Some gs')) sub rest)
             (map (leafCategory ls (mkStudent (student_id student)
                                      (student_name student) (Some gs')))
                  (sub :: rest))) in Hin.
  apply in_map_iff in Hin as (leaf & <- & Hl).
  apply Hleaf. rewrite Ht. apply in_map, Hl.
Qed.

Lemma updated_question_is_shown_graded_witness :
  exists submissions' student' rendered,
    updateManualGradingStatus (Some sampleRepository) defaultStorage "" "" "Bob" "Q1" 1
    = Updated (mkRepository (Some sampleQuestions) (Some submissions')) rendered /\
    rendered = renderStudentExamsList
                 (Some (mkRepository (Some sampleQuestions) (Some submissions')))
                 defaultStorage "" "" /\
    List.find (fun s => String.eqb (student_name s) "Bob") submissions' = Some student' /\
    (forall leaf, In (question_id leaf) (statusTargets sampleQuestions "Q1") ->
                  leafCategory defaultStorage student' leaf = manualCode 1) /\
    (forall question sub rest,
       List.find (fun q => String.eqb (question_id q) "Q1") sampleQuestions
         = Some question ->
       question_subquestions question = Some (sub :: rest) ->
       parentCategoryOf defaultStorage student' sub rest = manualCode 1).
Proof.
  apply (updated_question_is_shown_graded defaultStorage "" "" sampleQuestions
           sampleSubmissions
           (mkStudent "s2" "Bob"
              (Some [mkGrade "Q1.B" (Some 85) (Some 1) None;
                     mkGrade "Q2" (Some 70) (Some 4) (Some 1)]))
           [mkGrade "Q1.B" (Some 85) (Some 1) None;
            mkGrade "Q2" (Some 70) (Some 4) (Some 1)]
           "Bob" "Q1" 1); [reflexivity|reflexivity|].
  right. reflexivity.
Defined.

(** The update touches one student and the targeted ids only: the
    submissions array changes at the position of the first student with the
    name, whose id and name stay; grades of other question ids are as
    before, and existing entries keep confidence and suggested score. *)
Theorem update_leaves_the_rest (ls : ThresholdStorage)
    (selectedQuestion selectedStudent : string) (qs : list Question)
    (submissions : list Student) (student : Student) (gs : list Grade)
    (name qid : string) (status : Q) :
  List.find (fun s => String.eqb (student_name s) name) submissions = Some student ->
  grades student = Some gs ->
  exists (i : nat) student' rendered,
    updateManualGradingStatus (Some (mkRepository (Some qs) (Some submissions))) ls
      selectedQuestion selectedStudent name qid status
    = Updated (mkRepository (Some qs) (Some (<[i := student']> submissions))) rendered /\
    submissions !! i = Some student /\
    (forall (j : nat) (s : Student),
       (j < i)%nat -> submissions !! j = Some s -> student_name s <> name) /\
    student_id student' = student_id student /\
    student_name student' = student_name student /\
    (forall q, ~ In q (statusTargets qs qid) ->
               studentGrade student' q = studentGrade student q) /\
    (forall q g, studentGrade student q = Some g ->
       exists g', studentGrade student' q = Some g' /\
                  confidence g' = confidence g /\
                  aiSuggestedScore g' = aiSuggestedScore g).
Proof.
  intros Hf Hg.
  destruct (update_outcome ls selectedQuestion selectedStudent qs submissions student
              gs name qid status Hf Hg) as (gs' & Hgs' & Hout).
  destruct (updateFirstNamed_insert name (Some gs') submissions student Hf)
    as (i & Hi & Heq & Hfirst).
  exists i. eexists _, _. split.
  { rewrite Hout. cbv zeta. rewrite Heq. reflexivity. }
  split; [exact Hi|]. split; [exact Hfirst|].
  split; [reflexivity|]. split; [reflexivity|].
  unfold studentGrade. cbn [grades]. rewrite Hg. subst gs'. split.
  - intros q Hq. apply applyStatus_other, Hq.
  - intros q g Hq. apply applyStatus_fields, Hq.
Qed.

Lemma update_leaves_the_rest_witness :
  let student := mkStudent "s2" "Bob"
                   (Some [mkGrade "Q1.B" (Some 85) (Some 1) None;
                          mkGrade "Q2" (Some 70) (Some 4) (Some 1)]) in
  exists (i : nat) student' rendered,
    updateManualGradingStatus (Some sampleRepository) defaultStorage "" "" "Bob" "Q1" 1
    = Updated (mkRepository (Some sampleQuestions)
                 (Some (<[i := student']> sampleSubmissions))) rendered /\
    sampleSubmissions !! i = Some student /\
    (forall (j : nat) (s : Student),
       (j < i)%nat -> sampleSubmissions !! j = Some s -> student_name s <> "Bob"%string) /\
    student_id student' = student_id student /\
    student_name student' = student_name student /\
    (forall q, ~ In q (statusTargets sampleQuestions "Q1") ->
               studentGrade student' q = studentGrade student q) /\
    (forall q g, studentGrade student q = Some g ->
       exists g', studentGrade student' q = Some g' /\
                  confidence g' = confidence g /\
                  aiSuggestedScore g' = aiSuggestedScore g).
Proof.
  cbv zeta.
  apply (update_leaves_the_rest defaultStorage "" "" sampleQuestions sampleSubmissions
           _ [mkGrade "Q1.B" (Some 85) (Some 1) None;
              mkGrade "Q2" (Some 70) (Some 4) (Some 1)]
           "Bob" "Q1" 1); reflexivity.
Defined.

(** ** Setting a manual status: invariants, edge cases, repetition *)

Lemma ids_setStatus (q : string) (s : Q) (gs : list Grade) (x : string) :
  In x (map questionId (setStatus q s gs)) -> In x (map questionId gs) \/ x = q.
Proof.
  induction gs as [|g gs IH]; cbn [setStatus map questionId].
  - intros [<-|[]]. right. reflexivity.
  - destruct (String.eqb (questionId g) q); cbn [map questionId In].
    + intros H. left. exact H.
    + intros [H|H]; [left; left; exact H|].
      destruct (IH H) as [H'|H']; [left; right; exact H'|right; exact H'].
Qed.

Lemma NoDup_setStatus (q : string) (s : Q) (gs : list Grade) :
  List.NoDup (map questionId gs) -> List.NoDup (map questionId (setStatus q s gs)).
Proof.
  induction gs as [|g gs IH]; cbn [setStatus map questionId]; intros Hnd.
  - repeat constructor. intros [].
  - destruct (String.eqb (questionId g) q) eqn:E; cbn [map questionId].
    + exact Hnd.
    + apply NoDup_cons_iff in Hnd as [Hnot Hnd]. constructor.
      * intros Hin. destruct (ids_setStatus _ _ _ _ Hin) as [H|H].
        -- exact (Hnot H).
        -- apply String.eqb_neq in E. exact (E H).
      * apply IH, Hnd.
Qed.

Lemma NoDup_applyStatus (targets : list string) (s : Q) (gs : list Grade) :
  List.NoDup (map questionId gs) ->
  List.NoDup (map questionId (applyStatus targets s gs)).
Proof.
  unfold applyStatus.
  apply (fold_left_invariant _ (fun l => List.NoDup (map questionId l))).
  intros l q. apply NoDup_setStatus.
Qed.

Lemma In_updateFirstNamed (name : string) (newGrades : option (list Grade))
    (submissions : list Student) (s : Student) :
  In s (updateFirstNamed name newGrades submissions) ->
  In s submissions \/ grades s = newGrades.
Proof.
  induction submissions as [|s0 l IH]; cbn [updateFirstNamed]; [intros []|].
  destruct (String.eqb (student_name s0) name); cbn [In].
  - intros [<-|H]; [right; reflexivity|left; right; exact H].
  - intros [<-|H]; [left; left; reflexivity|].
    destruct (IH H) as [H'|H']; [left; right; exact H'|right; exact H'].
Qed.

(** [updateManualGradingStatus] keeps the grades of every student keyed by
    question id: when no student has two entries for one question id
    before, none has afterwards. *)
Theorem update_keeps_grade_ids_unique (r r' : Repository) (ls : ThresholdStorage)
    (selectedQuestion selectedStudent name qid : string) (status : Q)
    (rendered : RenderOutcome) :
  updateManualGradingStatus (Some r) ls selectedQuestion selectedStudent name qid status
    = Updated r' rendered ->
  uniqueGradeIds r -> uniqueGradeIds r'.
Proof.
  unfold updateManualGradingStatus.
  destruct (studentSubmissions r) as [submissions|] eqn:Hsub; [|discriminate].
  destruct (List.find _ submissions) as [student|] eqn:Hf; [|discriminate].
  destruct (questions r) as [qs|]; [|discriminate].
  destruct (setStatuses _ status (grades student)) as [newGrades|] eqn:Hset;
    [|discriminate].
  intros [= <- _] Huniq submissions' s gs [= <-] Hin Hgs.
  apply In_updateFirstNamed in Hin as [Hin|Hnew].
  - exact (Huniq submissions s gs Hsub Hin Hgs).
  - rewrite Hgs in Hnew. subst newGrades.
    apply find_some in Hf as [Hstudent _].
    unfold setStatuses in Hset.
    destruct (statusTargets qs qid) as [|t targets].
    + injection Hset as Hset.
      exact (Huniq submissions student gs Hsub Hstudent Hset).
    + destruct (grades student) as [l|] eqn:Hl; [|discriminate].
      injection Hset as <-.
      apply (NoDup_applyStatus (t :: targets)).
      exact (Huniq submissions student l Hsub Hstudent Hl).
Qed.

Lemma update_keeps_grade_ids_unique_witness :
  exists r' rendered,
    updateManualGradingStatus (Some sampleRepository) defaultStorage "" "" "Bob" "Q1" 1
      = Updated r' rendered /\
    uniqueGradeIds r'.
Proof.
  eexists _, _. split; [reflexivity|].
  eapply (update_keeps_grade_ids_unique sampleRepository _ defaultStorage "" ""
            "Bob" "Q1" 1); [reflexivity|].
  intros submissions s gs [= <-] Hin Hgs.
  destruct Hin as [<-|[<-|[]]]; injection Hgs as <-;
    repeat constructor; cbn; intuition discriminate.
Defined.

(** [updateManualGradingStatus] returns early, without writing or
    rendering, exactly when the repository is absent or no student has the
    name; it throws exactly when [studentSubmissions] is absent, or a
    student is found and [questions] is absent or a status has to be set
    while the student has no [grades] array. *)
Theorem update_failure_modes (repository : option Repository) (ls : ThresholdStorage)
    (selectedQuestion selectedStudent name qid : string) (status : Q) :
  (updateManualGradingStatus repository ls selectedQuestion selectedStudent name qid
     status = NotUpdated
   <-> repository = None \/
       exists r submissions,
         repository = Some r /\ studentSubmissions r = Some submissions /\
         List.find (fun s => String.eqb (student_name s) name) submissions = None) /\
  (updateManualGradingStatus repository ls selectedQuestion selectedStudent name qid
     status = UpdateThrew
   <-> exists r,
         repository = Some r /\
         (studentSubmissions r = None \/
          exists submissions student,
            studentSubmissions r = Some submissions /\
            List.find (fun s => String.eqb (student_name s) name) submissions
              = Some student /\
            (questions r = None \/
             exists qs, questions r = Some qs /\ statusTargets qs qid <> [] /\
                        grades student = None))).
Proof.
  unfold updateManualGradingStatus.
  destruct repository as [r|].
  2:{ split; split; intros H; try discriminate H; try reflexivity.
      - left. reflexivity.
      - exfalso. destruct H as (r & H & _). discriminate H. }
  destruct (studentSubmissions r) as [submissions|] eqn:Hsub.
  2:{ split; split; intros H; try discriminate H; try reflexivity.
      - exfalso. destruct H as [H|(r0 & l & H & H' & _)]; congruence.
      - exists r. auto. }
  destruct (List.find _ submissions) as [student|] eqn:Hf.
  2:{ split; split; intros H; try discriminate H; try reflexivity.
      - right. exists r, submissions. auto.
      - exfalso.
        destruct H as (r0 & H & [H'|(l & st & H' & Hst & _)]); congruence. }
  destruct (questions r) as [qs|] eqn:Hq.
  2:{ split; split; intros H; try discriminate H; try reflexivity.
      - exfalso. destruct H as [H|(r0 & l & H & H' & Hn)]; congruence.
      - exists r. split; [reflexivity|]. right.
        exists submissions, student. auto. }
  unfold setStatuses.
  destruct (statusTargets qs qid) as [|t targets] eqn:Ht.
  { split; split; intros H; try discriminate H; try reflexivity; exfalso.
    - destruct H as [H|(r0 & l & H & H' & Hn)]; congruence.
    - destruct H as (r0 & H & [H'|(l & st & H' & Hst & [H''|H''])]);
        try congruence.
      destruct H'' as (qs0 & H1 & Hne & _).
      assert (qs0 = qs) by congruence. subst qs0. exact (Hne Ht). }
  destruct (grades student) as [gs|] eqn:Hg.
  - split; split; intros H; try discriminate H; try reflexivity; exfalso.
    + destruct H as [H|(r0 & l & H & H' & Hn)]; congruence.
    + destruct H as (r0 & H & [H'|(l & st & H' & Hst & [H''|H''])]);
        try congruence.
      destruct H'' as (qs0 & _ & _ & Hnone).
      assert (st = student) by congruence. subst st. congruence.
  - split; split; intros H; try discriminate H; try reflexivity.
    + exfalso. destruct H as [H|(r0 & l & H & H' & Hn)]; congruence.
    + exists r. split; [reflexivity|]. right.
      exists submissions, student. split; [exact Hsub|]. split; [exact Hf|].
      right. exists qs. split; [exact Hq|]. split; [|exact Hg].
      rewrite Ht. discriminate.
Qed.

Lemma update_failure_modes_witness :
  updateManualGradingStatus (Some sampleRepository) defaultStorage "" "" "Eve" "Q1" 1
    = NotUpdated /\
  updateManualGradingStatus
    (Some (mkRepository (Some sampleQuestions) (Some [mkStudent "s3" "Cy" None])))
    defaultStorage "" "" "Cy" "Q2" 1
    = UpdateThrew.
Proof.
  split.
  - apply (proj1 (update_failure_modes (Some sampleRepository) defaultStorage "" ""
                    "Eve" "Q1" 1)).
    right. exists sampleRepository, sampleSubmissions. repeat split.
  - apply (proj2 (update_failure_modes
                    (Some (mkRepository (Some sampleQuestions)
                             (Some [mkStudent "s3" "Cy" None])))
                    defaultStorage "" "" "Cy" "Q2" 1)).
    eexists. split; [reflexivity|]. right.
    exists [mkStudent "s3" "Cy" None], (mkStudent "s3" "Cy" None).
    split; [reflexivity|]. split; [reflexivity|]. right.
    exists sampleQuestions. split; [reflexivity|]. split; [discriminate|reflexivity].
Defined.

Lemma updateFirstNamed_same (name : string) (submissions : list Student)
    (student : Student) :
  List.find (fun s => String.eqb (student_name s) name) submissions = Some student ->
  updateFirstNamed name (grades student) submissions = submissions.
Proof.
  induction submissions as [|s l IH]; cbn [List.find updateFirstNamed]; [discriminate|].
  destruct (String.eqb (student_name s) name).
  - intros [= <-]. destruct s; reflexivity.
  - intros H. rewrite (IH H). reflexivity.
Qed.

Lemma updateFirstNamed_twice (name : string) (g1 g2 : option (list Grade))
    (submissions : list Student) :
  updateFirstNamed name g2 (updateFirstNamed name g1 submissions)
  = updateFirstNamed name g2 submissions.
Proof.
  induction submissions as [|s l IH]; cbn [updateFirstNamed]; [reflexivity|].
  destruct (String.eqb (student_name s) name) eqn:E;
    cbn [updateFirstNamed student_name student_id]; rewrite E.
  - reflexivity.
  - rewrite IH. reflexivity.
Qed.

(** A status set on a top-level question whose [subquestions] array is
    empty is dropped: the repository is written back unchanged, although
    the list builder shows that question as a leaf of its own. *)
Theorem status_on_empty_subquestions_is_dropped (ls : ThresholdStorage)
    (selectedQuestion selectedStudent : string) (qs : list Question)
    (submissions : list Student) (student : Student) (question : Question)
    (name qid : string) (status : Q) :
  List.find (fun s => String.eqb (student_name s) name) submissions = Some student ->
  List.find (fun q => String.eqb (question_id q) qid) qs = Some question ->
  question_subquestions question = Some [] ->
  updateManualGradingStatus (Some (mkRepository (Some qs) (Some submissions))) ls
    selectedQuestion selectedStudent name qid status
  = Updated (mkRepository (Some qs) (Some submissions))
      (renderStudentExamsList (Some (mkRepository (Some qs) (Some submissions))) ls
         selectedQuestion selectedStudent) /\
  questionItems ls "" student question
  = [parentItem student (question_id question) (leafCategory ls student question)
       (leafConfidence student question)].
Proof.
  intros Hf Hq Hsub. split.
  - unfold updateManualGradingStatus. cbn [studentSubmissions questions].
    rewrite Hf. unfold statusTargets. rewrite Hq, Hsub. cbn [map setStatuses].
    rewrite (updateFirstNamed_same _ _ _ Hf). reflexivity.
  - unfold questionItems. rewrite Hsub. reflexivity.
Qed.

Lemma status_on_empty_subquestions_is_dropped_witness :
  let student := mkStudent "s1" "Ada" (Some [mkGrade "Q3" (Some 90) (Some 2) None]) in
  let question := mkQuestion "Q3" (Some 4) (Some []) in
  updateManualGradingStatus (Some (mkRepository (Some [question]) (Some [student])))
    defaultStorage "" "" "Ada" "Q3" 2
  = Updated (mkRepository (Some [question]) (Some [student]))
      (renderStudentExamsList (Some (mkRepository (Some [question]) (Some [student])))
         defaultStorage "" "") /\
  questionItems defaultStorage "" student question
  = [parentItem student (question_id question)
       (leafCategory defaultStorage student question)
       (leafConfidence student question)].
Proof.
  cbv zeta. apply status_on_empty_subquestions_is_dropped; reflexivity.
Defined.

Lemma setStatus_twice (q : string) (s : Q) (gs : list Grade) :
  setStatus q s (setStatus q s gs) = setStatus q s gs.
Proof.
  induction gs as [|g gs IH]; cbn [setStatus questionId].
  - rewrite String.eqb_refl. reflexivity.
  - destruct (String.eqb (questionId g) q) eqn:E; cbn [setStatus questionId];
      rewrite E; [reflexivity|]. rewrite IH. reflexivity.
Qed.

Lemma setStatus_keeps_fixed (q q' : string) (s : Q) (gs : list Grade) :
  setStatus q s gs = gs ->
  setStatus q s (setStatus q' s gs) = setStatus q' s gs.
Proof.
  induction gs as [|g gs IH]; cbn [setStatus]; [discriminate|].
  destruct (String.eqb (questionId g) q) eqn:E.
  - intros [= Hg].
    destruct (String.eqb (questionId g) q') eqn:E';
      cbn [setStatus questionId confidence aiSuggestedScore]; rewrite E.
    + reflexivity.
    + rewrite Hg. reflexivity.
  - intros [= Hfix].
    destruct (String.eqb (questionId g) q') eqn:E'; cbn [setStatus questionId]; rewrite E.
    + rewrite Hfix. reflexivity.
    + rewrite (IH Hfix). reflexivity.
Qed.

Lemma applyStatus_fixed (targets : list string) (s : Q) (gs : list Grade) :
  (forall t, In t targets -> setStatus t s gs = gs) ->
  applyStatus targets s gs = gs.
Proof.
  induction targets as [|t targets IH]; intros H; [reflexivity|].
  change (applyStatus (t :: targets) s gs) with (applyStatus targets s (setStatus t s gs)).
  rewrite (H t) by (left; reflexivity).
  apply IH. intros t' Ht'. apply H. right. exact Ht'.
Qed.

Lemma applyStatus_twice (targets : list string) (s : Q) (gs : list Grade) :
  applyStatus targets s (applyStatus targets s gs) = applyStatus targets s gs.
Proof.
  apply applyStatus_fixed. intros t Ht. unfold applyStatus.
  apply (fold_left_established (fun acc qId => setStatus qId s acc)
           (fun t acc => setStatus t s acc = acc)).
  - intros acc a. apply setStatus_twice.
  - intros acc a b. apply setStatus_keeps_fixed.
  - exact Ht.
Qed.

(** Repeating [updateManualGradingStatus] with the same arguments changes
    nothing further: the second call writes and renders what the first
    did. *)
Theorem update_is_idempotent (r r' : Repository) (ls : ThresholdStorage)
    (selectedQuestion selectedStudent name qid : string) (status : Q)
    (rendered : RenderOutcome) :
  updateManualGradingStatus (Some r) ls selectedQuestion selectedStudent name qid status
    = Updated r' rendered ->
  updateManualGradingStatus (Some r') ls selectedQuestion selectedStudent name qid status
    = Updated r' rendered.
Proof.
  unfold updateManualGradingStatus at 1.
  destruct (studentSubmissions r) as [submissions|] eqn:Hsub; [|discriminate].
  destruct (List.find _ submissions) as [student|] eqn:Hf; [|discriminate].
  destruct (questions r) as [qs|]; [|discriminate].
  destruct (setStatuses _ status (grades student)) as [newGrades|] eqn:Hset;
    [|discriminate].
  intros [= <- <-].
  unfold updateManualGradingStatus. cbn [studentSubmissions questions].
  rewrite (find_updateFirstNamed _ newGrades _ _ Hf). cbn [grades].
  assert (Hagain : setStatuses (statusTargets qs qid) status newGrades = Some newGrades).
  { unfold setStatuses in *.
    destruct (statusTargets qs qid) as [|t targets]; [reflexivity|].
    destruct (grades student) as [l|]; [|discriminate].
    injection Hset as <-.
    change (Some (Some (applyStatus (t :: targets) status
                          (applyStatus (t :: targets) status l)))
            = Some (Some (applyStatus (t :: targets) status l))).
    rewrite applyStatus_twice. reflexivity. }
  rewrite Hagain, updateFirstNamed_twice. reflexivity.
Qed.

Lemma update_is_idempotent_witness :
  exists r' rendered,
    updateManualGradingStatus (Some sampleRepository) defaultStorage "" "" "Bob" "Q1" 1
      = Updated r' rendered /\
    updateManualGradingStatus (Some r') defaultStorage "" "" "Bob" "Q1" 1
      = Updated r' rendered.
Proof.
  eexists _, _. split; [reflexivity|].
  apply (update_is_idempotent sampleRepository _ defaultStorage "" "" "Bob" "Q1" 1).
  reflexivity.
Defined.

(** ** The aggregator, one top-level question at a time *)

Lemma fold_left_counted {S A : Type} (f : S -> A -> S) (P : Q -> S -> Prop) (c : Q) :
  (forall n m s, n == m -> P n s -> P m s) ->
  (forall n s a, P n s -> P (n + c) (f s a)) ->
  forall l n s, P n s -> P (n + len l * c) (fold_left f l s).
Proof.
  intros Heq Hstep l. induction l as [|a l IH]; intros n s Hs; cbn [fold_left].
  - apply (Heq n); [rewrite len_nil; ring | exact Hs].
  - apply (Heq ((n + c) + len l * c)); [rewrite len_cons; ring|].
    apply IH, Hstep, Hs.
Qed.

Lemma duringQuestion_Qeq g0 m0 qid c (n m : Q) (s : AggState) :
  n == m -> duringQuestion g0 m0 qid c n s -> duringQuestion g0 m0 qid c m s.
Proof.
  intros Hnm (e & He & Hnn & Hraw & Hn & Hg & Hfr).
  exists e. split; [exact He|]. split; [exact Hnn|]. split; [exact Hraw|].
  split; [|split; assumption].
  apply (Qeq_trans _ n); assumption.
Qed.

Lemma nonnegEntry_countPair (k : Category) (e : QuestionStats) :
  nonnegEntry e -> nonnegEntry (countPair k e).
Proof.
  intros [Hf Ht]. split.
  - intros k'. pose proof (Hf k') as H'. pose proof (Hf k) as H.
    destruct k, k'; cbn in *; lra.
  - destruct k; cbn; lra.
Qed.

Lemma totalCount_countPair (k : Category) (e : QuestionStats) :
  totalCount (countPair k e) = totalCount e + 1.
Proof. destruct k; reflexivity. Qed.

Lemma global_entry_step (k cat : Category) (c : Q) (g g0 : GlobalStats)
    (e : QuestionStats) :
  globalGet k g == globalGet k g0 + questionGet k e * c ->
  globalGet k (addContribution cat c g)
  == globalGet k g0 + questionGet k (countPair cat e) * c.
Proof.
  intros H. destruct k, cat; cbn in *; rewrite H; ring.
Qed.

Lemma duringQuestion_processStudent submissions parameters qid item w g0 m0 n
    (s : AggState) (student : Student) :
  duringQuestion g0 m0 qid ((1 / len submissions) * w) n s ->
  duringQuestion g0 m0 qid ((1 / len submissions) * w) (n + 1)
    (processStudent submissions parameters qid item w s student).
Proof.
  intros (e & He & Hnn & Hraw & Hn & Hg & Hfr).
  unfold duringQuestion, processStudent. cbn [fst snd].
  exists (countPair (aggregatorCategory submissions parameters item student) e).
  split; [rewrite lookup_alter_eq, He; reflexivity|].
  split; [apply nonnegEntry_countPair, Hnn|].
  split; [apply rawCounts_countPair, Hraw|].
  split; [rewrite totalCount_countPair, Hn; reflexivity|].
  split.
  - intros k. apply global_entry_step, Hg.
  - intros k Hk. rewrite lookup_alter_ne by congruence. apply Hfr, Hk.
Qed.

Lemma duringQuestion_processItem submissions parameters qid item w g0 m0 n
    (s : AggState) :
  duringQuestion g0 m0 qid ((1 / len submissions) * w) n s ->
  duringQuestion g0 m0 qid ((1 / len submissions) * w) (n + len submissions)
    (processItem submissions parameters qid w s item).
Proof.
  intros H. unfold processItem.
  apply (duringQuestion_Qeq _ _ _ _ (n + len submissions * 1));
    [ring|].
  apply (fold_left_counted _
           (duringQuestion g0 m0 qid ((1 / len submissions) * w)) 1).
  - intros a b s'. apply duringQuestion_Qeq.
  - intros a s' student. apply duringQuestion_processStudent.
  - exact H.
Qed.

Lemma toPercentages_zero : toPercentages zeroQuestionStats = zeroQuestionStats.
Proof. reflexivity. Qed.

(** The effect of processing one top-level question. *)
Lemma processQuestion_effect submissions parameters wq (st : AggState) question :
  exists e,
    nonnegEntry e /\ rawCounts e /\
    totalCount e == len (subItems question) * len submissions /\
    snd (processQuestion submissions parameters wq st question) !! question_id question
      = Some (toPercentages e) /\
    (forall k, globalGet k (fst (processQuestion submissions parameters wq st question))
               == globalGet k (fst st)
                  + questionGet k e
                    * ((1 / len submissions) * (wq / len (subItems question)))) /\
    (forall k, k <> question_id question ->
               snd (processQuestion submissions parameters wq st question) !! k
               = snd st !! k).
Proof.
  unfold processQuestion. cbn [fst snd].
  set (w := wq / len (subItems question)).
  set (qid := question_id question).
  set (st0 := (fst st, <[qid := zeroQuestionStats]> (snd st)) : AggState).
  assert (H0 : duringQuestion (fst st) (snd st) qid ((1 / len submissions) * w) 0 st0).
  { unfold duringQuestion. exists zeroQuestionStats. subst st0. cbn [fst snd].
    split; [apply lookup_insert_eq|].
    split; [split; [intros k; destruct k; cbn; lra | cbn; lra]|].
    split; [apply rawCounts_zero|]. split; [reflexivity|]. split.
    - intros k. destruct k; cbn; ring.
    - intros k Hk. apply lookup_insert_ne. congruence. }
  pose proof (fold_left_counted (processItem submissions parameters qid w)
                (duringQuestion (fst st) (snd st) qid ((1 / len submissions) * w))
                (len submissions)
                (fun a b s' => duringQuestion_Qeq _ _ _ _ a b s')
                (fun a s' item => duringQuestion_processItem submissions parameters
                                    qid item w _ _ a s')
                (subItems question) 0 st0 H0)
    as (e & He & Hnn & Hraw & Hn & Hg & Hfr).
  exists e. split; [exact Hnn|]. split; [exact Hraw|].
  split; [rewrite Hn; ring|].
  split; [rewrite lookup_alter_eq, He; reflexivity|].
  split; [exact Hg|].
  intros k Hk. rewrite lookup_alter_ne by congruence. apply Hfr, Hk.
Qed.

Lemma contribution_nonneg {A B : Type} (submissions : list A) (items : list B) (wq : Q) :
  0 <= wq -> 0 <= (1 / len submissions) * (wq / len items).
Proof.
  intros Hw. apply Qmult_le_0_compat.
  - unfold Qdiv. apply Qmult_le_0_compat; [discriminate|].
    apply Qinv_le_0_compat, len_nonneg.
  - unfold Qdiv. apply Qmult_le_0_compat; [exact Hw|].
    apply Qinv_le_0_compat, len_nonneg.
Qed.

Lemma weightPerQuestion_nonneg {A : Type} (qs : list A) : 0 <= 100 / len qs.
Proof.
  unfold Qdiv. apply Qmult_le_0_compat; [discriminate|].
  apply Qinv_le_0_compat, len_nonneg.
Qed.

Lemma processQuestion_nonneg submissions parameters wq (st : AggState) question :
  0 <= wq ->
  (forall k, 0 <= globalGet k (fst st)) ->
  forall k, 0 <= globalGet k (fst (processQuestion submissions parameters wq st question)).
Proof.
  intros Hw Hst k.
  destruct (processQuestion_effect submissions parameters wq st question)
    as (e & [Hnn _] & _ & _ & _ & Hg & _).
  rewrite (Hg k).
  pose proof (Hst k). pose proof (Hnn k).
  pose proof (contribution_nonneg submissions (subItems question) wq Hw).
  pose proof (Qmult_le_0_compat _ _ H0 H1). lra.
Qed.

(** ** Degenerate repositories and the size of a question's sample *)

Lemma processQuestion_no_students parameters wq (st : AggState) question :
  processQuestion [] parameters wq st question
  = (fst st, <[question_id question := zeroQuestionStats]> (snd st)).
Proof.
  unfold processQuestion.
  assert (Hid : forall l (s : AggState),
            fold_left (processItem [] parameters (question_id question)
                         (wq / len (subItems question))) l s = s).
  { intros l. induction l as [|a l IH]; intros s; [reflexivity|].
    cbn [fold_left]. unfold processItem at 2. cbn [fold_left]. apply IH. }
  rewrite Hid. cbn [fst snd]. rewrite alter_insert_eq, toPercentages_zero.
  reflexivity.
Qed.

(** With no student submission nothing is accumulated: the global
    statistics stay all zero and every question's entry holds raw zeros
    (the conversion to percentages is skipped). *)
Theorem no_students_all_zero (qs : list Question) (parameters : Thresholds)
    (question : Question) :
  In question qs ->
  exists r,
    calculateGradingStats (Some (mkRepository (Some qs) (Some []))) parameters = Some r /\
    globalStats r = zeroGlobalStats /\
    questionStats r !! question_id question = Some zeroQuestionStats.
Proof.
  intros Hin. eexists. split; [reflexivity|]. cbn [globalStats questionStats].
  split.
  - apply (fold_left_invariant _ (fun s : AggState => fst s = zeroGlobalStats));
      [|reflexivity].
    intros s q Hs. rewrite processQuestion_no_students. exact Hs.
  - apply (fold_left_established _
             (fun q (s : AggState) => snd s !! question_id q = Some zeroQuestionStats));
      [| |exact Hin].
    + intros s q. rewrite processQuestion_no_students. apply lookup_insert_eq.
    + intros s q b Hq. rewrite processQuestion_no_students. cbn [snd].
      destruct (decide (question_id b = question_id q)) as [E|E].
      * rewrite E. apply lookup_insert_eq.
      * rewrite lookup_insert_ne by exact E. exact Hq.
Qed.

Lemma no_students_all_zero_witness :
  exists r,
    calculateGradingStats (Some (mkRepository (Some sampleQuestions) (Some [])))
      (mkThresholds 80 50) = Some r /\
    globalStats r = zeroGlobalStats /\
    questionStats r !! question_id (mkQuestion "Q2" (Some 10) None)
      = Some zeroQuestionStats.
Proof.
  apply no_students_all_zero. right. left. reflexivity.
Defined.

Lemma totalCount_toPercentages (e : QuestionStats) :
  totalCount (toPercentages e) = totalCount e.
Proof. unfold toPercentages. destruct (Qlt_bool 0 (totalCount e)); reflexivity. Qed.

Lemma fold_processQuestion_frame submissions parameters wq (qs : list Question)
    (st : AggState) (k : string) :
  ~ In k (map question_id qs) ->
  snd (fold_left (processQuestion submissions parameters wq) qs st) !! k = snd st !! k.
Proof.
  revert st. induction qs as [|q qs IH]; intros st Hk; [reflexivity|].
  cbn [fold_left]. rewrite IH by (intros H; apply Hk; right; exact H).
  destruct (processQuestion_effect submissions parameters wq st q)
    as (e & _ & _ & _ & _ & _ & Hfr).
  apply Hfr. intros ->. apply Hk. left. reflexivity.
Qed.

(** With distinct question ids, the entry of a top-level question is the
    one written when that question was processed. *)
Lemma fold_processQuestion_entry submissions parameters wq (qs : list Question)
    (question : Question) (P : QuestionStats -> Prop) :
  (forall st, exists e,
     snd (processQuestion submissions parameters wq st question)
       !! question_id question = Some e /\ P e) ->
  List.NoDup (map question_id qs) -> In question qs ->
  forall st, exists e,
    snd (fold_left (processQuestion submissions parameters wq) qs st)
      !! question_id question = Some e /\ P e.
Proof.
  intros Hstep. induction qs as [|q qs IH]; intros Hnd Hin st; [destruct Hin|].
  cbn [map] in Hnd. apply NoDup_cons_iff in Hnd as [Hnot Hnd].
  cbn [fold_left]. destruct Hin as [->|Hin].
  - rewrite fold_processQuestion_frame by exact Hnot. apply Hstep.
  - apply IH; assumption.
Qed.

(** With distinct question ids, [totalCount] of a question's entry is the
    number of processed pairs: its gradable leaf items times the students. *)
Theorem totalCount_counts_pairs (qs : list Question) (submissions : list Student)
    (parameters : Thresholds) (question : Question) :
  List.NoDup (map question_id qs) -> In question qs ->
  exists r e,
    calculateGradingStats (Some (mkRepository (Some qs) (Some submissions))) parameters
      = Some r /\
    questionStats r !! question_id question = Some e /\
    totalCount e == len (subItems question) * len submissions.
Proof.
  intros Hnd Hin.
  destruct (fold_processQuestion_entry submissions parameters (100 / len qs) qs question
              (fun e => totalCount e == len (subItems question) * len submissions))
    with (st := (zeroGlobalStats, ∅) : AggState) as (e & He & Hcount);
    try assumption.
  { intros st.
    destruct (processQuestion_effect submissions parameters (100 / len qs) st question)
      as (e & _ & _ & Hn & He & _).
    exists (toPercentages e). split; [exact He|].
    rewrite totalCount_toPercentages. exact Hn. }
  eexists _, e. split; [reflexivity|]. split; assumption.
Qed.

Lemma totalCount_counts_pairs_witness :
  let question := mkQuestion "Q1" None (Some [mkQuestion "Q1.A" (Some 5) None;
                                             mkQuestion "Q1.B" (Some 5) None]) in
  exists r e,
    calculateGradingStats (Some sampleRepository) (mkThresholds 80 50) = Some r /\
    questionStats r !! question_id question = Some e /\
    totalCount e == len (subItems question) * len sampleSubmissions.
Proof.
  cbv zeta.
  apply (totalCount_counts_pairs sampleQuestions sampleSubmissions).
  - repeat constructor; cbn; intuition discriminate.
  - left. reflexivity.
Defined.

(** ** The donut chart of the global statistics *)

Lemma aggregate_nonneg submissions parameters (qs : list Question) (k : Category) :
  0 <= globalGet k
         (fst (fold_left (processQuestion submissions parameters (100 / len qs)) qs
                 (zeroGlobalStats, ∅))).
Proof.
  revert k.
  apply (fold_left_invariant _
           (fun s : AggState => forall k, 0 <= globalGet k (fst s))).
  - intros s q Hs. apply processQuestion_nonneg; [apply weightPerQuestion_nonneg|exact Hs].
  - intros k. destruct k; cbn; lra.
Qed.

Lemma aggregate_balanced submissions parameters (qs : list Question) :
  let g := fst (fold_left (processQuestion submissions parameters (100 / len qs)) qs
                  (zeroGlobalStats, ∅)) in
  totalWeight g == categorySum g.
Proof.
  cbv zeta.
  apply (fold_left_invariant _
           (fun s : AggState => totalWeight (fst s) == categorySum (fst s))).
  - intros s q Hs. apply processQuestion_balanced, Hs.
  - reflexivity.
Qed.

Lemma aggregate_totalWeight_cases submissions parameters (qs : list Question) :
  let g := fst (fold_left (processQuestion submissions parameters (100 / len qs)) qs
                  (zeroGlobalStats, ∅)) in
  totalWeight g == 0 \/ totalWeight g == 100.
Proof.
  cbv zeta. destruct submissions as [|s submissions].
  - left.
    assert (H : fst (fold_left (processQuestion [] parameters (100 / len qs)) qs
                       (zeroGlobalStats, ∅)) = zeroGlobalStats).
    { apply (fold_left_invariant _ (fun s : AggState => fst s = zeroGlobalStats));
        [|reflexivity].
      intros st q Hs. rewrite processQuestion_no_students. exact Hs. }
    rewrite H. reflexivity.
  - destruct qs as [|q qs]; [left; reflexivity|]. right.
    rewrite (fold_left_measure _ (fun st : AggState => totalWeight (fst st))
               (100 / len (q :: qs))).
    + cbn [fst totalWeight zeroGlobalStats].
      pose proof (len_pos (q :: qs)) as Hp.
      assert (0 < len (q :: qs)) by (apply Hp; discriminate).
      field. lra.
    + intros st q'. apply processQuestion_totalWeight. discriminate.
Qed.

Lemma Qmax_0_nonneg (x : Q) : 0 <= x -> Qmax 0 x == x.
Proof. intros H. apply Q.max_r, H. Qed.

Lemma Math_round_range (x : Q) : 0 <= x -> x <= 100 -> (0 <= Math_round x <= 100)%Z.
Proof.
  intros H0 H100. unfold Math_round. split.
  - change 0%Z with (Qfloor 0). apply Qfloor_resp_le. lra.
  - change 100%Z with (Qfloor (100 + (1 # 2))). apply Qfloor_resp_le. lra.
Qed.

(** For statistics returned by [calculateGradingStats] the donut is well
    formed: no dash length is clamped, the four cumulative lengths are
    non-negative and non-decreasing, and the centre percentage is between
    0 and 100. *)
Theorem donut_of_statistics_is_well_formed (repository : option Repository)
    (parameters : Thresholds) (r : GradingStats) :
  calculateGradingStats repository parameters = Some r ->
  exists v,
    renderGradingProgress (Some (globalStats r)) = DonutDrawn v /\
    segment_ai_high v == g_aiHigh (globalStats r) /\
    segment_ai_low v == segment_ai_high v + g_aiLow (globalStats r) /\
    segment_low_score v == segment_ai_low v + g_lowScore (globalStats r) /\
    segment_graded_once v == segment_low_score v + g_gradedOnce (globalStats r) /\
    0 <= segment_ai_high v /\
    segment_ai_high v <= segment_ai_low v /\
    segment_ai_low v <= segment_low_score v /\
    segment_low_score v <= segment_graded_once v /\
    (0 <= centerPercent v <= 100)%Z.
Proof.
  unfold calculateGradingStats.
  destruct repository as [[[qs|] [submissions|]]|]; try discriminate.
  cbn [questions studentSubmissions]. intros [= <-]. cbn [globalStats].
  set (g := fst (fold_left (processQuestion submissions parameters (100 / len qs)) qs
                   (zeroGlobalStats, ∅))).
  pose proof (aggregate_nonneg submissions parameters qs) as Hnn.
  pose proof (aggregate_balanced submissions parameters qs) as Hbal.
  pose proof (aggregate_totalWeight_cases submissions parameters qs) as Htot.
  cbv zeta in Hbal, Htot. fold g in Hnn, Hbal, Htot.
  pose proof (Hnn aiHigh) as H1. pose proof (Hnn aiLow) as H2.
  pose proof (Hnn lowScore) as H3. pose proof (Hnn gradedOnce) as H4.
  pose proof (Hnn graded2Plus) as H5. cbn [globalGet] in H1, H2, H3, H4, H5.
  unfold categorySum in Hbal.
  assert (Hle : totalWeight g <= 100) by (destruct Htot as [E|E]; rewrite E; lra).
  eexists. split; [reflexivity|].
  cbn [segment_ai_high segment_ai_low segment_low_score segment_graded_once
       centerPercent].
  rewrite !Qmax_0_nonneg by lra.
  repeat (split; [lra|]).
  apply Math_round_range; lra.
Qed.

Lemma donut_of_statistics_is_well_formed_witness :
  exists r v,
    calculateGradingStats (Some sampleRepository) (mkThresholds 80 50) = Some r /\
    renderGradingProgress (Some (globalStats r)) = DonutDrawn v /\
    segment_ai_high v == g_aiHigh (globalStats r) /\
    segment_ai_low v == segment_ai_high v + g_aiLow (globalStats r) /\
    segment_low_score v == segment_ai_low v + g_lowScore (globalStats r) /\
    segment_graded_once v == segment_low_score v + g_gradedOnce (globalStats r) /\
    0 <= segment_ai_high v /\
    segment_ai_high v <= segment_ai_low v /\
    segment_ai_low v <= segment_low_score v /\
    segment_low_score v <= segment_graded_once v /\
    (0 <= centerPercent v <= 100)%Z.
Proof.
  destruct (calculateGradingStats (Some sampleRepository) (mkThresholds 80 50))
    as [r|] eqn:E; [|discriminate E].
  destruct (donut_of_statistics_is_well_formed (Some sampleRepository)
              (mkThresholds 80 50) r E) as (v & Hv).
  exists r, v. split; [reflexivity|exact Hv].
Defined.

(** ** The breakdown bars of the per-question statistics *)

Lemma questionGet_toPercentages (k : Category) (e : QuestionStats) :
  0 < totalCount e ->
  questionGet k (toPercentages e) == (questionGet k e / totalCount e) * 100.
Proof.
  intros H. unfold toPercentages. apply Qlt_bool_true in H. rewrite H.
  destruct k; reflexivity.
Qed.

Lemma percentEntry_toPercentages (e : QuestionStats) :
  nonnegEntry e -> rawCounts e -> 0 < totalCount e -> percentEntry (toPercentages e).
Proof.
  intros [Hf Ht] Hraw Hpos. split; [split|split].
  - intros k. rewrite (questionGet_toPercentages k e Hpos).
    apply Qmult_le_0_compat; [|discriminate].
    unfold Qdiv. apply Qmult_le_0_compat; [apply Hf|].
    apply Qinv_le_0_compat, Ht.
  - rewrite totalCount_toPercentages. exact Ht.
  - rewrite totalCount_toPercentages. exact Hpos.
  - apply percentagesOk_toPercentages; [exact Hraw|].
    rewrite totalCount_toPercentages. exact Hpos.
Qed.

Lemma processQuestion_percentEntries submissions parameters wq (st : AggState) question :
  submissions <> [] ->
  (forall k e, snd st !! k = Some e -> percentEntry e) ->
  forall k e,
    snd (processQuestion submissions parameters wq st question) !! k = Some e ->
    percentEntry e.
Proof.
  intros Hne Hst k e'.
  destruct (processQuestion_effect submissions parameters wq st question)
    as (e & Hnn & Hraw & Hn & He & _ & Hfr).
  destruct (decide (k = question_id question)) as [->|Hk].
  - rewrite He. intros [= <-].
    apply percentEntry_toPercentages; try assumption.
    rewrite Hn.
    pose proof (len_pos _ (subItems_nonempty question)).
    pose proof (len_pos _ Hne).
    apply Qmult_lt_0_compat; assumption.
  - rewrite (Hfr k Hk). apply Hst.
Qed.

Lemma Math_round_split (a b : Q) :
  a + b == 100 ->
  (Math_round a + Math_round b = 100 \/ Math_round a + Math_round b = 101)%Z.
Proof.
  intros Hab. unfold Math_round.
  pose proof (Qfloor_le (a + (1 # 2))) as Ha1.
  pose proof (Qlt_floor (a + (1 # 2))) as Ha2.
  pose proof (Qfloor_le (b + (1 # 2))) as Hb1.
  pose proof (Qlt_floor (b + (1 # 2))) as Hb2.
  rewrite inject_Z_plus in Ha2, Hb2.
  assert (Hup : inject_Z (Qfloor (a + (1 # 2)) + Qfloor (b + (1 # 2))) <= inject_Z 101).
  { rewrite inject_Z_plus. change (inject_Z 101) with 101. lra. }
  assert (Hlo : inject_Z 99 < inject_Z (Qfloor (a + (1 # 2)) + Qfloor (b + (1 # 2)))).
  { rewrite inject_Z_plus. change (inject_Z 99) with 99.
    change (inject_Z 1) with 1 in Ha2, Hb2. lra. }
  rewrite <- Zle_Qle in Hup. rewrite <- Zlt_Qlt in Hlo. lia.
Qed.

Lemma Math_round_nonneg (x : Q) : 0 <= x -> (0 <= Math_round x)%Z.
Proof.
  intros H. unfold Math_round. change 0%Z with (Qfloor 0).
  apply Qfloor_resp_le. lra.
Qed.

Lemma Forall2_map_In {A B : Type} (R : A -> B -> Prop) (f : A -> B) (l : list A) :
  (forall a, In a l -> R a (f a)) -> Forall2 R l (map f l).
Proof.
  induction l as [|a l IH]; intros H; cbn [map]; constructor.
  - apply H. left. reflexivity.
  - apply IH. intros b Hb. apply H. right. exact Hb.
Qed.

(** With at least one question and one student, the breakdown of the
    statistics of the same questions draws bars, one for each question in
    their order, and each bar shows the entry of its question, never the
    all-zero fallback: the entry counts at least one pair, the five widths
    are its five percentages and are non-negative, and the two rounded
    labels (AI, manual) are non-negative and add up to 100 give or take 1. *)
Theorem breakdown_bars_show_percentages (qs : list Question)
    (submissions : list Student) (parameters : Thresholds) :
  qs <> [] -> submissions <> [] ->
  exists r bars,
    calculateGradingStats (Some (mkRepository (Some qs) (Some submissions))) parameters
      = Some r /\
    renderQuestionBreakdown (Some qs) (questionStats r) = BreakdownBars bars /\
    Forall2
      (fun q bar =>
         exists e,
           questionStats r !! question_id q = Some e /\
           0 < totalCount e /\
           bar_question bar = question_id q /\
           aiHighWidth bar = q_aiHigh e /\ aiLowWidth bar = q_aiLow e /\
           lowScoreWidth bar = q_lowScore e /\
           gradedOnceWidth bar = q_gradedOnce e /\
           graded2PlusWidth bar = q_graded2Plus e /\
           0 <= aiHighWidth bar /\ 0 <= aiLowWidth bar /\ 0 <= lowScoreWidth bar /\
           0 <= gradedOnceWidth bar /\ 0 <= graded2PlusWidth bar /\
           (0 <= aiPercent bar)%Z /\ (0 <= manualPercent bar)%Z /\
           (99 <= aiPercent bar + manualPercent bar <= 101)%Z)
      qs bars.
Proof.
  intros Hqs Hne. eexists. eexists. split; [reflexivity|]. cbn [questionStats].
  set (st := fold_left (processQuestion submissions parameters (100 / len qs)) qs
               (zeroGlobalStats, ∅)).
  assert (Hall : forall k e, snd st !! k = Some e -> percentEntry e).
  { apply (fold_left_invariant _
             (fun s : AggState => forall k e, snd s !! k = Some e -> percentEntry e)).
    - intros s q Hs. apply processQuestion_percentEntries; assumption.
    - intros k e. cbn [snd]. rewrite lookup_empty. discriminate. }
  assert (Hkeys : forall q, In q qs -> is_Some (snd st !! question_id q)).
  { intros q Hq.
    apply (fold_left_established _
             (fun q (s : AggState) => is_Some (snd s !! question_id q)));
      [ intros; apply processQuestion_adds_key
      | intros; now apply processQuestion_keeps_key
      | exact Hq ]. }
  assert (Hr : renderQuestionBreakdown (Some qs) (snd st)
               = BreakdownBars
                   (map (fun q => updateOrCreateBar (question_id q)
                                    (barStats (snd st !! question_id q))) qs)).
  { unfold renderQuestionBreakdown. destruct qs; [contradiction|reflexivity]. }
  split; [exact Hr|].
  apply Forall2_map_In. intros q Hq. subst st. cbv beta.
  destruct (Hkeys q Hq) as [e He]. exists e. rewrite He.
  destruct (Hall _ _ He) as [[Hf _] [Hpos Hsum]].
  pose proof (Hf aiHigh) as H1. pose proof (Hf aiLow) as H2.
  pose proof (Hf lowScore) as H3. pose proof (Hf gradedOnce) as H4.
  pose proof (Hf graded2Plus) as H5. cbn [questionGet] in H1, H2, H3, H4, H5.
  unfold percentageSum in Hsum.
  cbn [barStats updateOrCreateBar bar_question aiHighWidth aiLowWidth lowScoreWidth
       gradedOnceWidth graded2PlusWidth aiPercent manualPercent].
  split; [reflexivity|]. split; [exact Hpos|].
  do 6 (split; [reflexivity|]).
  do 5 (split; [assumption|]).
  split; [apply Math_round_nonneg; lra|].
  split; [apply Math_round_nonneg; lra|].
  assert (Hsplit : (Math_round (q_aiHigh e + q_lowScore e + q_aiLow e)
                    + Math_round (q_gradedOnce e + q_graded2Plus e) = 100
                    \/ Math_round (q_aiHigh e + q_lowScore e + q_aiLow e)
                       + Math_round (q_gradedOnce e + q_graded2Plus e) = 101)%Z).
  { apply Math_round_split. rewrite <- Hsum. ring. }
  lia.
Qed.

Lemma breakdown_bars_show_percentages_witness :
  exists r bars,
    calculateGradingStats (Some (mkRepository (Some sampleQuestions)
                                   (Some sampleSubmissions))) (mkThresholds 80 50)
      = Some r /\
    renderQuestionBreakdown (Some sampleQuestions) (questionStats r)
      = BreakdownBars bars /\
    Forall2
      (fun q bar =>
         exists e,
           questionStats r !! question_id q = Some e /\
           0 < totalCount e /\
           bar_question bar = question_id q /\
           aiHighWidth bar = q_aiHigh e /\ aiLowWidth bar = q_aiLow e /\
           lowScoreWidth bar = q_lowScore e /\
           gradedOnceWidth bar = q_gradedOnce e /\
           graded2PlusWidth bar = q_graded2Plus e /\
           0 <= aiHighWidth bar /\ 0 <= aiLowWidth bar /\ 0 <= lowScoreWidth bar /\
           0 <= gradedOnceWidth bar /\ 0 <= graded2PlusWidth bar /\
           (0 <= aiPercent bar)%Z /\ (0 <= manualPercent bar)%Z /\
           (99 <= aiPercent bar + manualPercent bar <= 101)%Z)
      sampleQuestions bars.
Proof.
  apply breakdown_bars_show_percentages; discriminate.
Defined.

(** In exact arithmetic the labels can add up to 101: one question, eight
    students, one of them graded manually (87.5 % and 12.5 %, both of which
    are doubles). *)
Example breakdown_labels_can_exceed_100 :
  let ungraded := fun n => mkStudent n n (Some [mkGrade "Q1" (Some 90) (Some 9) None]) in
  let graded := mkStudent "h" "h" (Some [mkGrade "Q1" (Some 90) (Some 9) (Some 1)]) in
  let qs := [mkQuestion "Q1" (Some 10) None] in
  let submissions := graded :: map ungraded ["a"; "b"; "c"; "d"; "e"; "f"; "g"]%string in
  exists r bar,
    calculateGradingStats (Some (mkRepository (Some qs) (Some submissions)))
      (mkThresholds 80 50) = Some r /\
    renderQuestionBreakdown (Some qs) (questionStats r) = BreakdownBars [bar] /\
    aiPercent bar = 88%Z /\ manualPercent bar = 13%Z.
Proof.
  cbv zeta. eexists _, _. split; [reflexivity|].
  split; [vm_compute; reflexivity|]. split; reflexivity.
Qed.

(** ** Global statistics are the mean of the per-question percentages *)

Lemma entryOf_frame submissions parameters wq (qs : list Question) (st : AggState)
    (q : Question) :
  ~ In (question_id q) (map question_id qs) ->
  entryOf (snd (fold_left (processQuestion submissions parameters wq) qs st)) q
  = entryOf (snd st) q.
Proof.
  intros H. unfold entryOf. rewrite fold_processQuestion_frame by exact H.
  reflexivity.
Qed.

Lemma Qsum_map_ext {A : Type} (f g : A -> Q) (l : list A) :
  (forall x, In x l -> f x = g x) -> Qsum (map f l) = Qsum (map g l).
Proof.
  induction l as [|x l IH]; intros H; [reflexivity|].
  cbn [map Qsum fold_right]. rewrite (H x) by (left; reflexivity).
  f_equal. apply IH. intros y Hy. apply H. right. exact Hy.
Qed.

Lemma processQuestion_share submissions parameters wq (st : AggState) question
    (k : Category) :
  submissions <> [] ->
  globalGet k (fst (processQuestion submissions parameters wq st question))
  == globalGet k (fst st)
     + questionGet k
         (entryOf (snd (processQuestion submissions parameters wq st question)) question)
       * (wq / 100).
Proof.
  intros Hne.
  destruct (processQuestion_effect submissions parameters wq st question)
    as (e & _ & _ & Hn & He & Hg & _).
  unfold entryOf. rewrite He. cbn [default].
  pose proof (len_pos _ (subItems_nonempty question)) as HK.
  pose proof (len_pos _ Hne) as HM.
  assert (Hpos : 0 < totalCount e).
  { rewrite Hn. apply Qmult_lt_0_compat; assumption. }
  rewrite (questionGet_toPercentages k e Hpos), (Hg k), Hn.
  field. split; lra.
Qed.

Lemma fold_processQuestion_share submissions parameters wq (k : Category)
    (qs : list Question) (st : AggState) :
  submissions <> [] -> List.NoDup (map question_id qs) ->
  globalGet k (fst (fold_left (processQuestion submissions parameters wq) qs st))
  == globalGet k (fst st)
     + Qsum (map (fun q => questionGet k
                    (entryOf (snd (fold_left (processQuestion submissions parameters wq)
                                     qs st)) q)) qs)
       * (wq / 100).
Proof.
  intros Hne. revert st.
  induction qs as [|q qs IH]; intros st Hnd.
  - cbn. ring.
  - cbn [map] in Hnd. apply NoDup_cons_iff in Hnd as [Hnot Hnd].
    cbn [fold_left map Qsum fold_right].
    rewrite (IH _ Hnd), (entryOf_frame _ _ _ _ _ _ Hnot).
    rewrite (processQuestion_share _ _ _ _ _ k Hne).
    fold (Qsum (map (fun q0 => questionGet k
                       (entryOf (snd (fold_left
                                        (processQuestion submissions parameters wq) qs
                                        (processQuestion submissions parameters wq st q)))
                          q0)) qs)).
    ring.
Qed.

(** In exact rational arithmetic, with distinct question ids and at least
    one student, each global category value is the mean over the top-level
    questions of that category's per-question percentage.  (The two sides
    are computed along different paths, so as doubles they can differ in
    their last digits.) *)
Theorem global_is_mean_of_questions (qs : list Question) (submissions : list Student)
    (parameters : Thresholds) (k : Category) :
  List.NoDup (map question_id qs) -> submissions <> [] ->
  exists r,
    calculateGradingStats (Some (mkRepository (Some qs) (Some submissions))) parameters
      = Some r /\
    globalGet k (globalStats r) * len qs
    == Qsum (map (fun q => questionGet k (entryOf (questionStats r) q)) qs).
Proof.
  intros Hnd Hne. eexists. split; [reflexivity|]. cbn [globalStats questionStats].
  rewrite (fold_processQuestion_share submissions parameters (100 / len qs) k qs
             (zeroGlobalStats, ∅) Hne Hnd).
  destruct qs as [|q qs].
  - cbn [map Qsum fold_right]. rewrite (@len_nil Question). ring.
  - pose proof (len_pos (q :: qs)) as Hp.
    assert (0 < len (q :: qs)) by (apply Hp; discriminate).
    replace (globalGet k (fst (zeroGlobalStats, ∅ : gmap string QuestionStats)))
      with 0 by (destruct k; reflexivity).
    field. lra.
Qed.

Lemma global_is_mean_of_questions_witness :
  exists r,
    calculateGradingStats (Some (mkRepository (Some sampleQuestions)
                                   (Some sampleSubmissions))) (mkThresholds 80 50)
      = Some r /\
    globalGet gradedOnce (globalStats r) * len sampleQuestions
    == Qsum (map (fun q => questionGet gradedOnce (entryOf (questionStats r) q))
               sampleQuestions).
Proof.
  apply global_is_mean_of_questions.
  - repeat constructor; cbn; intuition discriminate.
  - discriminate.
Defined.

(** ** The two aggregators compute the same statistics *)

Lemma find_map {A B : Type} (f : A -> B) (p : B -> bool) (l : list A) :
  List.find p (map f l) = option_map f (List.find (fun x => p (f x)) l).
Proof.
  induction l as [|x l IH]; [reflexivity|]. cbn [map List.find].
  destruct (p (f x)); [reflexivity|exact IH].
Qed.

Lemma fold_left_map_list {S A B : Type} (f : S -> B -> S) (g : A -> B) (l : list A)
    (s : S) :
  fold_left f (map g l) s = fold_left (fun acc x => f acc (g x)) l s.
Proof.
  revert s. induction l as [|x l IH]; intros s; [reflexivity|].
  cbn [map fold_left]. apply IH.
Qed.

Lemma fold_left_ext_eq {S A : Type} (f g : S -> A -> S) (l : list A) (s : S) :
  (forall acc x, f acc x = g acc x) -> fold_left f l s = fold_left g l s.
Proof.
  intros H. revert s. induction l as [|x l IH]; intros s; [reflexivity|].
  cbn [fold_left]. rewrite H. apply IH.
Qed.

Lemma len_map {A B : Type} (f : A -> B) (l : list A) : len (map f l) = len l.
Proof. unfold len. rewrite length_map. reflexivity. Qed.

Lemma historyCategory_determineCategory {Pass : Type} (parameters : Thresholds)
    (maxPoints : Q) (g : HistoryGrade Pass) :
  historyCategory parameters maxPoints g
  = determineCategory (or_zero (confidence (statusGrade g)))
      (or_zero (aiSuggestedScore (statusGrade g))) maxPoints
      (or_zero (manualStatus (statusGrade g))) parameters.
Proof.
  cbn [statusGrade confidence aiSuggestedScore manualStatus].
  rewrite (determineCategory_compat _ (or_zero (h_confidence g))
             _ (or_zero (h_aiSuggestedScore g)) maxPoints
             _ (manualCount g) parameters
             (Qeq_refl _) (Qeq_refl _)
             (or_zero_nullish (Some (manualCount g)))).
  unfold historyCategory, determineCategory, scorePercentage, Qlt_bool, Qge_bool.
  destruct (Qle_bool 2 (manualCount g)); [reflexivity|].
  destruct (Qeq_bool (manualCount g) 1); [reflexivity|].
  destruct (Qle_bool (aiConfidenceThreshold parameters) (or_zero (h_confidence g)));
    reflexivity.
Qed.

Lemma historyAggregatorCategory_status {Pass : Type}
    (submissions : list (HistoryStudent Pass)) (parameters : Thresholds)
    (item : Question) (student : HistoryStudent Pass) :
  historyAggregatorCategory submissions parameters item student
  = aggregatorCategory (map statusStudent submissions) parameters item
      (statusStudent student).
Proof.
  unfold historyAggregatorCategory, aggregatorCategory, findHistoryGrade, findGrade.
  rewrite find_map. cbn [statusStudent student_id].
  destruct (List.find _ submissions) as [s|]; cbn [option_map]; [|reflexivity].
  cbn [statusStudent grades].
  destruct (h_grades s) as [gs|]; cbn [option_map]; [|reflexivity].
  rewrite find_map. cbn [statusGrade questionId].
  destruct (List.find _ gs) as [g|]; cbn [option_map]; [|reflexivity].
  apply historyCategory_determineCategory.
Qed.

Lemma historyProcessQuestion_status {Pass : Type}
    (submissions : list (HistoryStudent Pass)) (parameters : Thresholds) (wq : Q)
    (st : AggState) (question : Question) :
  historyProcessQuestion submissions parameters wq st question
  = processQuestion (map statusStudent submissions) parameters wq st question.
Proof.
  unfold historyProcessQuestion, processQuestion.
  assert (Hitems : forall l s,
    fold_left (historyProcessItem submissions parameters (question_id question)
                 (wq / len (subItems question))) l s
    = fold_left (processItem (map statusStudent submissions) parameters
                   (question_id question) (wq / len (subItems question))) l s).
  { intros l s. apply fold_left_ext_eq. intros acc item.
    unfold historyProcessItem, processItem.
    rewrite fold_left_map_list. apply fold_left_ext_eq. intros acc' student.
    unfold historyProcessStudent, processStudent.
    rewrite historyAggregatorCategory_status, len_map. reflexivity. }
  rewrite Hitems. reflexivity.
Qed.

(** The aggregator that counts the entries of [gradingHistory] returns
    exactly the statistics of [calculateGradingStats] on the repository
    whose grades carry that count as [manualStatus]. *)
Theorem history_aggregator_agrees {Pass : Type}
    (repository : option (HistoryRepository Pass)) (parameters : Thresholds) :
  historyCalculateGradingStats repository parameters
  = calculateGradingStats (option_map statusRepository repository) parameters.
Proof.
  unfold historyCalculateGradingStats, calculateGradingStats.
  destruct repository as [[[qs|] [submissions|]]|]; try reflexivity.
  cbn [option_map statusRepository h_questions h_studentSubmissions questions
       studentSubmissions].
  rewrite (fold_left_ext_eq _
             (processQuestion (map statusStudent submissions) parameters
                (100 / len qs)))
    by (intros; apply historyProcessQuestion_status).
  reflexivity.
Qed.

(** ** A status update as seen by the statistics *)

Lemma manual_status_determineCategory (c sc m status : Q) (t : Thresholds) :
  2 <= status \/ status == 1 ->
  determineCategory c sc m (or_zero (Some status)) t = manualCategory status.
Proof.
  intros H.
  rewrite (determineCategory_compat c c sc sc m _ status t (Qeq_refl _) (Qeq_refl _)
             (or_zero_nullish (Some status))).
  unfold determineCategory, manualCategory, Qge_bool.
  destruct (Qle_bool 2 status) eqn:E2; [reflexivity|].
  destruct H as [H|H].
  - apply Qle_bool_iff in H. congruence.
  - apply Qeq_bool_iff in H. rewrite H. reflexivity.
Qed.

Lemma ids_updateFirstNamed (name : string) (newGrades : option (list Grade))
    (submissions : list Student) :
  map student_id (updateFirstNamed name newGrades submissions)
  = map student_id submissions.
Proof.
  induction submissions as [|s l IH]; [reflexivity|]. cbn [updateFirstNamed].
  destruct (String.eqb (student_name s) name); cbn [map student_id]; [reflexivity|].
  rewrite IH. reflexivity.
Qed.

(** After a status of 1, or of 2 and more, has been set for a student
    (student ids being distinct), [calculateGradingStats] classifies every
    targeted pair of that student as graded once, resp. graded twice. *)
Theorem updated_pair_counts_as_graded (ls : ThresholdStorage) (parameters : Thresholds)
    (selectedQuestion selectedStudent : string) (qs : list Question)
    (submissions : list Student) (student : Student) (gs : list Grade)
    (name qid : string) (status : Q) :
  List.find (fun s => String.eqb (student_name s) name) submissions = Some student ->
  grades student = Some gs ->
  List.NoDup (map student_id submissions) ->
  2 <= status \/ status == 1 ->
  exists submissions' student' rendered,
    updateManualGradingStatus (Some (mkRepository (Some qs) (Some submissions))) ls
      selectedQuestion selectedStudent name qid status
    = Updated (mkRepository (Some qs) (Some submissions')) rendered /\
    In student' submissions' /\
    student_id student' = student_id student /\
    forall item, In (question_id item) (statusTargets qs qid) ->
      aggregatorCategory submissions' parameters item student' = manualCategory status.
Proof.
  intros Hf Hg Hnd Hst.
  destruct (update_outcome ls selectedQuestion selectedStudent qs submissions student
              gs name qid status Hf Hg) as (gs' & Hgs' & Hout).
  pose proof (find_updateFirstNamed name (Some gs') _ _ Hf) as Hf'.
  assert (Hin : In (mkStudent (student_id student) (student_name student) (Some gs'))
                   (updateFirstNamed name (Some gs') submissions))
    by (apply find_some in Hf' as [H _]; exact H).
  eexists _, _, _. split; [exact Hout|]. split; [exact Hin|].
  split; [reflexivity|].
  intros item Hitem. unfold aggregatorCategory.
  rewrite (findGrade_studentGrade _ _ _ Hin)
    by (rewrite ids_updateFirstNamed; exact Hnd).
  unfold studentGrade. cbn [grades]. subst gs'.
  destruct (applyStatus_target _ status gs _ Hitem) as (g & Hgr & Hs).
  unfold gradeFor in Hgr. rewrite Hgr, Hs.
  apply manual_status_determineCategory, Hst.
Qed.

Lemma updated_pair_counts_as_graded_witness :
  exists submissions' student' rendered,
    updateManualGradingStatus (Some sampleRepository) defaultStorage "" "" "Bob" "Q1" 1
    = Updated (mkRepository (Some sampleQuestions) (Some submissions')) rendered /\
    In student' submissions' /\
    student_id student' = "s2"%string /\
    forall item, In (question_id item) (statusTargets sampleQuestions "Q1") ->
      aggregatorCategory submissions' (mkThresholds 80 50) item student'
      = manualCategory 1.
Proof.
  apply (updated_pair_counts_as_graded defaultStorage (mkThresholds 80 50) "" ""
           sampleQuestions sampleSubmissions
           (mkStudent "s2" "Bob"
              (Some [mkGrade "Q1.B" (Some 85) (Some 1) None;
                     mkGrade "Q2" (Some 70) (Some 4) (Some 1)]))
           [mkGrade "Q1.B" (Some 85) (Some 1) None;
            mkGrade "Q2" (Some 70) (Some 4) (Some 1)]
           "Bob" "Q1" 1).
  - reflexivity.
  - reflexivity.
  - repeat constructor; cbn; intuition discriminate.
  - right. reflexivity.
Defined.

(** ** The filter options and the rows *)

Lemma questionItems_ids (ls : ThresholdStorage) (student : Student)
    (question : Question) (v : string) :
  In v (map item_questionId (questionItems ls "" student question))
  <-> In v (question_id question
            :: match question_subquestions question with
               | Some subs => map question_id subs
               | None => []
               end).
Proof.
  unfold questionItems.
  destruct (question_subquestions question) as [[|sub rest]|]; cbn [truthy];
    try (cbn; tauto).
  rewrite subquestion_entries_unfiltered.
  cbn [String.eqb negb orb].
  rewrite map_app, in_app_iff, map_map.
  cbn [map parentItem item_questionId subItem In].
  rewrite (map_ext (fun x => item_questionId (subItem ls student x)) question_id)
    by reflexivity.
  change (negb (truthy "") || String.eqb (question_id question) "") with true.
  cbn [map parentItem item_questionId In].
  tauto.
Qed.

(** The question filter offers exactly the question ids that occur in the
    unfiltered list (there being at least one student), and the student
    filter exactly the student names that occur in it (there being at least
    one question). *)
Theorem filter_options_match_rows (ls : ThresholdStorage) (qs : list Question)
    (submissions : list Student) (v : string) :
  exists full,
    renderStudentExamsList (Some (mkRepository (Some qs) (Some submissions))) ls "" ""
      = Rendered full /\
    (submissions <> [] ->
     (In v (questionFilterValues qs) <-> In v (map item_questionId full))) /\
    (qs <> [] ->
     (In v (studentFilterValues (Some submissions)) <-> In v (map studentName full))).
Proof.
  eexists. split; [reflexivity|].
  assert (Hperm : forall (f : Item -> string),
            In v (map f (js_sort compareItems (allItems ls "" "" qs submissions)))
            <-> In v (map f (allItems ls "" "" qs submissions))).
  { intros f. split; apply Permutation_in, Permutation_map.
    - apply js_sort_Permutation.
    - apply Permutation_sym, js_sort_Permutation. }
  split.
  - intros Hne. rewrite Hperm. unfold questionFilterValues. split.
    + intros Hin. apply in_flat_map in Hin as (q & Hq & Hv).
      destruct submissions as [|s l]; [congruence|].
      apply in_map_iff.
      apply (questionItems_ids ls s q v) in Hv.
      apply in_map_iff in Hv as (it & Hit & Hin).
      exists it. split; [exact Hit|].
      apply (questionItems_in_allItems ls "" "" qs (s :: l) s q);
        [left; reflexivity | exact Hq | left; reflexivity | exact Hin].
    + intros Hin. apply in_map_iff in Hin as (it & Hit & Hin).
      apply allItems_inv in Hin as (s & q & _ & Hq & Hin).
      apply in_flat_map. exists q. split; [exact Hq|].
      apply (questionItems_ids ls s q v). rewrite <- Hit. apply in_map, Hin.
  - intros Hne. rewrite Hperm. cbn [studentFilterValues]. split.
    + intros Hin. apply in_map_iff in Hin as (s & Hs & Hin).
      destruct qs as [|q l]; [congruence|].
      assert (Hex : exists it, In it (questionItems ls "" s q)).
      { destruct (questionItems ls "" s q) as [|it its] eqn:E.
        - pose proof (entriesPerStudent_length ls s q) as Hlen. rewrite E in Hlen.
          unfold entriesPerStudent in Hlen.
          destruct (question_subquestions q) as [[|? ?]|]; discriminate.
        - exists it. left. reflexivity. }
      destruct Hex as (it & Hit).
      apply in_map_iff. exists it. split.
      * rewrite (questionItems_studentName _ _ _ _ _ Hit). exact Hs.
      * apply (questionItems_in_allItems ls "" "" (q :: l) submissions s q);
          [exact Hin | left; reflexivity | left; reflexivity | exact Hit].
    + intros Hin. apply in_map_iff in Hin as (it & Hit & Hin).
      apply allItems_inv in Hin as (s & q & Hs & _ & Hin).
      apply in_map_iff. exists s. split; [|exact Hs].
      rewrite <- Hit. symmetry. apply (questionItems_studentName _ _ _ _ _ Hin).
Qed.

Lemma filter_options_match_rows_witness :
  exists full,
    renderStudentExamsList (Some (mkRepository (Some sampleQuestions)
                                    (Some sampleSubmissions))) defaultStorage "" ""
      = Rendered full /\
    (In "Q1.B"%string (questionFilterValues sampleQuestions)
     <-> In "Q1.B"%string (map item_questionId full)) /\
    (In "Bob"%string (studentFilterValues (Some sampleSubmissions))
     <-> In "Bob"%string (map studentName full)).
Proof.
  destruct (filter_options_match_rows defaultStorage sampleQuestions sampleSubmissions
              "Q1.B") as (full & Hr & Hq & _).
  destruct (filter_options_match_rows defaultStorage sampleQuestions sampleSubmissions
              "Bob") as (full' & Hr' & _ & Hs).
  assert (full' = full) by congruence. subst full'.
  exists full. split; [exact Hr|]. split.
  - apply Hq. discriminate.
  - apply Hs. discriminate.
Defined.

(** ** The keys of the per-question statistics *)

(** The keys [questionStats] holds as its own are exactly the ids of the
    top-level questions: none is missing, and no subquestion gets one of
    its own.  The name [__proto__] is set aside: assigning to it on a plain
    object changes the prototype instead of adding a key, so the statement
    is made for questions none of which has that id. *)
Theorem questionStats_keys (qs : list Question) (submissions : list Student)
    (parameters : Thresholds) (k : string) :
  ~ In "__proto__"%string (map question_id qs) ->
  exists r,
    calculateGradingStats (Some (mkRepository (Some qs) (Some submissions))) parameters
      = Some r /\
    (is_Some (questionStats r !! k) <-> In k (map question_id qs)).
Proof.
  intros _. eexists. split; [reflexivity|]. cbn [questionStats]. split.
  - intros Hsome.
    destruct (in_dec String.string_dec k (map question_id qs)) as [Hin|Hnot];
      [exact Hin|].
    rewrite fold_processQuestion_frame in Hsome by exact Hnot.
    cbn [snd] in Hsome. rewrite lookup_empty in Hsome.
    destruct Hsome as [e He]. discriminate.
  - intros Hin. apply in_map_iff in Hin as (q & <- & Hq).
    apply (fold_left_established _
             (fun q (s : AggState) => is_Some (snd s !! question_id q)));
      [ intros; apply processQuestion_adds_key
      | intros; now apply processQuestion_keeps_key
      | exact Hq ].
Qed.

Lemma questionStats_keys_witness :
  exists r,
    calculateGradingStats (Some (mkRepository (Some sampleQuestions)
                                   (Some sampleSubmissions))) (mkThresholds 80 50)
      = Some r /\
    is_Some (questionStats r !! "Q1"%string) /\
    ~ is_Some (questionStats r !! "Q1.A"%string).
Proof.
  assert (Hids : ~ In "__proto__"%string (map question_id sampleQuestions))
    by (cbn; intuition discriminate).
  destruct (questionStats_keys sampleQuestions sampleSubmissions (mkThresholds 80 50)
              "Q1" Hids) as (r & Hr & H1).
  destruct (questionStats_keys sampleQuestions sampleSubmissions (mkThresholds 80 50)
              "Q1.A" Hids) as (r' & Hr' & H2).
  assert (r' = r) by congruence. subst r'.
  exists r. split; [exact Hr|]. split.
  - apply H1. left. reflexivity.
  - intros H. apply H2 in H. cbn in H. intuition discriminate.
Defined.

(** ** Manual grading is never undone by an update *)

Lemma fold_left_related {S A B : Type} (f : S -> A -> S) (g : S -> B -> S)
    (I : S -> S -> Prop) (R : A -> B -> Prop) :
  (forall s s' a b, I s s' -> R a b -> I (f s a) (g s' b)) ->
  forall l l', Forall2 R l l' -> forall s s', I s s' ->
  I (fold_left f l s) (fold_left g l' s').
Proof.
  intros Hstep l l' H. induction H as [|a b l l' Hab Hl IH]; intros s s' Hs.
  - exact Hs.
  - cbn [fold_left]. apply IH, Hstep; assumption.
Qed.

Lemma Forall2_same {A : Type} (R : A -> A -> Prop) (l : list A) :
  (forall a, In a l -> R a a) -> Forall2 R l l.
Proof.
  induction l as [|a l IH]; intros H; constructor.
  - apply H. left. reflexivity.
  - apply IH. intros b Hb. apply H. right. exact Hb.
Qed.

Lemma Forall2_In_impl {A B : Type} (R R' : A -> B -> Prop) (l : list A) (l' : list B) :
  Forall2 R l l' ->
  (forall a b, In a l -> In b l' -> R a b -> R' a b) ->
  Forall2 R' l l'.
Proof.
  induction 1 as [|a b l l' Hab Hl IH]; intros H; constructor.
  - apply H; [left; reflexivity | left; reflexivity | exact Hab].
  - apply IH. intros a' b' Ha' Hb'. apply H; right; assumption.
Qed.

Lemma updateFirstNamed_related (name : string) (newGrades : option (list Grade))
    (submissions : list Student) (student : Student) :
  List.find (fun s => String.eqb (student_name s) name) submissions = Some student ->
  Forall2
    (fun s s' =>
       s' = s \/
       (s = student /\
        s' = mkStudent (student_id student) (student_name student) newGrades))
    submissions (updateFirstNamed name newGrades submissions).
Proof.
  induction submissions as [|s l IH]; cbn [List.find updateFirstNamed]; [discriminate|].
  destruct (String.eqb (student_name s) name).
  - intros [= <-]. constructor; [right; split; reflexivity|].
    apply Forall2_same. intros a _. left. reflexivity.
  - intros H. constructor; [left; reflexivity | apply IH, H].
Qed.

Lemma isManual_manualCategory (status : Q) : isManual (manualCategory status) = true.
Proof. unfold manualCategory. destruct (Qle_bool 2 status); reflexivity. Qed.

(** Setting a status of 1, or of 2 and more, never takes a pair out of the
    manually graded ones (student ids being distinct): the update keeps
    the students in their order, with their ids, and every pair of an item
    and a student that the aggregator classified as graded once or graded
    twice before the update is classified as one of the two after it.  The
    classification of such a pair is decided by the manual status alone,
    without arithmetic. *)
Theorem manual_pairs_stay_manual (ls : ThresholdStorage)
    (parameters : Thresholds) (selectedQuestion selectedStudent : string)
    (qs : list Question) (submissions : list Student) (student : Student)
    (gs : list Grade) (name qid : string) (status : Q) :
  List.find (fun s => String.eqb (student_name s) name) submissions = Some student ->
  grades student = Some gs ->
  List.NoDup (map student_id submissions) ->
  2 <= status \/ status == 1 ->
  exists submissions' rendered,
    updateManualGradingStatus (Some (mkRepository (Some qs) (Some submissions))) ls
      selectedQuestion selectedStudent name qid status
      = Updated (mkRepository (Some qs) (Some submissions')) rendered /\
    Forall2
      (fun s s' =>
         student_id s' = student_id s /\
         forall item,
           isManual (aggregatorCategory submissions parameters item s) = true ->
           isManual (aggregatorCategory submissions' parameters item s') = true)
      submissions submissions'.
Proof.
  intros Hf Hg Hnd Hst.
  destruct (update_outcome ls selectedQuestion selectedStudent qs submissions student
              gs name qid status Hf Hg) as (gs' & Hgs' & Hout).
  set (submissions' := updateFirstNamed name (Some gs') submissions).
  exists submissions'. eexists. split; [exact Hout|].
  assert (Hnd' : List.NoDup (map student_id submissions'))
    by (unfold submissions'; rewrite ids_updateFirstNamed; exact Hnd).
  apply (Forall2_In_impl _ _ _ _ (updateFirstNamed_related name (Some gs') _ _ Hf)).
  intros s s' Hs Hs' [->|[-> ->]]; (split; [reflexivity|]); intros item;
    unfold aggregatorCategory.
  - rewrite (findGrade_studentGrade _ _ _ Hs Hnd).
    rewrite (findGrade_studentGrade _ _ _ Hs' Hnd'). tauto.
  - rewrite (findGrade_studentGrade _ _ _ Hs Hnd).
    rewrite (findGrade_studentGrade _ _ _ Hs' Hnd').
    unfold studentGrade. cbn [grades]. rewrite Hg. subst gs'.
    destruct (in_dec String.string_dec (question_id item) (statusTargets qs qid))
      as [Hin|Hnot].
    + destruct (applyStatus_target _ status gs _ Hin) as (g & Hgr & Hs0).
      unfold gradeFor in Hgr. rewrite Hgr, Hs0.
      rewrite (manual_status_determineCategory _ _ _ _ _ Hst).
      intros _. apply isManual_manualCategory.
    + pose proof (applyStatus_other _ status gs _ Hnot) as Heq.
      unfold gradeFor in Heq. rewrite Heq. tauto.
Qed.

Lemma manual_pairs_stay_manual_witness :
  exists submissions' rendered,
    updateManualGradingStatus (Some (mkRepository (Some sampleQuestions)
                                       (Some sampleSubmissions)))
      defaultStorage "" "" "Bob" "Q1" 1
      = Updated (mkRepository (Some sampleQuestions) (Some submissions')) rendered /\
    Forall2
      (fun s s' =>
         student_id s' = student_id s /\
         forall item,
           isManual (aggregatorCategory sampleSubmissions (mkThresholds 80 50) item s)
             = true ->
           isManual (aggregatorCategory submissions' (mkThresholds 80 50) item s')
             = true)
      sampleSubmissions submissions'.
Proof.
  apply (manual_pairs_stay_manual defaultStorage (mkThresholds 80 50) "" ""
           sampleQuestions sampleSubmissions
           (mkStudent "s2" "Bob"
              (Some [mkGrade "Q1.B" (Some 85) (Some 1) None;
                     mkGrade "Q2" (Some 70) (Some 4) (Some 1)]))
           [mkGrade "Q1.B" (Some 85) (Some 1) None;
            mkGrade "Q2" (Some 70) (Some 4) (Some 1)]
           "Bob" "Q1" 1).
  - reflexivity.
  - reflexivity.
  - repeat constructor; cbn; intuition discriminate.
  - right. reflexivity.
Defined.

(** ** Thresholds do not move manual progress *)

Lemma manualPart_determineCategory (c s m ms : Q) (t1 t2 : Thresholds) :
  manualPart (determineCategory c s m ms t1)
  = manualPart (determineCategory c s m ms t2).
Proof.
  unfold determineCategory.
  destruct (Qge_bool ms 2); [reflexivity|].
  destruct (Qeq_bool ms 1); [reflexivity|].
  destruct (Qlt_bool c (aiConfidenceThreshold t1)),
           (Qlt_bool c (aiConfidenceThreshold t2)),
           (Qlt_bool (scorePercentage s m) (studentScoreThreshold t1)),
           (Qlt_bool (scorePercentage s m) (studentScoreThreshold t2));
    reflexivity.
Qed.

Lemma manualPart_aggregatorCategory submissions (t1 t2 : Thresholds) item student :
  manualPart (aggregatorCategory submissions t1 item student)
  = manualPart (aggregatorCategory submissions t2 item student).
Proof.
  unfold aggregatorCategory.
  destruct (findGrade submissions (student_id student) (question_id item));
    [apply manualPart_determineCategory|reflexivity].
Qed.

Lemma manual_counters_addContribution (k1 k2 : Category) (c : Q) (g1 g2 : GlobalStats) :
  manualPart k1 = manualPart k2 ->
  g_gradedOnce g1 == g_gradedOnce g2 /\ g_graded2Plus g1 == g_graded2Plus g2 ->
  g_gradedOnce (addContribution k1 c g1) == g_gradedOnce (addContribution k2 c g2) /\
  g_graded2Plus (addContribution k1 c g1) == g_graded2Plus (addContribution k2 c g2).
Proof.
  intros Hk [H1 H2].
  destruct k1, k2; try discriminate Hk; cbn; rewrite ?H1, ?H2; split; reflexivity.
Qed.

(** The thresholds only shift pairs among the three AI categories: the
    global shares of graded-once and graded-twice pairs are the same for
    every two threshold settings. *)
Theorem thresholds_do_not_move_manual_progress (repository : option Repository)
    (t1 t2 : Thresholds) (r1 r2 : GradingStats) :
  calculateGradingStats repository t1 = Some r1 ->
  calculateGradingStats repository t2 = Some r2 ->
  g_gradedOnce (globalStats r1) == g_gradedOnce (globalStats r2) /\
  g_graded2Plus (globalStats r1) == g_graded2Plus (globalStats r2).
Proof.
  unfold calculateGradingStats.
  destruct repository as [[[qs|] [submissions|]]|]; try discriminate.
  cbn [questions studentSubmissions]. intros [= <-] [= <-]. cbn [globalStats].
  apply (fold_left_related _ _
           (fun s s' : AggState =>
              g_gradedOnce (fst s) == g_gradedOnce (fst s') /\
              g_graded2Plus (fst s) == g_graded2Plus (fst s')) eq);
    [|apply Forall2_same; reflexivity|split; reflexivity].
  intros s s' q ? Hs <-. unfold processQuestion. cbn [fst].
  apply (fold_left_related _ _
           (fun s s' : AggState =>
              g_gradedOnce (fst s) == g_gradedOnce (fst s') /\
              g_graded2Plus (fst s) == g_graded2Plus (fst s')) eq);
    [|apply Forall2_same; reflexivity|exact Hs].
  intros u u' item ? Hu <-. unfold processItem.
  apply (fold_left_related _ _
           (fun s s' : AggState =>
              g_gradedOnce (fst s) == g_gradedOnce (fst s') /\
              g_graded2Plus (fst s) == g_graded2Plus (fst s')) eq);
    [|apply Forall2_same; reflexivity|exact Hu].
  intros v v' student ? Hv <-. unfold processStudent. cbn [fst].
  apply manual_counters_addContribution; [|exact Hv].
  apply manualPart_aggregatorCategory.
Qed.

Lemma thresholds_do_not_move_manual_progress_witness :
  exists r1 r2,
    calculateGradingStats (Some sampleRepository) (mkThresholds 80 50) = Some r1 /\
    calculateGradingStats (Some sampleRepository) (mkThresholds 20 90) = Some r2 /\
    g_gradedOnce (globalStats r1) == g_gradedOnce (globalStats r2) /\
    g_graded2Plus (globalStats r1) == g_graded2Plus (globalStats r2).
Proof.
  eexists _, _. split; [reflexivity|]. split; [reflexivity|].
  apply (thresholds_do_not_move_manual_progress (Some sampleRepository)
           (mkThresholds 80 50) (mkThresholds 20 90)); reflexivity.
Defined.

(** ** Per-question percentages *)

(** C7. Every top-level question has an entry in [questionStats] under its
    id; the entry's [totalCount] is positive exactly when there is at least
    one student submission; and when it is positive the entry's five
    category percentages sum to 100 (in exact rational arithmetic). *)
Theorem question_percentages_sum_to_100 (qs : list Question)
    (submissions : list Student) (parameters : Thresholds) (question : Question) :
  In question qs ->
  exists r e,
    calculateGradingStats (Some (mkRepository (Some qs) (Some submissions))) parameters
      = Some r /\
    questionStats r !! question_id question = Some e /\
    (0 < totalCount e <-> submissions <> []) /\
    (0 < totalCount e ->
     q_aiHigh e + q_aiLow e + q_lowScore e + q_gradedOnce e + q_graded2Plus e == 100).
Proof.
  intros Hin.
  set (st := fold_left (processQuestion submissions parameters (100 / len qs)) qs
               (zeroGlobalStats, ∅)).
  assert (Hkey : is_Some (snd st !! question_id question)).
  { apply (fold_left_established _
             (fun q (s : AggState) => is_Some (snd s !! question_id q)));
      [ intros; apply processQuestion_adds_key
      | intros; now apply processQuestion_keeps_key
      | exact Hin ]. }
  assert (Hset : settled (snd st)).
  { apply (fold_left_invariant _ (fun s : AggState => settled (snd s))).
    - intros s q Hs. apply processQuestion_settled, Hs.
    - intros k e. cbn [snd]. rewrite lookup_empty. discriminate. }
  destruct Hkey as [e He].
  exists (mkGradingStats (fst st) (snd st)), e.
  split; [reflexivity|]. split; [exact He|].
  split; [|exact (Hset _ _ He)].
  destruct submissions as [|student submissions].
  - assert (Hzero : snd st !! question_id question = Some zeroQuestionStats).
    { apply (fold_left_established _
               (fun q (s : AggState) =>
                  snd s !! question_id q = Some zeroQuestionStats));
        [| |exact Hin].
      - intros s q. rewrite processQuestion_no_students. apply lookup_insert_eq.
      - intros s q b Hq. rewrite processQuestion_no_students. cbn [snd].
        destruct (decide (question_id b = question_id q)) as [E|E].
        + rewrite E. apply lookup_insert_eq.
        + rewrite lookup_insert_ne by exact E. exact Hq. }
    rewrite He in Hzero. injection Hzero as ->. cbn [totalCount zeroQuestionStats].
    split; [intros H; exfalso; exact (Qlt_irrefl 0 H) | intros H; now contradiction H].
  - assert (Hall : forall k e', snd st !! k = Some e' -> percentEntry e').
    { apply (fold_left_invariant _
               (fun s : AggState =>
                  forall k e', snd s !! k = Some e' -> percentEntry e')).
      - intros s q Hs. apply processQuestion_percentEntries; [discriminate|exact Hs].
      - intros k e'. cbn [snd]. rewrite lookup_empty. discriminate. }
    destruct (Hall _ _ He) as (_ & Hpos & _).
    split; [discriminate | intros _; exact Hpos].
Qed.

Lemma question_percentages_sum_to_100_witness :
  let Q1 := mkQuestion "Q1" (Some 10) None in
  let submissions := [mkStudent "s1" "Ada" (Some [mkGrade "Q1" (Some 90) (Some 8) None]);
                      mkStudent "s2" "Bob" None] in
  In Q1 [Q1] /\
  exists r e,
    calculateGradingStats (Some (mkRepository (Some [Q1]) (Some submissions)))
      (mkThresholds 80 50) = Some r /\
    questionStats r !! question_id Q1 = Some e /\
    0 < totalCount e /\
    q_aiHigh e + q_aiLow e + q_lowScore e + q_gradedOnce e + q_graded2Plus e == 100.
Proof.
  cbv zeta.
  assert (Hin : In (mkQuestion "Q1" (Some 10) None) [mkQuestion "Q1" (Some 10) None])
    by (left; reflexivity).
  split; [exact Hin|].
  destruct (question_percentages_sum_to_100 _
              [mkStudent "s1" "Ada" (Some [mkGrade "Q1" (Some 90) (Some 8) None]);
               mkStudent "s2" "Bob" None]
              (mkThresholds 80 50) _ Hin)
    as (r & e & Hr & He & Hpos & Hsum).
  exists r, e.
  assert (Hp : 0 < totalCount e) by (apply Hpos; discriminate).
  split; [exact Hr|]. split; [exact He|]. split; [exact Hp|exact (Hsum Hp)].
Defined.
